(** * BizPulse estimation core: segmentation, frequency model, value model, churn scorer

    A shallow embedding of [bizpulse/utils/segmentation.py] and
    [bizpulse/utils/models.py], of the aggregation and the price estimate of
    [bizpulse/utils/data_loader.py], and of [calculate_health_score] of
    [bizpulse/app.py].

    Conventions of the embedding.
    - A pandas DataFrame is a mutable object: it lives in a store ([heap]) and
      is passed around by reference ([loc]).  [copy], row selection and
      [nlargest] allocate a new object; [df[col] = ...] updates the object in
      place.
    - A DataFrame is a list of rows.  A row carries the aggregate's columns
      ([customer]) and, as options, the columns that the components add
      ([None]: the column is absent, reading it raises [KeyError]).  A row is
      what its named columns hold: the order of the columns is not modelled.
    - int64 columns are [Z].  float64 values are idealised: exact rationals [Q]
      in the value model and the churn scorer (which only add, multiply, divide
      and compare), reals [R] in the frequency model (which needs powers,
      logarithms and exponentials).  Rounding is not modelled.  The one float
      value that decides control flow, nan, is modelled where it arises (a
      reduction of an empty Series, a division of zero by zero) as [None].
    - The churn scorer is also given with the arithmetic of the machine
      ([ChurnFloat64]): a double is the rational it denotes and every
      operation rounds to the nearest double ([Float64.round]).  What the
      scorer computes from its input, score by score and level by level, is
      stated of that form; the idealised form serves the statements that
      hold whatever the rounding (ranges, monotonicity, partitions, the
      store).
    - [scipy.optimize.minimize] and [scipy.special.gammaln] are library
      functions; the frequency model takes them as parameters. *)

From Stdlib Require Import ZArith QArith Qround Qminmax Reals Psatz.
From stdpp Require Import gmap strings list sorting.

(* ===================================================================== *)
(** ** Data model *)
(* ===================================================================== *)

(** One row of the customer aggregate, as [aggregate_to_customers] builds it.
    Timestamps are kept as integers. *)
Record customer := {
  client_name : string;
  frequency : Z;
  recency : Z;
  first_visit : Z;
  total_spend : Q;
  avg_spend : Q;
  email : option string;
  phone : option string;
  days_since_visit : Z;
}.

(** A DataFrame row: the aggregate's columns and the columns the components
    add ([col_x] is the column named [x]). *)
Record row := {
  base : customer;
  col_segment : option string;
  col_clv : option Q;
  col_projected_clv_if_regular : option Q;
  col_recency_score : option Q;
  col_frequency_score : option Q;
  col_p_churn : option Q;
  col_risk_level : option string;
}.

Definition DataFrame := list row.

(** A row of the aggregate as it comes out of the aggregator: no added
    column. *)
Definition of_customer (c : customer) : row :=
  {| base := c; col_segment := None; col_clv := None; col_projected_clv_if_regular := None;
     col_recency_score := None; col_frequency_score := None; col_p_churn := None;
     col_risk_level := None |}.

(** Column assignment, one setter per added column. *)
Definition set_segment (v : string) (r : row) : row :=
  {| base := base r; col_segment := Some v; col_clv := col_clv r;
     col_projected_clv_if_regular := col_projected_clv_if_regular r;
     col_recency_score := col_recency_score r; col_frequency_score := col_frequency_score r;
     col_p_churn := col_p_churn r; col_risk_level := col_risk_level r |}.

Definition set_clv (v : Q) (r : row) : row :=
  {| base := base r; col_segment := col_segment r; col_clv := Some v;
     col_projected_clv_if_regular := col_projected_clv_if_regular r;
     col_recency_score := col_recency_score r; col_frequency_score := col_frequency_score r;
     col_p_churn := col_p_churn r; col_risk_level := col_risk_level r |}.

Definition set_projected_clv_if_regular (v : Q) (r : row) : row :=
  {| base := base r; col_segment := col_segment r; col_clv := col_clv r;
     col_projected_clv_if_regular := Some v;
     col_recency_score := col_recency_score r; col_frequency_score := col_frequency_score r;
     col_p_churn := col_p_churn r; col_risk_level := col_risk_level r |}.

Definition set_recency_score (v : Q) (r : row) : row :=
  {| base := base r; col_segment := col_segment r; col_clv := col_clv r;
     col_projected_clv_if_regular := col_projected_clv_if_regular r;
     col_recency_score := Some v; col_frequency_score := col_frequency_score r;
     col_p_churn := col_p_churn r; col_risk_level := col_risk_level r |}.

Definition set_frequency_score (v : Q) (r : row) : row :=
  {| base := base r; col_segment := col_segment r; col_clv := col_clv r;
     col_projected_clv_if_regular := col_projected_clv_if_regular r;
     col_recency_score := col_recency_score r; col_frequency_score := Some v;
     col_p_churn := col_p_churn r; col_risk_level := col_risk_level r |}.

Definition set_p_churn (v : Q) (r : row) : row :=
  {| base := base r; col_segment := col_segment r; col_clv := col_clv r;
     col_projected_clv_if_regular := col_projected_clv_if_regular r;
     col_recency_score := col_recency_score r; col_frequency_score := col_frequency_score r;
     col_p_churn := Some v; col_risk_level := col_risk_level r |}.

Definition set_risk_level (v : string) (r : row) : row :=
  {| base := base r; col_segment := col_segment r; col_clv := col_clv r;
     col_projected_clv_if_regular := col_projected_clv_if_regular r;
     col_recency_score := col_recency_score r; col_frequency_score := col_frequency_score r;
     col_p_churn := col_p_churn r; col_risk_level := Some v |}.

(* ===================================================================== *)
(** ** The Python runtime: objects, exceptions, and the monad of programs *)
(* ===================================================================== *)

Inductive exn :=
| ZeroDivisionError
| KeyError (key : string)
| InvalidReference.

Abbreviation loc := positive.

(** The store: the DataFrame objects alive, by reference. *)
Abbreviation heap := (gmap loc DataFrame).

Inductive outcome (A : Type) :=
| Returns (a : A) (h : heap)
| Raises (e : exn).
Arguments Returns {A} a h.
Arguments Raises {A} e.

Module Py.

Definition py (A : Type) : Type := heap → outcome A.

Definition ret {A} (a : A) : py A := λ h, Returns a h.

Definition bind {A B} (m : py A) (k : A → py B) : py B :=
  λ h, match m h with
       | Returns a h' => k a h'
       | Raises e => Raises e
       end.

Definition raise {A} (e : exn) : py A := λ _, Raises e.

(** Reading the object behind a reference. *)
Definition load (l : loc) : py DataFrame :=
  λ h, match h !! l with
       | Some o => Returns o h
       | None => Raises InvalidReference
       end.

(** A new object, at a reference not in use. *)
Definition alloc (o : DataFrame) : py loc :=
  λ h, let l := fresh (dom h) in Returns l (<[l := o]> h).

(** In-place update of an existing object. *)
Definition store (l : loc) (o : DataFrame) : py unit :=
  λ h, match h !! l with
       | Some _ => Returns tt (<[l := o]> h)
       | None => Raises InvalidReference
       end.

End Py.

Export Py.

Declare Scope py_scope.
Delimit Scope py_scope with py.
Notation "x ⇐ m ;; k" := (Py.bind m (λ x, k))
  (at level 100, m at next level, right associativity) : py_scope.
Notation "m ;;; k" := (Py.bind m (λ _, k))
  (at level 100, right associativity) : py_scope.

(* ===================================================================== *)
(** ** pandas operations on DataFrame objects *)
(* ===================================================================== *)

Module Pandas.

Local Open Scope py_scope.

(** [df.copy()] *)
Definition copy (df : loc) : py loc :=
  t ⇐ load df ;; alloc t.

(** [len(df)] *)
Definition len (df : loc) : py Z :=
  t ⇐ load df ;; ret (Z.of_nat (length t)).

(** [df[name]] for a column of the aggregate: always present. *)
Definition getitem {A} (df : loc) (col : customer → A) : py (list A) :=
  t ⇐ load df ;; ret ((λ r, col (base r)) <$> t).

(** [df[name]] for an added column: [KeyError] when the column is absent. *)
Definition getitem_added {A} (df : loc) (name : string) (col : row → option A)
  : py (list A) :=
  t ⇐ load df ;;
  match mapM col t with
  | Some c => ret c
  | None => raise (KeyError name)
  end.

(** [df[name] = series], the Series having the index of [df]. *)
Definition setitem {A} (df : loc) (set : A → row → row) (series : list A)
  : py unit :=
  t ⇐ load df ;; store df (zip_with set series t).

(** The rows of [t] at which the boolean Series [mask] holds. *)
Fixpoint mask_rows (mask : list bool) (t : DataFrame) : DataFrame :=
  match mask, t with
  | b :: mask', r :: t' =>
      if b then r :: mask_rows mask' t' else mask_rows mask' t'
  | _, _ => []
  end.

(** [df[mask]], a new object holding the rows selected by [mask]. *)
Definition select (df : loc) (mask : list bool) : py loc :=
  t ⇐ load df ;; alloc (mask_rows mask t).

(** A scalar assigned to a column is broadcast to every row. *)
Definition broadcast {A} (n : nat) (v : A) : list A := replicate n v.

(** [Series.sum()] of a float64 column *)
Definition series_sum (s : list Q) : Q := foldr Qplus 0%Q s.

End Pandas.

Export Pandas.

(* ===================================================================== *)
(** ** Segmentation ([utils/segmentation.py]) *)
(* ===================================================================== *)

Module Segmentation.

Local Open Scope py_scope.

Record rules := {
  rule_min : Z;
  rule_max : Z;
  color : string;
  description : string;
}.

(** The dict literal, in insertion order (the order Python iterates it). *)
Definition SEGMENT_DEFINITIONS : list (string * rules) :=
  [ ("Explorer",
     {| rule_min := 1; rule_max := 2; color := "#FF6B6B";
        description := "1-2 visits" |});
    ("Casual",
     {| rule_min := 3; rule_max := 8; color := "#4ECDC4";
        description := "3-8 visits" |});
    ("Regular",
     {| rule_min := 9; rule_max := 12; color := "#45B7D1";
        description := "9-12 visits" |});
    ("Superuser",
     {| rule_min := 13; rule_max := 999; color := "#96CEB4";
        description := "13+ visits" |}) ]%string.

(** The [for] loop of [assign_segment] over the items still to visit; the
    empty list is the fall-through to [return "Explorer"]. *)
Fixpoint assign_segment_loop (items : list (string * rules)) (frequency : Z)
  : string :=
  match items with
  | [] => "Explorer"
  | (segment, rules) :: items' =>
      if bool_decide (rule_min rules ≤ frequency ≤ rule_max rules)%Z
      then segment
      else assign_segment_loop items' frequency
  end.

Definition assign_segment (frequency : Z) : string :=
  assign_segment_loop SEGMENT_DEFINITIONS frequency.

Definition assign_segments (customer_df : loc) : py loc :=
  df ⇐ copy customer_df ;;
  freq ⇐ getitem df frequency ;;
  setitem df set_segment (assign_segment <$> freq) ;;;
  ret df.

End Segmentation.

(* ===================================================================== *)
(** ** Churn scorer ([calculate_churn_probability], [get_churn_summary]) *)
(* ===================================================================== *)

Module Churn.

Local Open Scope py_scope.

(** [Series.max()] of an int64 column; nan ([None]) for an empty Series. *)
Definition series_max (s : list Z) : option Z :=
  foldr (λ x acc, Some (match acc with Some m => Z.max x m | None => x end))
        None s.

(** [m > 0] for the result of [Series.max()]: false on nan. *)
Definition gt_zero (m : option Z) : bool :=
  match m with
  | Some m => bool_decide (0 < m)%Z
  | None => false
  end.

(** [Series.clip(lower, upper)], elementwise *)
Definition clip (lower upper x : Q) : Q := Qmin (Qmax x lower) upper.

(** The nested function [risk_level]. *)
Definition risk_level (p : Q) : string :=
  if Qle_bool 0.7 p then "high"
  else if Qle_bool 0.4 p then "medium"
  else "low".

(** [df["days_since_visit"] / max_days if max_days > 0 else 0], the scalar 0
    being broadcast by the assignment. *)
Definition recency_scores (days : list Z) (max_days : option Z) : list Q :=
  match max_days with
  | Some m =>
      if gt_zero max_days
      then (λ d, inject_Z d / inject_Z m)%Q <$> days
      else broadcast (length days) 0%Q
  | None => broadcast (length days) 0%Q
  end.

(** [1 - (df["frequency"] / max_freq) if max_freq > 0 else 0] *)
Definition frequency_scores (freq : list Z) (max_freq : option Z) : list Q :=
  match max_freq with
  | Some m =>
      if gt_zero max_freq
      then (λ f, 1 - inject_Z f / inject_Z m)%Q <$> freq
      else broadcast (length freq) 0%Q
  | None => broadcast (length freq) 0%Q
  end.

Definition calculate_churn_probability (customer_df : loc) : py loc :=
  df ⇐ copy customer_df ;;
  days ⇐ getitem df days_since_visit ;;
  let max_days := series_max days in
  freq ⇐ getitem df frequency ;;
  let max_freq := series_max freq in
  days ⇐ getitem df days_since_visit ;;
  setitem df set_recency_score (recency_scores days max_days) ;;;
  freq ⇐ getitem df frequency ;;
  setitem df set_frequency_score (frequency_scores freq max_freq) ;;;
  rs ⇐ getitem_added df "recency_score" col_recency_score ;;
  fs ⇐ getitem_added df "frequency_score" col_frequency_score ;;
  setitem df set_p_churn (zip_with (λ r f, r * 0.7 + f * 0.3)%Q rs fs) ;;;
  p ⇐ getitem_added df "p_churn" col_p_churn ;;
  setitem df set_p_churn (clip 0 1 <$> p) ;;;
  p ⇐ getitem_added df "p_churn" col_p_churn ;;
  setitem df set_risk_level (risk_level <$> p) ;;;
  ret df.

Record summary := {
  customer_df : loc;
  high_risk_count : Z;
  medium_risk_count : Z;
  low_risk_count : Z;
  revenue_at_risk : Q;
  still_active_pct : Q;
  high_risk_customers : loc;
}.

(** Python's [a / b] on ints: raises on a zero divisor. *)
Definition truediv (a b : Z) : py Q :=
  if bool_decide (b = 0)%Z then raise ZeroDivisionError
  else ret (inject_Z a / inject_Z b)%Q.

(** [df[df["risk_level"] == level]] *)
Definition select_risk (df : loc) (level : string) : py loc :=
  risk ⇐ getitem_added df "risk_level" col_risk_level ;;
  select df ((λ v, bool_decide (v = level)) <$> risk).

Definition get_churn_summary (customer_df : loc) : py summary :=
  df ⇐ calculate_churn_probability customer_df ;;
  high_risk ⇐ select_risk df "high" ;;
  medium_risk ⇐ select_risk df "medium" ;;
  low_risk ⇐ select_risk df "low" ;;
  spend ⇐ getitem high_risk total_spend ;;
  let revenue_at_risk := (series_sum spend * 0.8)%Q in
  n_low ⇐ len low_risk ;;
  n ⇐ len df ;;
  still_active_pct ⇐ (if bool_decide (0 < n)%Z then truediv n_low n
                      else ret 0%Q) ;;
  n_high ⇐ len high_risk ;;
  n_medium ⇐ len medium_risk ;;
  ret {| customer_df := df;
         high_risk_count := n_high;
         medium_risk_count := n_medium;
         low_risk_count := n_low;
         revenue_at_risk := revenue_at_risk;
         still_active_pct := still_active_pct;
         high_risk_customers := high_risk |}.

End Churn.

(* ===================================================================== *)
(** ** float64 arithmetic, and the churn scorer in it *)
(* ===================================================================== *)

(** A finite double is the rational it denotes.  Every operation is the
    exact operation followed by [round], rounding to the nearest double,
    ties to the one with an even significand (53 bits, subnormals below
    2^-1022).  Infinities and the overflow above 2^1024 are not modelled:
    the scores are quotients of int64 values, sums and products of numbers
    in [0, 1]. *)
Module Float64.

(** The fraction [num / den] ([den] positive, [num] not negative) rounded
    to the nearest integer, ties to the even one. *)
Definition round_half_even (num den : Z) : Z :=
  let q := (num / den)%Z in
  let r := (num mod den)%Z in
  match (2 * r ?= den)%Z with
  | Lt => q
  | Gt => (q + 1)%Z
  | Eq => if Z.even q then q else (q + 1)%Z
  end.

(** 2^e *)
Definition two_power (e : Z) : Q :=
  if (0 <=? e)%Z then inject_Z (2 ^ e) else 1 # Z.to_pos (2 ^ (- e)).

(** The exponent [k] with 2^k ≤ a/d < 2^(k+1), for positive [a] and [d]. *)
Definition floor_log2 (a d : Z) : Z :=
  let k := (Z.log2 a - Z.log2 d)%Z in
  if (if (0 <=? k)%Z then (2 ^ k * d <=? a)%Z else (d <=? a * 2 ^ (- k))%Z)
  then k else (k - 1)%Z.

(** The double nearest to [x]: a multiple of 2^e, where [e] is 52 below the
    exponent of [x], and not below -1074. *)
Definition round (x : Q) : Q :=
  let n := Qnum (Qred x) in
  let d := Z.pos (Qden (Qred x)) in
  if (n =? 0)%Z then 0%Q
  else
    let a := Z.abs n in
    let e := Z.max (floor_log2 a d - 52) (-1074) in
    let m := if (0 <=? e)%Z then round_half_even a (d * 2 ^ e)
             else round_half_even (a * 2 ^ (- e)) d in
    Qred (inject_Z (Z.sgn n * m) * two_power e).

(** A decimal literal of the program text. *)
Definition literal (x : Q) : Q := round x.

(** The conversion of an int64 value. *)
Definition of_int (z : Z) : Q := round (inject_Z z).

Definition add (a b : Q) : Q := round (a + b).
Definition sub (a b : Q) : Q := round (a - b).
Definition mul (a b : Q) : Q := round (a * b).

(** [a / b], for a divisor other than zero. *)
Definition div (a b : Q) : Q := round (a / b).

End Float64.

(** [calculate_churn_probability] with the arithmetic of the machine: the
    statements of [Churn.calculate_churn_probability], each operation on
    float64 values rounded.  The score columns hold doubles. *)
Module ChurnFloat64.

Import Churn.
Local Open Scope py_scope.

(** The nested function [risk_level], on a double. *)
Definition risk_level_float64 (p : Q) : string :=
  if Qle_bool (Float64.literal 0.7) p then "high"
  else if Qle_bool (Float64.literal 0.4) p then "medium"
  else "low".

(** [df["days_since_visit"] / max_days if max_days > 0 else 0]: numpy
    converts the int64 column and the int64 scalar to float64 and divides. *)
Definition recency_scores_float64 (days : list Z) (max_days : option Z)
  : list Q :=
  match max_days with
  | Some m =>
      if gt_zero max_days
      then (λ d, Float64.div (Float64.of_int d) (Float64.of_int m)) <$> days
      else broadcast (length days) 0%Q
  | None => broadcast (length days) 0%Q
  end.

(** [1 - (df["frequency"] / max_freq) if max_freq > 0 else 0] *)
Definition frequency_scores_float64 (freq : list Z) (max_freq : option Z)
  : list Q :=
  match max_freq with
  | Some m =>
      if gt_zero max_freq
      then (λ f, Float64.sub 1 (Float64.div (Float64.of_int f)
                                            (Float64.of_int m))) <$> freq
      else broadcast (length freq) 0%Q
  | None => broadcast (length freq) 0%Q
  end.

Definition calculate_churn_probability_float64 (customer_df : loc) : py loc :=
  df ⇐ copy customer_df ;;
  days ⇐ getitem df days_since_visit ;;
  let max_days := series_max days in
  freq ⇐ getitem df frequency ;;
  let max_freq := series_max freq in
  days ⇐ getitem df days_since_visit ;;
  setitem df set_recency_score (recency_scores_float64 days max_days) ;;;
  freq ⇐ getitem df frequency ;;
  setitem df set_frequency_score (frequency_scores_float64 freq max_freq) ;;;
  rs ⇐ getitem_added df "recency_score" col_recency_score ;;
  fs ⇐ getitem_added df "frequency_score" col_frequency_score ;;
  setitem df set_p_churn
    (zip_with (λ r f, Float64.add (Float64.mul r (Float64.literal 0.7))
                                  (Float64.mul f (Float64.literal 0.3)))
              rs fs) ;;;
  p ⇐ getitem_added df "p_churn" col_p_churn ;;
  setitem df set_p_churn (clip 0 1 <$> p) ;;;
  p ⇐ getitem_added df "p_churn" col_p_churn ;;
  setitem df set_risk_level (risk_level_float64 <$> p) ;;;
  ret df.

End ChurnFloat64.

(* ===================================================================== *)
(** ** Value model ([fit_gamma_gamma]) *)
(* ===================================================================== *)

Module ValueModel.

Local Open Scope py_scope.

(** Insertion of [x] in a list ordered by [before]: [x] goes in front of the
    first element that is not strictly before it. *)
Fixpoint insert_by {A} (before : A → A → bool) (x : A) (l : list A) : list A :=
  match l with
  | [] => [x]
  | y :: l' => if before y x then y :: insert_by before x l' else x :: l
  end.

(** A stable sort: among elements that [before] does not order, the ones
    that come first in [l] come first in the result. *)
Definition sort_by {A} (before : A → A → bool) (l : list A) : list A :=
  foldr (insert_by before) [] l.

Definition Qlt_bool (a b : Q) : bool := negb (Qle_bool b a).

(** The order of [nlargest]: [y] goes before [x] when its key is strictly
    larger. *)
Definition larger_first {A} (key : A → Q) (y x : A) : bool :=
  Qlt_bool (key x) (key y).

(** The first [n] rows of [t] in descending order of [keys], rows with equal
    keys in their original order. *)
Definition nlargest_rows (n : Z) (keys : list Q) (t : DataFrame) : DataFrame :=
  (take (Z.to_nat n) (sort_by (larger_first fst) (zip keys t))).*2.

(** [df.nlargest(n, name)]: the first [n] rows in descending order of the
    column, rows with equal values in their original order (keep="first");
    a new object. *)
Definition nlargest (df : loc) (n : Z) (name : string) (col : row → option Q)
  : py loc :=
  t ⇐ load df ;;
  match mapM col t with
  | Some keys => alloc (nlargest_rows n keys t)
  | None => raise (KeyError name)
  end.

(** [Series.mean()]; nan ([None]) for an empty Series. *)
Definition series_mean (s : list Q) : option Q :=
  match s with
  | [] => None
  | _ => Some (series_sum s / inject_Z (Z.of_nat (length s)))%Q
  end.

(** [Series.median()]: the middle value of the sorted Series, the mean of the
    two middle values when the length is even; nan for an empty Series. *)
Definition series_median (s : list Q) : option Q :=
  let sorted := sort_by Qlt_bool s in
  let n := length s in
  match n with
  | O => None
  | _ =>
      if Nat.even n
      then Some ((nth (n / 2 - 1) sorted 0 + nth (n / 2) sorted 0) / 2)%Q
      else Some (nth (n / 2) sorted 0%Q)
  end.

(** [a > m] where [m] may be nan: false on nan. *)
Definition gt_nan (a : Q) (m : option Q) : bool :=
  match m with
  | Some m => Qlt_bool m a
  | None => false
  end.

(** [int(x)]: truncation towards zero. *)
Definition int (x : Q) : Z := (Qnum x ÷ Z.pos (Qden x))%Z.

(** [a or b] on ints: [b] when [a] is zero. *)
Definition or_else (a b : Z) : Z := if bool_decide (a = 0)%Z then b else a.

Record clv_summary := {
  repeat_customers : loc;
  avg_clv : option Q;
  total_clv : Q;
  top_10_pct_clv : option Q;
  hidden_gems : loc;
  n_repeat : Z;
}.

(** The returned dict: [{"success": False, "message": ...}] or
    [{"success": True, ...}]. *)
Inductive result :=
| Failure (message : string)
| Success (s : clv_summary).

Definition success (r : result) : bool :=
  match r with Failure _ => false | Success _ => true end.

Definition fit_gamma_gamma (customer_df : loc) : py result :=
  freq ⇐ getitem customer_df frequency ;;
  selected ⇐ select customer_df ((λ f, bool_decide (2 ≤ f)%Z) <$> freq) ;;
  repeat_customers ⇐ copy selected ;;
  n ⇐ len repeat_customers ;;
  if bool_decide (n < 10)%Z
  then ret (Failure "Need at least 10 repeat customers for CLV analysis")
  else
    avg ⇐ getitem repeat_customers avg_spend ;;
    freq ⇐ getitem repeat_customers frequency ;;
    setitem repeat_customers set_clv
      (zip_with (λ a f, a * inject_Z f * 1.2)%Q avg freq) ;;;
    clv ⇐ getitem_added repeat_customers "clv" col_clv ;;
    let avg_clv := series_mean clv in
    clv ⇐ getitem_added repeat_customers "clv" col_clv ;;
    let total_clv := series_sum clv in
    n ⇐ len repeat_customers ;;
    top ⇐ nlargest repeat_customers
            (or_else (int (inject_Z n * 0.1)%Q) 1) "clv" col_clv ;;
    top_clv ⇐ getitem_added top "clv" col_clv ;;
    let top_10_pct := series_mean top_clv in
    all_customers ⇐ copy customer_df ;;
    avg ⇐ getitem all_customers avg_spend ;;
    setitem all_customers set_projected_clv_if_regular
      ((λ a, a * 12)%Q <$> avg) ;;;
    freq ⇐ getitem all_customers frequency ;;
    avg ⇐ getitem all_customers avg_spend ;;
    let median := series_median avg in
    filtered ⇐ select all_customers
                 (zip_with andb ((λ f, bool_decide (f ≤ 4)%Z) <$> freq)
                                ((λ a, gt_nan a median) <$> avg)) ;;
    hidden_gems ⇐ nlargest filtered 10 "avg_spend"
                    (λ r, Some (avg_spend (base r))) ;;
    n_repeat ⇐ len repeat_customers ;;
    ret (Success {| repeat_customers := repeat_customers;
                    avg_clv := avg_clv;
                    total_clv := total_clv;
                    top_10_pct_clv := top_10_pct;
                    hidden_gems := hidden_gems;
                    n_repeat := n_repeat |}).

End ValueModel.

(* ===================================================================== *)
(** ** Frequency model ([zt_nbd_log_likelihood], [fit_zt_nbd]) *)
(* ===================================================================== *)

Module FrequencyModel.

Local Open Scope py_scope.

Definition Rleb (a b : R) : bool := if Rle_dec a b then true else false.
Definition Rltb (a b : R) : bool := if Rlt_dec a b then true else false.

(** [Series.value_counts()]: the number of occurrences of each value. *)
Definition value_counts (s : list Z) : gmap Z Z :=
  foldr (λ x m, <[x := (default 0 (m !! x) + 1)%Z]> m) ∅ s.

(** The order of the index: items are compared by their value. *)
Definition index_le (a b : Z * Z) : Prop := (a.1 ≤ b.1)%Z.

#[global] Instance index_le_dec : RelDecision index_le.
Proof. intros a b. unfold index_le. apply _. Defined.

(** [Series.sort_index()]: the (value, count) items by ascending value. *)
Definition sort_index (m : gmap Z Z) : list (Z * Z) :=
  merge_sort index_le (map_to_list m).

(** [Series.sum()] of a float64 Series, in the reals *)
Definition float_sum (s : list R) : R := foldr Rplus 0%R s.

(** [Series.mean()] of an int64 column; nan ([None]) when it is empty. *)
Definition int_mean (s : list Z) : option R :=
  match s with
  | [] => None
  | _ => Some (float_sum (IZR <$> s) / INR (length s))%R
  end.

(** [Series.var()] (sample variance, ddof=1); nan for fewer than two
    values. *)
Definition int_var (s : list Z) : option R :=
  match int_mean s with
  | Some m =>
      if (length s <=? 1)%nat then None
      else Some (float_sum ((λ x, (IZR x - m) ^ 2)%R <$> s)
                 / (INR (length s) - 1))%R
  | None => None
  end.

(** [a > b] on floats that may be nan: false when either is. *)
Definition gt_float (a b : option R) : bool :=
  match a, b with
  | Some a, Some b => Rltb b a
  | _, _ => false
  end.

(** numpy's [a / b]: never raises; [None] when the divisor is zero (numpy
    warns and yields nan or an infinity). *)
Definition np_div (a b : R) : option R :=
  if Req_dec_T b 0 then None else Some (a / b)%R.

(** Method-of-moments starting values. *)
Definition initial_guess (mean_freq var_freq : option R) : R * R :=
  match mean_freq, var_freq with
  | Some m, Some v =>
      if gt_float var_freq mean_freq
      then (m ^ 2 / (v - m), m / (v - m))%R
      else (1, 1)%R
  | _, _ => (1, 1)%R
  end.

(** Interpretation of the shape parameter. *)
Definition heterogeneity_of (r : R) : string * string :=
  if Rltb r 0.5 then
    ("high", "Your customers are very different from each other")
  else if Rltb r 1.5 then
    ("moderate", "Your customers have moderately varied visit patterns")
  else
    ("low", "Your customers have fairly similar visit patterns").

(** Model fit quality, from the chi-square statistic and the degrees of
    freedom. *)
Definition fit_quality_of (chi_sq : R) (df : Z) : string * string :=
  if Rltb (chi_sq / IZR (Z.max df 1)) 2 then
    ("good", "This model fits your data well")
  else if Rltb (chi_sq / IZR (Z.max df 1)) 4 then
    ("moderate",
     "This model captures most patterns, treat estimates as directional")
  else
    ("poor",
     "This model has limited fit, estimates are rough approximations").

(** What [scipy.optimize.minimize] returns: the point found and the value of
    the objective there. *)
Record OptimizeResult := {
  x : R * R;
  fun_ : R;
}.

Record fit := {
  r : R;
  alpha : R;
  f0 : R;
  n_observed : Z;
  total_market : R;
  market_reached : option R;
  chi_square : R;
  df : Z;
  log_likelihood : R;
  heterogeneity : string;
  hetero_desc : string;
  fit_quality : string;
  fit_desc : string;
  freq_actual : list (Z * Z);
  freq_predicted : list (Z * R);
  avg_visits : option R;
}.

Section Fit.

(** [minimize objective x0 bounds] stands for
    [scipy.optimize.minimize(objective, x0=x0, method="L-BFGS-B",
    bounds=bounds)]. *)
Variable minimize :
  (R * R → R) → R * R → (R * R) * (R * R) → OptimizeResult.

(** [scipy.special.gammaln] *)
Variable gammaln : R → R.

(** The log-probability of [x] visits under the (untruncated) NBD. *)
Definition log_p_x (r alpha : R) (x : Z) : R :=
  (gammaln (r + IZR x) - gammaln r - gammaln (IZR x + 1)
   + r * ln (alpha / (alpha + 1))
   + IZR x * ln (1 / (alpha + 1)))%R.

Definition zt_nbd_log_likelihood (params : R * R)
    (frequency_counts : list (Z * Z)) : R :=
  let '(r, alpha) := params in
  if Rleb r 0 || Rleb alpha 0 then 1e10%R
  else
    let p_zero := Rpower (alpha / (alpha + 1)) r in
    let ll :=
      fold_left
        (λ ll '(x, count),
           if (x <? 1)%Z || (count =? 0)%Z then ll
           else (ll + IZR count * (log_p_x r alpha x - ln (1 - p_zero)))%R)
        frequency_counts 0%R in
    (- ll)%R.

Definition fit_zt_nbd (customer_df : loc) : py fit :=
  freq ⇐ getitem customer_df frequency ;;
  let freq_counts := sort_index (value_counts freq) in
  n_observed ⇐ len customer_df ;;
  freq ⇐ getitem customer_df frequency ;;
  let mean_freq := int_mean freq in
  freq ⇐ getitem customer_df frequency ;;
  let var_freq := int_var freq in
  let '(r_init, alpha_init) := initial_guess mean_freq var_freq in
  let result :=
    minimize (λ params, zt_nbd_log_likelihood params freq_counts)
             (Rmax 0.1 r_init, Rmax 0.1 alpha_init)
             ((0.01, 100), (0.01, 100))%R in
  let '(r, alpha) := x result in
  let p_zero := Rpower (alpha / (alpha + 1)) r in
  let f0 := (IZR n_observed * p_zero / (1 - p_zero))%R in
  let total_market := (IZR n_observed + f0)%R in
  let market_reached := np_div (IZR n_observed) total_market in
  let predicted_counts :=
    (λ x, exp (log_p_x r alpha x) / (1 - p_zero) * IZR n_observed)%R
      <$> freq_counts.*1 in
  let chi_sq :=
    float_sum (zip_with (λ o p, (IZR o - p) ^ 2 / p)%R
                         freq_counts.*2 predicted_counts) in
  let df := (Z.of_nat (length freq_counts) - 2)%Z in
  let '(heterogeneity, hetero_desc) := heterogeneity_of r in
  let '(fit_quality, fit_desc) := fit_quality_of chi_sq df in
  freq ⇐ getitem customer_df frequency ;;
  ret {| r := r;
         alpha := alpha;
         f0 := f0;
         n_observed := n_observed;
         total_market := total_market;
         market_reached := market_reached;
         chi_square := chi_sq;
         df := df;
         log_likelihood := (- fun_ result)%R;
         heterogeneity := heterogeneity;
         hetero_desc := hetero_desc;
         fit_quality := fit_quality;
         fit_desc := fit_desc;
         freq_actual := freq_counts;
         freq_predicted := zip freq_counts.*1 predicted_counts;
         avg_visits := int_mean freq |}.

End Fit.

End FrequencyModel.

(* ===================================================================== *)
(** ** Specifications *)
(* ===================================================================== *)

(** [returns m h Φ]: run from the store [h], the program [m] returns (it does
    not raise), with a value and a final store that satisfy [Φ]. *)
Definition returns {A} (m : py A) (h : heap) (Φ : A → heap → Prop) : Prop :=
  ∃ a h', m h = Returns a h' ∧ Φ a h'.

Module SegmentationSpec.

Import Segmentation.

(** The table [assign_segments] returns. *)
Definition segmented (t : DataFrame) : DataFrame :=
  (λ r, set_segment (assign_segment (frequency (base r))) r) <$> t.

(** The tiers as the specification words them: Explorer [1,2], Casual
    [3,8], Regular [9,12], Superuser [13,∞). *)
Definition tier (frequency : Z) : string :=
  if bool_decide (1 ≤ frequency ≤ 2)%Z then "Explorer"
  else if bool_decide (3 ≤ frequency ≤ 8)%Z then "Casual"
  else if bool_decide (9 ≤ frequency ≤ 12)%Z then "Regular"
  else "Superuser".

End SegmentationSpec.

Module ChurnSpec.

Import Churn.
Local Open Scope Q_scope.

(** The scores of one row, given the population maxima. *)
Definition recency_score_at (max_days : option Z) (d : Z) : Q :=
  match max_days with
  | Some m => if gt_zero max_days then inject_Z d / inject_Z m else 0
  | None => 0
  end.

Definition frequency_score_at (max_freq : option Z) (f : Z) : Q :=
  match max_freq with
  | Some m => if gt_zero max_freq then 1 - inject_Z f / inject_Z m else 0
  | None => 0
  end.

Definition p_churn_at (max_days max_freq : option Z) (c : customer) : Q :=
  clip 0 1 (recency_score_at max_days (days_since_visit c) * 0.7
            + frequency_score_at max_freq (frequency c) * 0.3).

(** The row [calculate_churn_probability] makes of a row [r]. *)
Definition churn_row (max_days max_freq : option Z) (r : row) : row :=
  {| base := base r;
     col_segment := col_segment r;
     col_clv := col_clv r;
     col_projected_clv_if_regular := col_projected_clv_if_regular r;
     col_recency_score :=
       Some (recency_score_at max_days (days_since_visit (base r)));
     col_frequency_score :=
       Some (frequency_score_at max_freq (frequency (base r)));
     col_p_churn := Some (p_churn_at max_days max_freq (base r));
     col_risk_level :=
       Some (risk_level (p_churn_at max_days max_freq (base r))) |}.

(** The table [calculate_churn_probability] returns. *)
Definition scored (t : DataFrame) : DataFrame :=
  churn_row (series_max ((λ r, days_since_visit (base r)) <$> t))
            (series_max ((λ r, frequency (base r)) <$> t)) <$> t.

(** The rows of a table at a given risk level. *)
Definition at_risk (level : string) (t : DataFrame) : DataFrame :=
  List.filter (λ r, bool_decide (col_risk_level r = Some level)) t.

(** Rows of the aggregate: days since the last visit and visit counts are
    not negative. *)
Definition well_formed (t : DataFrame) : Prop :=
  Forall (λ r, (0 ≤ days_since_visit (base r))%Z
               ∧ (0 ≤ frequency (base r))%Z) t.

(** *** The scorer as the specification words it *)

(** [m] is the maximum of the column [s]. *)
Definition is_max (m : Z) (s : list Z) : Prop :=
  m ∈ s ∧ Forall (λ x, x ≤ m)%Z s.

(** recency_score = days_since_visit / max(days_since_visit), 0 when the
    maximum is 0 *)
Definition spec_recency_score (days max_days : Z) : Q :=
  if bool_decide (max_days = 0)%Z then 0
  else inject_Z days / inject_Z max_days.

(** frequency_score = 1 − frequency / max(frequency), 0 when the maximum
    is 0 *)
Definition spec_frequency_score (freq max_freq : Z) : Q :=
  if bool_decide (max_freq = 0)%Z then 0
  else 1 - inject_Z freq / inject_Z max_freq.

(** clip(x, lo, hi) *)
Definition spec_clip (x lo hi : Q) : Q :=
  if Qlt_le_dec x lo then lo else if Qlt_le_dec hi x then hi else x.

(** p_churn = clip(0.7·recency_score + 0.3·frequency_score, 0, 1) *)
Definition spec_p_churn (recency_score frequency_score : Q) : Q :=
  spec_clip (0.7 * recency_score + 0.3 * frequency_score) 0 1.

(** high when p_churn ≥ 0.70, medium when 0.40 ≤ p_churn < 0.70, low when
    p_churn < 0.40 *)
Inductive spec_risk (p : Q) : string → Prop :=
| spec_high : 0.7 <= p → spec_risk p "high"
| spec_medium : 0.4 <= p → p < 0.7 → spec_risk p "medium"
| spec_low : p < 0.4 → spec_risk p "low".

(** What the specification says of the output row [r'] of a customer [c],
    in a population with maxima [max_days] and [max_freq]. *)
Definition spec_row (max_days max_freq : Z) (c : customer) (r' : row) : Prop :=
  ∃ rs fs p level,
    col_recency_score r' = Some rs ∧
    col_frequency_score r' = Some fs ∧
    col_p_churn r' = Some p ∧
    col_risk_level r' = Some level ∧
    rs == spec_recency_score (days_since_visit c) max_days ∧
    fs == spec_frequency_score (frequency c) max_freq ∧
    p == spec_p_churn rs fs ∧
    spec_risk p level.

(** C3 as the claim has it, in exact arithmetic, as a postcondition of the
    scorer on the table [t]: the object returned holds one row per
    customer, each as [spec_row] describes, whatever the maxima of the two
    columns are. *)
Definition scores_as_specified (t : DataFrame) (df : loc) (h' : heap) : Prop :=
  ∃ out, h' !! df = Some out ∧
    Forall2
      (λ r r', ∀ max_days max_freq,
         is_max max_days ((λ r, days_since_visit (base r)) <$> t) →
         is_max max_freq ((λ r, frequency (base r)) <$> t) →
         spec_row max_days max_freq (base r) r')
      t out.

(** C10 as a postcondition of [get_churn_summary] on the table [t]. *)
Definition summary_partitions (t : DataFrame) (s : summary) (h' : heap)
  : Prop :=
  ∃ out, h' !! customer_df s = Some out ∧
    length out = length t ∧
    Forall (λ r, ∃ level, col_risk_level r = Some level
                          ∧ level ∈ ["high"; "medium"; "low"]%string)
           out ∧
    high_risk_count s = Z.of_nat (length (at_risk "high" out)) ∧
    medium_risk_count s = Z.of_nat (length (at_risk "medium" out)) ∧
    low_risk_count s = Z.of_nat (length (at_risk "low" out)) ∧
    (high_risk_count s + medium_risk_count s + low_risk_count s)%Z
    = Z.of_nat (length t) ∧
    0 <= still_active_pct s <= 1.

(** [d2] is [d1] multiplied by [c]. *)
Definition times (c : Q) (d1 d2 : Z) : Prop := inject_Z d2 == c * inject_Z d1.

(** [t2] is [t1] with every days_since_visit multiplied by [c] (and the
    same frequencies). *)
Definition rescaled (c : Q) (t1 t2 : DataFrame) : Prop :=
  Forall2 (λ r1 r2,
             times c (days_since_visit (base r1)) (days_since_visit (base r2))
             ∧ frequency (base r2) = frequency (base r1)) t1 t2.

(** Two output rows with the same churn probability and risk level. *)
Definition same_churn (r1 r2 : row) : Prop :=
  ∃ p1 p2 level,
    col_p_churn r1 = Some p1 ∧ col_p_churn r2 = Some p2 ∧ p1 == p2 ∧
    col_risk_level r1 = Some level ∧ col_risk_level r2 = Some level.

End ChurnSpec.

Module ChurnFloat64Spec.

Import Churn ChurnFloat64 ChurnSpec.
Local Open Scope Q_scope.

(** The scores of one row in float64, given the population maxima. *)
Definition recency_score_float64_at (max_days : option Z) (d : Z) : Q :=
  match max_days with
  | Some m =>
      if gt_zero max_days
      then Float64.div (Float64.of_int d) (Float64.of_int m) else 0
  | None => 0
  end.

Definition frequency_score_float64_at (max_freq : option Z) (f : Z) : Q :=
  match max_freq with
  | Some m =>
      if gt_zero max_freq
      then Float64.sub 1 (Float64.div (Float64.of_int f) (Float64.of_int m))
      else 0
  | None => 0
  end.

Definition p_churn_float64_at (max_days max_freq : option Z) (c : customer)
  : Q :=
  clip 0 1
    (Float64.add
       (Float64.mul (recency_score_float64_at max_days (days_since_visit c))
                    (Float64.literal 0.7))
       (Float64.mul (frequency_score_float64_at max_freq (frequency c))
                    (Float64.literal 0.3))).

(** The row [calculate_churn_probability_float64] makes of a row [r]. *)
Definition churn_row_float64 (max_days max_freq : option Z) (r : row) : row :=
  {| base := base r;
     col_segment := col_segment r;
     col_clv := col_clv r;
     col_projected_clv_if_regular := col_projected_clv_if_regular r;
     col_recency_score :=
       Some (recency_score_float64_at max_days (days_since_visit (base r)));
     col_frequency_score :=
       Some (frequency_score_float64_at max_freq (frequency (base r)));
     col_p_churn := Some (p_churn_float64_at max_days max_freq (base r));
     col_risk_level :=
       Some (risk_level_float64
               (p_churn_float64_at max_days max_freq (base r))) |}.

(** The table [calculate_churn_probability_float64] returns. *)
Definition scored_float64 (t : DataFrame) : DataFrame :=
  churn_row_float64 (series_max ((λ r, days_since_visit (base r)) <$> t))
                    (series_max ((λ r, frequency (base r)) <$> t)) <$> t.

(** *** The scorer as the specification words it, evaluated in float64 *)

(** recency_score = days_since_visit / max(days_since_visit), 0 when the
    maximum is 0 *)
Definition spec_recency_score_float64 (days max_days : Z) : Q :=
  if bool_decide (max_days = 0)%Z then 0
  else Float64.div (Float64.of_int days) (Float64.of_int max_days).

(** frequency_score = 1 − frequency / max(frequency), 0 when the maximum
    is 0 *)
Definition spec_frequency_score_float64 (freq max_freq : Z) : Q :=
  if bool_decide (max_freq = 0)%Z then 0
  else Float64.sub 1 (Float64.div (Float64.of_int freq)
                                  (Float64.of_int max_freq)).

(** p_churn = clip(0.7·recency_score + 0.3·frequency_score, 0, 1) *)
Definition spec_p_churn_float64 (recency_score frequency_score : Q) : Q :=
  spec_clip
    (Float64.add (Float64.mul (Float64.literal 0.7) recency_score)
                 (Float64.mul (Float64.literal 0.3) frequency_score)) 0 1.

(** high when p_churn ≥ 0.70, medium when 0.40 ≤ p_churn < 0.70, low when
    p_churn < 0.40, the bounds being the doubles 0.7 and 0.4 *)
Inductive spec_risk_float64 (p : Q) : string → Prop :=
| spec_high_float64 :
    Float64.literal 0.7 <= p → spec_risk_float64 p "high"
| spec_medium_float64 :
    Float64.literal 0.4 <= p → p < Float64.literal 0.7 →
    spec_risk_float64 p "medium"
| spec_low_float64 :
    p < Float64.literal 0.4 → spec_risk_float64 p "low".

Definition spec_row_float64 (max_days max_freq : Z) (c : customer) (r' : row)
  : Prop :=
  ∃ rs fs p level,
    col_recency_score r' = Some rs ∧
    col_frequency_score r' = Some fs ∧
    col_p_churn r' = Some p ∧
    col_risk_level r' = Some level ∧
    rs == spec_recency_score_float64 (days_since_visit c) max_days ∧
    fs == spec_frequency_score_float64 (frequency c) max_freq ∧
    p == spec_p_churn_float64 rs fs ∧
    spec_risk_float64 p level.

(** C3, amended, as a postcondition of the scorer on the table [t]: the
    object returned holds one row per customer, each as
    [spec_row_float64] describes, whatever the maxima of the two columns
    are. *)
Definition scores_as_specified_float64 (t : DataFrame) (df : loc) (h' : heap)
  : Prop :=
  ∃ out, h' !! df = Some out ∧
    Forall2
      (λ r r', ∀ max_days max_freq,
         is_max max_days ((λ r, days_since_visit (base r)) <$> t) →
         is_max max_freq ((λ r, frequency (base r)) <$> t) →
         spec_row_float64 max_days max_freq (base r) r')
      t out.

(** The first row of the table returned has the churn probability [p] and
    the risk level [level]. *)
Definition first_customer_scored (p : Q) (level : string) (df : loc)
    (h' : heap) : Prop :=
  ∃ r out, h' !! df = Some (r :: out) ∧
    col_p_churn r = Some p ∧ col_risk_level r = Some level.

(** Every days_since_visit is a whole number of days that float64 holds
    exactly: between 0 and 2^53. *)
Definition representable (t : DataFrame) : Prop :=
  Forall (λ r, (0 ≤ days_since_visit (base r) ≤ 2 ^ 53)%Z) t.

(** The scorer, run on the object [l1] of the store [h1] and on the object
    [l2] of the store [h2], returns rows with the same churn probability and
    risk level. *)
Definition same_scores (h1 : heap) (l1 : loc) (h2 : heap) (l2 : loc) : Prop :=
  returns (calculate_churn_probability_float64 l1) h1
    (λ df1 h1',
       returns (calculate_churn_probability_float64 l2) h2
         (λ df2 h2',
            ∃ out1 out2,
              h1' !! df1 = Some out1 ∧ h2' !! df2 = Some out2 ∧
              Forall2 same_churn out1 out2)).

End ChurnFloat64Spec.

Module ValueSpec.

Import ValueModel.
Local Open Scope Q_scope.

(** The repeat customers of a table. *)
Definition repeat_rows (t : DataFrame) : DataFrame :=
  List.filter (λ r, bool_decide (2 ≤ frequency (base r))%Z) t.

(** The lifetime value [fit_gamma_gamma] gives a customer. *)
Definition clv_of (c : customer) : Q :=
  avg_spend c * inject_Z (frequency c) * 1.2.

(** The object [repeat_customers] once the clv column is set. *)
Definition with_clv (t : DataFrame) : DataFrame :=
  (λ r, set_clv (clv_of (base r)) r) <$> repeat_rows t.

(** The clv column of [repeat_customers]. *)
Definition clvs (t : DataFrame) : list Q :=
  (λ r, clv_of (base r)) <$> repeat_rows t.

(** The number of rows [nlargest] is asked for, for [n] repeat customers. *)
Definition top_size (n : Z) : Z := or_else (int (inject_Z n * 0.1)) 1.

(** The rows whose mean clv is reported as [top_10_pct_clv]. *)
Definition top_rows (t : DataFrame) : DataFrame :=
  nlargest_rows (top_size (Z.of_nat (length (with_clv t))))
                (clvs t) (with_clv t).

(** The object [all_customers] once its column is set. *)
Definition projected (t : DataFrame) : DataFrame :=
  (λ r, set_projected_clv_if_regular (avg_spend (base r) * 12) r) <$> t.

(** The object [hidden_gems]. *)
Definition hidden_gem_rows (t : DataFrame) : DataFrame :=
  let median :=
    series_median ((λ r, avg_spend (base r)) <$> projected t) in
  let selected :=
    List.filter (λ r, bool_decide (frequency (base r) ≤ 4)%Z
                      && gt_nan (avg_spend (base r)) median) (projected t) in
  nlargest_rows 10 ((λ r, avg_spend (base r)) <$> selected) selected.

(** *** The value model as the specification words it *)

(** avg_spend × frequency × 1.2 *)
Definition spec_clv (c : customer) : Q :=
  avg_spend c * inject_Z (frequency c) * 1.2.

(** floor(n_repeat × 0.1) customers but at least 1 *)
Definition spec_top_size (n_repeat : Z) : Z :=
  Z.max (Qfloor (inject_Z n_repeat * 0.1)) 1.

(** A list in descending order of a key: [a] may come before [b]. *)
Definition descending {A} (key : A → Q) (a b : A) : Prop := key b <= key a.

(** The clv of a row of [repeat_customers] (0 stands for an absent
    column). *)
Definition clv_value (r : row) : Q := default 0 (col_clv r).

(** The sum and the mean of the clv of a group of rows. *)
Definition sum_clv (group : DataFrame) : Q :=
  foldr (λ r acc, clv_value r + acc) 0 group.

Definition mean_clv (group : DataFrame) : Q :=
  sum_clv group / inject_Z (Z.of_nat (length group)).

(** [top] is a group of the [size] rows of [t] with the largest clv: a row
    left out has at most the clv of any row of the group. *)
Definition is_top_group (size : Z) (top t : DataFrame) : Prop :=
  ∃ rest,
    top ++ rest ≡ₚ t ∧
    Z.of_nat (length top) = size ∧
    ∀ a b, a ∈ top → b ∈ rest → clv_value b <= clv_value a.

(** C4 as a postcondition of [fit_gamma_gamma] run on the table [t] from
    the store [h]. *)
Definition threshold_respected (h : heap) (t : DataFrame) (res : result)
    (h' : heap) : Prop :=
  let n := Z.of_nat (length (repeat_rows t)) in
  (success res = false ↔ (n < 10)%Z) ∧
  (success res = true ↔ (10 ≤ n)%Z) ∧
  ((n < 10)%Z →
   (∃ message, res = Failure message) ∧
   ∃ selected copied,
     h' = <[copied := repeat_rows t]> (<[selected := repeat_rows t]> h)).

(** C6 as a postcondition of [fit_gamma_gamma] on the table [t]. *)
Definition statistics_as_specified (t : DataFrame) (res : result) (h' : heap)
  : Prop :=
  ∃ s rep top,
    res = Success s ∧
    h' !! repeat_customers s = Some rep ∧
    Forall2 (λ r r', base r' = base r ∧ col_clv r' = Some (spec_clv (base r)))
            (repeat_rows t) rep ∧
    total_clv s = sum_clv rep ∧
    avg_clv s = Some (mean_clv rep) ∧
    is_top_group (spec_top_size (Z.of_nat (length (repeat_rows t)))) top rep ∧
    top_10_pct_clv s = Some (mean_clv top).

End ValueSpec.

Module FrequencySpec.

Import FrequencyModel.
Local Open Scope R_scope.

Section Quantities.

Variable minimize :
  (R * R → R) → R * R → (R * R) * (R * R) → OptimizeResult.
Variable gammaln : R → R.

(** The histogram [freq_counts] of a frequency column. *)
Definition histogram (freq : list Z) : list (Z * Z) :=
  sort_index (value_counts freq).

(** The point the optimizer is started from. *)
Definition start_point (freq : list Z) : R * R :=
  let '(r_init, alpha_init) :=
    initial_guess (int_mean freq) (int_var freq) in
  (Rmax 0.1 r_init, Rmax 0.1 alpha_init).

(** What the optimizer returns on a frequency column. *)
Definition optimum (freq : list Z) : OptimizeResult :=
  minimize (λ params, zt_nbd_log_likelihood gammaln params (histogram freq))
           (start_point freq) ((0.01, 100), (0.01, 100)).

(** P(X=0) at the fitted parameters. *)
Definition p_zero_at (res : OptimizeResult) : R :=
  Rpower ((x res).2 / ((x res).2 + 1)) (x res).1.

(** The predicted count of each observed frequency value. *)
Definition predicted (freq : list Z) : list R :=
  let res := optimum freq in
  (λ v, exp (log_p_x gammaln (x res).1 (x res).2 v) / (1 - p_zero_at res)
        * IZR (Z.of_nat (length freq)))
    <$> (histogram freq).*1.

(** The chi-square statistic of the fit. *)
Definition chi_square_of (freq : list Z) : R :=
  float_sum (zip_with (λ o p, (IZR o - p) ^ 2 / p)
                       (histogram freq).*2 (predicted freq)).

End Quantities.

(** The optimizer bounds. *)
Definition in_bounds (v : R) : Prop := 0.01 <= v <= 100.

(** *** The diagnostics as the specification words them *)

(** The number of distinct values of a column. *)
Definition distinct (s : list Z) : Z :=
  Z.of_nat (size (list_to_set s : gset Z)).

(** good when the ratio is < 2, moderate when < 4, poor otherwise *)
Inductive spec_fit_quality (ratio : R) : string → Prop :=
| spec_good : ratio < 2 → spec_fit_quality ratio "good"
| spec_moderate : 2 <= ratio → ratio < 4 → spec_fit_quality ratio "moderate"
| spec_poor : 4 <= ratio → spec_fit_quality ratio "poor".

(** The classification as the claim has it: by the ratio of the
    chi-square statistic to the degrees of freedom. *)
Definition quality_by_df_ratio (fit : FrequencyModel.fit) : Prop :=
  spec_fit_quality (chi_square fit / IZR (df fit)) (fit_quality fit).

(** The classification by the ratio to max(degrees of freedom, 1). *)
Definition quality_by_guarded_ratio (fit : FrequencyModel.fit) : Prop :=
  spec_fit_quality (chi_square fit / IZR (Z.max (df fit) 1)) (fit_quality fit).

(** C5 as a postcondition of [fit_zt_nbd] on the table [t]: the record
    reports the point that the optimizer returned as r and alpha and the
    number of rows of [t] as n_observed; f0 is N·P(0)/(1 − P(0)) at that
    point and is not negative; market_reached is N/(N + f0) and lies in
    (0, 1]. *)
Definition bounds_hold
    (minimize : (R * R → R) → R * R → (R * R) * (R * R) → OptimizeResult)
    (gammaln : R → R) (t : DataFrame) (fit : FrequencyModel.fit) (h' : heap)
  : Prop :=
  let res := optimum minimize gammaln ((λ r, frequency (base r)) <$> t) in
  let n := IZR (Z.of_nat (length t)) in
  r fit = (x res).1 ∧
  alpha fit = (x res).2 ∧
  n_observed fit = Z.of_nat (length t) ∧
  f0 fit = n * p_zero_at res / (1 - p_zero_at res) ∧
  0 <= f0 fit ∧
  ∃ m, market_reached fit = Some m ∧
       m = n / (n + f0 fit) ∧
       0 < m <= 1.

(** C7 as the claim has it, as a postcondition of [fit_zt_nbd] on the
    table [t]. *)
Definition diagnostics_as_claimed (t : DataFrame) (fit : FrequencyModel.fit)
    (h' : heap) : Prop :=
  df fit = (distinct ((λ r, frequency (base r)) <$> t) - 2)%Z ∧
  quality_by_df_ratio fit.

(** C7 as amended. *)
Definition diagnostics_as_amended (t : DataFrame) (fit : FrequencyModel.fit)
    (h' : heap) : Prop :=
  df fit = (distinct ((λ r, frequency (base r)) <$> t) - 2)%Z ∧
  quality_by_guarded_ratio fit ∧
  ((3 ≤ distinct ((λ r, frequency (base r)) <$> t))%Z →
   quality_by_df_ratio fit).

End FrequencySpec.

Module Examples.

Import FrequencyModel.

(** A customer with the given name, number of visits, days since the last
    visit and spend per visit. *)
Definition client (name : string) (visits days : Z) (spend : Q) : row :=
  of_customer
    {| client_name := name; frequency := visits; recency := 0;
       first_visit := 0; total_spend := spend * inject_Z visits;
       avg_spend := spend; email := None; phone := None;
       days_since_visit := days |}.

Definition salon : DataFrame :=
  [ client "Ana" 1 30 90; client "Ben" 3 0 55; client "Cleo" 13 5 95;
    client "Dov" 5 60 25 ].

(** [salon] with every days_since_visit divided by 5. *)
Definition salon_rescaled : DataFrame :=
  [ client "Ana" 1 6 90; client "Ben" 3 0 55; client "Cleo" 13 1 95;
    client "Dov" 5 12 25 ].

(** Twelve repeat customers (2 to 13 visits) and one single-visit customer. *)
Definition regulars : DataFrame :=
  client "Zoe" 1 4 70
  :: ((λ i, client "regular" (Z.of_nat i + 2) 3 (inject_Z (Z.of_nat i) + 20))
        <$> seq 0 12).

(** One customer, five visits. *)
Definition one_customer : DataFrame := [ client "Eve" 5 2 40 ].

(** The store with the table [t] as its only object, at reference 1. *)
Definition store_of (t : DataFrame) : heap := {[ 1%positive := t ]}.

(** An optimizer that stops where it starts. *)
Definition no_iteration (objective : R * R → R) (x0 : R * R)
    (bounds : (R * R) * (R * R)) : OptimizeResult :=
  {| x := x0; fun_ := objective x0 |}.

(** A stand-in for gammaln.  The examples have r = 1, where the gammaln
    terms of [log_p_x], gammaln(1 + x) − gammaln(1) − gammaln(x + 1), cancel
    as they do here. *)
Definition flat_gammaln (z : R) : R := 0%R.

End Examples.

Module ThresholdExamples.

Import Examples.

(** Two customers: A with 5 visits, last seen 1 day ago, and B with 6
    visits, last seen 2 days ago.  In exact arithmetic the p_churn of A is
    0.7·(1/2) + 0.3·(1 − 5/6) = 2/5. *)
Definition threshold_pair : DataFrame :=
  [ client "A" 5 1 40; client "B" 6 2 40 ].

(** Two customers: A with 5 visits, last seen 3 days ago, and B with 12
    visits, last seen 4 days ago. *)
Definition overdue_pair : DataFrame :=
  [ client "A" 5 3 40; client "B" 12 4 40 ].

(** A factor one above 2^53. *)
Definition large_factor : Q := inject_Z (2 ^ 53 + 1).

(** [overdue_pair] with every days_since_visit multiplied by
    [large_factor]. *)
Definition overdue_pair_rescaled : DataFrame :=
  [ client "A" 5 (3 * (2 ^ 53 + 1)) 40; client "B" 12 (4 * (2 ^ 53 + 1)) 40 ].

End ThresholdExamples.

Module CoreSpec.

Import Segmentation Churn ValueModel FrequencyModel.

(** C1: every component, run on the object [l] of the store [h], returns. *)
Definition handles_empty
    (minimize : (R * R → R) → R * R → (R * R) * (R * R) → OptimizeResult)
    (gammaln : R → R) (h : heap) (l : loc) : Prop :=
  returns (assign_segments l) h (λ df h', h' !! df = Some []) ∧
  returns (fit_zt_nbd minimize gammaln l) h
    (λ fit _, n_observed fit = 0%Z ∧ f0 fit = 0%R ∧ market_reached fit = None
              ∧ df fit = (-2)%Z ∧ fit_quality fit = "good"%string) ∧
  returns (fit_gamma_gamma l) h (λ res _, success res = false) ∧
  returns (calculate_churn_probability l) h (λ df h', h' !! df = Some []) ∧
  returns (get_churn_summary l) h
    (λ s _, high_risk_count s = 0%Z ∧ medium_risk_count s = 0%Z
            ∧ low_risk_count s = 0%Z ∧ still_active_pct s = 0%Q).

(** C9: each component, run on the object [l] that holds the table [t],
    returns with [l] still holding [t] and every other object of the store
    as it was ([h ⊆ h']); what it returns are objects that did not exist
    before. *)
Definition not_mutated (h : heap) (l : loc) (t : DataFrame) : Prop :=
  returns (assign_segments l) h
    (λ df h', h' !! l = Some t ∧ h ⊆ h' ∧ h !! df = None) ∧
  returns (fit_gamma_gamma l) h
    (λ res h', h' !! l = Some t ∧ h ⊆ h' ∧
               ∀ s, res = Success s →
                    h !! repeat_customers s = None
                    ∧ h !! hidden_gems s = None) ∧
  returns (calculate_churn_probability l) h
    (λ df h', h' !! l = Some t ∧ h ⊆ h' ∧ h !! df = None).

End CoreSpec.


(* ===================================================================== *)
(** ** Segment summary ([get_segment_summary]) *)
(* ===================================================================== *)

Module SegmentSummary.

Import ValueModel.
Local Open Scope py_scope.

(** The order of strings that [groupby] sorts the group keys by. *)
Definition string_le (a b : string) : Prop := String.leb a b = true.

#[global] Instance string_le_dec : RelDecision string_le.
Proof. intros a b. unfold string_le. apply _. Defined.

(** The keys of [groupby(name)]: the distinct values of the column, sorted. *)
Definition group_keys (labels : list string) : list string :=
  merge_sort string_le (remove_dups labels).

(** [df.groupby("segment")]: each key with the rows that carry it. *)
Definition groupby_segment (labels : list string) (t : DataFrame)
  : list (string * DataFrame) :=
  (λ k, (k, mask_rows ((λ v, bool_decide (v = k)) <$> labels) t))
    <$> group_keys labels.

(** One row of the summary. *)
Record segment_stats := {
  stats_segment : string;
  customer_count : Z;
  total_revenue : Q;
  avg_revenue : option Q;
  avg_frequency : option Q;
}.

(** The named aggregations of [.agg(...)] on one group. *)
Definition aggregate_group (g : string * DataFrame) : segment_stats :=
  {| stats_segment := g.1;
     customer_count := Z.of_nat (length ((λ r, client_name (base r)) <$> g.2));
     total_revenue := series_sum ((λ r, total_spend (base r)) <$> g.2);
     avg_revenue := series_mean ((λ r, total_spend (base r)) <$> g.2);
     avg_frequency :=
       series_mean ((λ r, inject_Z (frequency (base r))) <$> g.2) |}.

(** The dict literal [segment_order]. *)
Definition segment_order : list (string * Z) :=
  [ ("Explorer", 0%Z); ("Casual", 1%Z); ("Regular", 2%Z);
    ("Superuser", 3%Z) ]%string.

(** [segment_order.get(label)]: what [Series.map(segment_order)] gives a
    label; nan ([None]) for a label that is not a key. *)
Fixpoint order_of_in (items : list (string * Z)) (label : string) : option Z :=
  match items with
  | [] => None
  | (k, v) :: items' =>
      if bool_decide (k = label) then Some v else order_of_in items' label
  end.

Definition order_of (label : string) : option Z :=
  order_of_in segment_order label.

(** [sort_values("order")]: ascending, the rows whose order is nan last, in
    the order they had. *)
Definition sort_by_order (rows : list segment_stats) : list segment_stats :=
  sort_by (λ y x, bool_decide (default 0 (order_of (stats_segment y))
                               < default 0 (order_of (stats_segment x)))%Z)
          (List.filter (λ s, bool_decide (is_Some (order_of (stats_segment s))))
                       rows)
  ++ List.filter (λ s, bool_decide (¬ is_Some (order_of (stats_segment s))))
                 rows.

(** The summary is a new table with its own columns; it is returned as a
    value. *)
Definition get_segment_summary (customer_df : loc)
  : py (list segment_stats) :=
  labels ⇐ getitem_added customer_df "segment" col_segment ;;
  t ⇐ load customer_df ;;
  ret (sort_by_order (aggregate_group <$> groupby_segment labels t)).

End SegmentSummary.

(* ===================================================================== *)
(** ** The data loader: [bizpulse/utils/data_loader.py] *)
(* ===================================================================== *)

Module DataLoader.

Import Churn ValueModel SegmentSummary.

(** One row of the transactions table, with the columns that the
    aggregation reads ([tx_x] is the column named [x]).  A missing value
    (NaN, NaT, None) is [None]; a timestamp is a number of nanoseconds. *)
Record transaction := {
  tx_client_name : option string;
  tx_start : option Z;
  tx_estimated_price : option Q;
  tx_email : option string;
  tx_phone : option string;
}.

(** One row of the aggregate as the aggregation computes it ([agg_x] is the
    column named [x]): the dates and the average are missing when the client
    has no transaction with a date, or with a price.  A [customer] is such a
    row with nothing missing. *)
Record aggregated := {
  agg_client_name : string;
  agg_frequency : Z;
  agg_recency : option Z;
  agg_first_visit : option Z;
  agg_total_spend : Q;
  agg_avg_spend : option Q;
  agg_email : option string;
  agg_phone : option string;
  agg_days_since_visit : option Z;
}.

(** The dict literal [SERVICE_PRICES], in the order of its items. *)
Definition SERVICE_PRICES : list (string * Z) :=
  [ ("waterless pedicure", 90); ("smart pedicure", 95);
    ("e-file manicure", 55); ("gel polish", 25); ("nail polish", 15);
    ("feet massage", 20); ("hands massage", 15);
    ("hard gel strengthening", 35); ("nail repair", 20); ("french tip", 15);
    ("paramedical pedicure", 120); ("consultation", 50); ("b/s brace", 80);
    ("default", 85) ]%string%Z.

(** [SERVICE_PRICES["default"]] *)
Definition default_price : Z :=
  default 0%Z (order_of_in SERVICE_PRICES "default").

(** [needle in hay], on strings *)
Definition contains (needle hay : string) : bool :=
  match String.index 0 needle hay with Some _ => true | None => false end.

Section EstimatePrice.

(** [str.lower] *)
Variable lower : string → string.

(** The service string is [None] when [pd.isna] holds of it. *)
Definition estimate_price (service_str : option string) : Z :=
  match service_str with
  | None => default_price
  | Some service_str =>
      let service_lower := lower service_str in
      let '(total, matched) :=
        fold_left
          (λ '(total, matched) '(service, price),
             if negb (String.eqb service "default")
                && contains service service_lower
             then ((total + price)%Z, true)
             else (total, matched))
          SERVICE_PRICES (0%Z, false) in
      if matched then total else default_price
  end.

End EstimatePrice.

(** [Series.min()] of a datetime column; NaT ([None]) when there is no
    value. *)
Definition series_min (s : list Z) : option Z :=
  foldr (λ x acc, Some (match acc with Some m => Z.min x m | None => x end))
        None s.

(** [df[df["start"] >= ts]]: a comparison with NaT is false. *)
Definition from_date (ts : Z) (df : list transaction) : list transaction :=
  List.filter
    (λ tx, match tx_start tx with
           | Some s => bool_decide (ts ≤ s)%Z
           | None => false
           end) df.

(** [df[df["start"] <= ts]] *)
Definition until_date (ts : Z) (df : list transaction) : list transaction :=
  List.filter
    (λ tx, match tx_start tx with
           | Some s => bool_decide (s ≤ ts)%Z
           | None => false
           end) df.

(** [df.groupby("client_name")]: the rows without a name are left out. *)
Definition groupby_client_name (df : list transaction)
  : list (string * list transaction) :=
  (λ k, (k, List.filter (λ tx, bool_decide (tx_client_name tx = Some k)) df))
    <$> group_keys (omap tx_client_name df).

(** The nanoseconds of a day. *)
Definition day : Z := 86400000000000.

(** The named aggregations of [.agg(...)] on one group, and the column
    days_since_visit: count, max, min, sum, mean and first skip the missing
    values; [.dt.days] is the number of whole days, rounded down. *)
Definition aggregate_client (today : Z) (g : string * list transaction)
  : aggregated :=
  let recency := series_max (omap tx_start g.2) in
  {| agg_client_name := g.1;
     agg_frequency := Z.of_nat (length (omap tx_start g.2));
     agg_recency := recency;
     agg_first_visit := series_min (omap tx_start g.2);
     agg_total_spend := series_sum (omap tx_estimated_price g.2);
     agg_avg_spend := series_mean (omap tx_estimated_price g.2);
     agg_email := head (omap tx_email g.2);
     agg_phone := head (omap tx_phone g.2);
     agg_days_since_visit := (λ r, (today - r) `div` day)%Z <$> recency |}.

(** The transactions table is only read and the aggregate is a new table:
    the function is modelled on values.  [today] is what
    [pd.Timestamp.now()] returns; [start_date] and [end_date] are [None] or
    the timestamp of a date. *)
Definition aggregate_to_customers (df : list transaction)
    (start_date end_date : option Z) (today : Z) : list aggregated :=
  let df := match start_date with
            | Some ts => from_date ts df
            | None => df
            end in
  let df := match end_date with
            | Some ts => until_date ts df
            | None => df
            end in
  aggregate_client today <$> groupby_client_name df.

End DataLoader.

(* ===================================================================== *)
(** ** The dashboard: [calculate_health_score] of [bizpulse/app.py] *)
(* ===================================================================== *)

Module App.

Import Churn ValueModel DataLoader.
Local Open Scope py_scope.
Local Open Scope Q_scope.

(** [(first_visits >= recent_cutoff).sum()]: a comparison with NaT is
    false. *)
Definition count_recent (first_visits : list (option Z))
    (recent_cutoff : option Z) : Z :=
  Z.of_nat
    (length
       (List.filter
          (λ v, match v, recent_cutoff with
                | Some v, Some c => bool_decide (c ≤ v)%Z
                | _, _ => false
                end) first_visits)).

Definition calculate_health_score (customer_df : loc)
    (raw_df : list transaction) : py Z :=
  days ⇐ getitem customer_df days_since_visit ;;
  active ⇐ select customer_df ((λ d, bool_decide (d ≤ 60)%Z) <$> days) ;;
  active_60 ⇐ len active ;;
  n ⇐ len customer_df ;;
  retention_rate ⇐
    (if bool_decide (0 < n)%Z
     then n ⇐ len customer_df ;; ret (inject_Z active_60 / inject_Z n)
     else ret 0) ;;
  let score_1 := Qmin (retention_rate * 100) 30 in
  segment ⇐ getitem_added customer_df "segment" col_segment ;;
  loyal_rows ⇐
    select customer_df
      ((λ s, bool_decide (s ∈ ["Regular"; "Superuser"]%string)) <$> segment) ;;
  loyal ⇐ len loyal_rows ;;
  n ⇐ len customer_df ;;
  loyalty_rate ⇐
    (if bool_decide (0 < n)%Z
     then n ⇐ len customer_df ;; ret (inject_Z loyal / inject_Z n)
     else ret 0) ;;
  let score_2 := Qmin (loyalty_rate * 100 * 1.25) 25 in
  score_3 ⇐
    (if bool_decide (0 < length raw_df)%nat
     then
       let recent_cutoff :=
         (λ m, m - 90 * day)%Z <$> series_max (omap tx_start raw_df) in
       let first_visits :=
         (λ g : string * list transaction, series_min (omap tx_start g.2))
           <$> groupby_client_name raw_df in
       let new_customers := count_recent first_visits recent_cutoff in
       n ⇐ len customer_df ;;
       growth_rate ⇐
         (if bool_decide (0 < n)%Z
          then n ⇐ len customer_df ;;
               ret (inject_Z new_customers / inject_Z n)
          else ret 0) ;;
       ret (Qmin (growth_rate * 100 * 2.5) 25)
     else ret 12.5) ;;
  n ⇐ len customer_df ;;
  avg_value ⇐
    (if bool_decide (0 < n)%Z
     then spend ⇐ getitem customer_df total_spend ;;
          (* the Series is not empty here: its mean is not nan *)
          ret (default 0 (series_mean spend))
     else ret 0) ;;
  let score_4 := Qmin (avg_value / 200 * 10) 20 in
  ret (int (Qmin (fold_left Qplus [score_1; score_2; score_3; score_4] 0)
                 100)).

End App.

(* ===================================================================== *)
(** ** Further specifications *)
(* ===================================================================== *)

Module ExtraSpec.

Import Segmentation Churn ValueModel FrequencyModel SegmentSummary.
Import DataLoader App.
Import SegmentationSpec ChurnSpec ValueSpec FrequencySpec.

(** The rank of a risk level: low, then medium, then high. *)
Definition risk_rank (level : string) : nat :=
  if bool_decide (level = "high"%string) then 2
  else if bool_decide (level = "medium"%string) then 1
  else 0.

(** The rank of a segment label in [segment_order] (4 for a label that is
    not a key). *)
Definition segment_rank (label : string) : Z := default 4%Z (order_of label).

(** The columns that a component leaves alone: [r'] has the aggregate's
    columns of [r]. *)
Definition same_customer (r r' : row) : Prop := base r' = base r.

(** What [assign_segments] makes of the table [t]: one row per row of [t],
    in the same order, with the label of its frequency in the segment
    column (a key of [SEGMENT_DEFINITIONS]) and every other column as it
    was. *)
Definition segments_assigned (t : DataFrame) (df : loc) (h' : heap) : Prop :=
  ∃ out, h' !! df = Some out ∧
    Forall2
      (λ r r',
         base r' = base r ∧
         col_segment r' = Some (assign_segment (frequency (base r))) ∧
         assign_segment (frequency (base r)) ∈ SEGMENT_DEFINITIONS.*1 ∧
         col_clv r' = col_clv r ∧
         col_projected_clv_if_regular r' = col_projected_clv_if_regular r ∧
         col_recency_score r' = col_recency_score r ∧
         col_frequency_score r' = col_frequency_score r ∧
         col_p_churn r' = col_p_churn r ∧
         col_risk_level r' = col_risk_level r)
      t out.

(** The scores of an output row of the churn scorer. *)
Definition has_scores (r' : row) (rs fs p : Q) (level : string) : Prop :=
  col_recency_score r' = Some rs ∧ col_frequency_score r' = Some fs ∧
  col_p_churn r' = Some p ∧ col_risk_level r' = Some level.

(** Every row of the scored table has its three scores in [0, 1], and its
    p_churn is the weighted sum itself: the clip changes nothing. *)
Definition scores_in_range (df : loc) (h' : heap) : Prop :=
  ∃ out, h' !! df = Some out ∧
    Forall (λ r', ∃ rs fs p level,
              has_scores r' rs fs p level ∧
              (0 <= rs <= 1)%Q ∧ (0 <= fs <= 1)%Q ∧ (0 <= p <= 1)%Q ∧
              (p == rs * 0.7 + fs * 0.3)%Q) out.

(** In the scored table, a customer who has stayed away at least as long as
    another and has come at most as often has at least the other's
    p_churn and risk level. *)
Definition risk_is_monotone (df : loc) (h' : heap) : Prop :=
  ∃ out, h' !! df = Some out ∧
    ∀ r1 r2, r1 ∈ out → r2 ∈ out →
      (days_since_visit (base r1) ≤ days_since_visit (base r2))%Z →
      (frequency (base r2) ≤ frequency (base r1))%Z →
      ∃ p1 p2 level1 level2,
        col_p_churn r1 = Some p1 ∧ col_p_churn r2 = Some p2 ∧
        col_risk_level r1 = Some level1 ∧ col_risk_level r2 = Some level2 ∧
        (p1 <= p2)%Q ∧ risk_rank level1 ≤ risk_rank level2.

(** In the scored table of [t], every customer whose days_since_visit is
    the (positive) maximum of the column is at high risk. *)
Definition most_overdue_is_high (t : DataFrame) (df : loc) (h' : heap)
  : Prop :=
  ∃ out, h' !! df = Some out ∧
    ∀ r', r' ∈ out →
      (0 < days_since_visit (base r'))%Z →
      is_max (days_since_visit (base r'))
             ((λ r, days_since_visit (base r)) <$> t) →
      col_risk_level r' = Some "high"%string.

(** Every row of the scored table is at low risk. *)
Definition all_low (df : loc) (h' : heap) : Prop :=
  ∃ out, h' !! df = Some out ∧
    Forall (λ r', col_risk_level r' = Some "low"%string) out.

(** Two rows with the same value in every column, looked up by name: the
    aggregate's columns and each added column. *)
Definition same_columns (r1 r2 : row) : Prop :=
  base r1 = base r2 ∧
  col_segment r1 = col_segment r2 ∧
  col_clv r1 = col_clv r2 ∧
  col_projected_clv_if_regular r1 = col_projected_clv_if_regular r2 ∧
  col_recency_score r1 = col_recency_score r2 ∧
  col_frequency_score r1 = col_frequency_score r2 ∧
  col_p_churn r1 = col_p_churn r2 ∧
  col_risk_level r1 = col_risk_level r2.

(** Segmenting then scoring, and scoring then segmenting, the object [l] of
    the store [h] give tables with the same rows in the same order: each
    column, looked up by name, holds the same value in both, and every row
    has a segment and a risk level.  (The order in which the columns were
    added differs; a row here is what its named columns hold.) *)
Definition same_columns_either_order (h : heap) (l : loc) : Prop :=
  returns (Py.bind (assign_segments l) calculate_churn_probability) h
    (λ o1 h1,
       returns (Py.bind (calculate_churn_probability l) assign_segments) h
         (λ o2 h2,
            ∃ out1 out2, h1 !! o1 = Some out1 ∧ h2 !! o2 = Some out2 ∧
              Forall2 same_columns out1 out2 ∧
              Forall (λ r, is_Some (col_segment r)
                           ∧ is_Some (col_risk_level r)) out1)).

(** Scoring the table the scorer returned gives that table again. *)
Definition rescoring_changes_nothing (h : heap) (l : loc) : Prop :=
  returns (calculate_churn_probability l) h
    (λ o1 h1,
       ∃ out, h1 !! o1 = Some out ∧
         returns (calculate_churn_probability o1) h1
           (λ o2 h2, h2 !! o2 = Some out ∧ h2 !! o1 = Some out)).

(** The spends of a table are not negative. *)
Definition spends_nonneg (t : DataFrame) : Prop :=
  Forall (λ r, (0 <= total_spend (base r))%Q) t.

(** The summary of the table [t] run from the store [h]: the objects of [h]
    are as they were; the scored table and the table of the high-risk
    customers are new objects; the latter holds the rows of the former at
    risk level high, in their order, and [high_risk_count] is its number of
    rows. *)
Definition summary_objects (h : heap) (s : summary) (h' : heap) : Prop :=
  h ⊆ h' ∧
  h !! customer_df s = None ∧ h !! high_risk_customers s = None ∧
  ∃ out, h' !! customer_df s = Some out ∧
    h' !! high_risk_customers s = Some (at_risk "high" out) ∧
    high_risk_count s = Z.of_nat (length (at_risk "high" out)).

(** revenue_at_risk is 0.8 times the spend of the high-risk customers, and
    lies between 0 and 0.8 times the spend of all customers. *)
Definition revenue_at_risk_bounded (t : DataFrame) (s : summary) (h' : heap)
  : Prop :=
  ∃ high, h' !! high_risk_customers s = Some high ∧
    (revenue_at_risk s
     == series_sum ((λ r, total_spend (base r)) <$> high) * 0.8)%Q ∧
    (0 <= revenue_at_risk s)%Q ∧
    (revenue_at_risk s
     <= series_sum ((λ r, total_spend (base r)) <$> t) * 0.8)%Q.

(** A customer is a hidden-gem candidate of the table [t]: at most 4
    visits and an avg_spend above the median avg_spend of [t]. *)
Definition gem_candidate (t : DataFrame) (c : customer) : Prop :=
  (frequency c ≤ 4)%Z ∧
  ∃ median, series_median ((λ r, avg_spend (base r)) <$> t) = Some median
            ∧ (median < avg_spend c)%Q.

(** The hidden gems of a successful value-model result on the table [t]:
    at most 10 rows, each a candidate of [t] with its projection
    avg_spend × 12, in descending order of avg_spend; a candidate that is
    not among them has at most the avg_spend of any of them, and then
    there are 10 of them. *)
Definition hidden_gems_selected (t : DataFrame) (res : result) (h' : heap)
  : Prop :=
  ∃ s gems,
    res = Success s ∧ h' !! hidden_gems s = Some gems ∧
    length gems ≤ 10 ∧
    Forall (λ g, gem_candidate t (base g) ∧
                 (∃ r, r ∈ t ∧ base g = base r) ∧
                 col_projected_clv_if_regular g
                 = Some (avg_spend (base g) * 12)%Q) gems ∧
    StronglySorted (descending (λ g, avg_spend (base g))) gems ∧
    ∀ r, r ∈ t → gem_candidate t (base r) →
      (∃ g, g ∈ gems ∧ base g = base r) ∨
      (length gems = 10 ∧
       Forall (λ g, (avg_spend (base r) <= avg_spend (base g))%Q) gems).

(** The number of occurrences of [v] in a column. *)
Definition occurrences (v : Z) (s : list Z) : Z :=
  Z.of_nat (length (List.filter (λ x, bool_decide (x = v)) s)).

(** The number of customers of [t] with [v] visits. *)
Definition customers_with (v : Z) (t : DataFrame) : Z :=
  Z.of_nat
    (length (List.filter (λ r, bool_decide (frequency (base r) = v)) t)).

(** The sum of the counts of a histogram. *)
Definition sum_counts (hist : list (Z * Z)) : Z := foldr Z.add 0%Z hist.*2.

(** The histogram that [fit_zt_nbd] reports for the table [t]: the values
    in strictly ascending order, each value that a customer has with the
    number of customers that have it and no other entry, the counts adding
    up to the number of customers; the predicted histogram has the same
    values in the same order. *)
Definition histogram_reported (t : DataFrame) (fit : FrequencyModel.fit)
    (h' : heap) : Prop :=
  StronglySorted (λ a b : Z * Z, a.1 < b.1)%Z (freq_actual fit) ∧
  (∀ v c, (v, c) ∈ freq_actual fit ↔ c = customers_with v t ∧ (1 ≤ c)%Z) ∧
  sum_counts (freq_actual fit) = n_observed fit ∧
  n_observed fit = Z.of_nat (length t) ∧
  (freq_predicted fit).*1 = (freq_actual fit).*1.

(** The entries of a histogram that the log-likelihood counts. *)
Definition counted (item : Z * Z) : bool :=
  negb ((item.1 <? 1)%Z || (item.2 =? 0)%Z).

(** The customers of [t] whose frequency has the label [label]. *)
Definition members (label : string) (t : DataFrame) : DataFrame :=
  List.filter
    (λ r, bool_decide (assign_segment (frequency (base r)) = label)) t.

(** The summary of the segments of [t], as [get_segment_summary] makes it
    of what [assign_segments] returns: one row per label that a customer
    has, and none for a label that no customer has, the labels being keys
    of [SEGMENT_DEFINITIONS], in the order Explorer, Casual, Regular,
    Superuser. *)
Definition summary_in_tier_order (t : DataFrame) (rows : list segment_stats)
    (h' : heap) : Prop :=
  StronglySorted
    (λ a b, segment_rank (stats_segment a) < segment_rank (stats_segment b))%Z
    rows ∧
  Forall (λ s, stats_segment s ∈ SEGMENT_DEFINITIONS.*1 ∧
               (1 ≤ customer_count s)%Z) rows ∧
  ∀ r, r ∈ t →
    ∃ s, s ∈ rows ∧ stats_segment s = assign_segment (frequency (base r)).

(** The counts of the summary: each row counts the customers with its
    label, and over the rows the counts add up to the number of
    customers. *)
Definition summary_counts (t : DataFrame) (rows : list segment_stats)
    (h' : heap) : Prop :=
  Forall
    (λ s, customer_count s
          = Z.of_nat (length (members (stats_segment s) t))) rows ∧
  foldr Z.add 0%Z (customer_count <$> rows) = Z.of_nat (length t).

(** The window of dates that the aggregation is asked for: a transaction
    without a date is in no window with a bound. *)
Definition in_window (start_date end_date : option Z) (tx : transaction)
  : bool :=
  match start_date with
  | Some ts => match tx_start tx with
               | Some s => bool_decide (ts ≤ s)%Z
               | None => false
               end
  | None => true
  end
  && match end_date with
     | Some ts => match tx_start tx with
                  | Some s => bool_decide (s ≤ ts)%Z
                  | None => false
                  end
     | None => true
     end.

(** The transactions of the window that have a client name. *)
Definition named_in_window (start_date end_date : option Z)
    (df : list transaction) : list transaction :=
  List.filter (λ tx, bool_decide (is_Some (tx_client_name tx)))
              (List.filter (in_window start_date end_date) df).

(** One row per client: no name occurs twice, and the names are those of
    the transactions of the window. *)
Definition one_row_per_client (df : list transaction)
    (start_date end_date : option Z) (rows : list aggregated) : Prop :=
  NoDup (agg_client_name <$> rows) ∧
  ∀ k, k ∈ agg_client_name <$> rows ↔
       ∃ tx, tx ∈ df ∧ in_window start_date end_date tx = true ∧
             tx_client_name tx = Some k.

(** No visit is lost or counted twice: the frequencies add up to the
    number of dated transactions of the named clients in the window. *)
Definition visits_conserved (df : list transaction)
    (start_date end_date : option Z) (rows : list aggregated) : Prop :=
  foldr Z.add 0%Z (agg_frequency <$> rows)
  = Z.of_nat (length (omap tx_start
                        (named_in_window start_date end_date df))).

(** A client without a dated transaction is kept, with frequency 0 and no
    recency, first visit or days since the last visit; the other clients
    have all of them. *)
Definition dates_missing_together (rows : list aggregated) : Prop :=
  Forall
    (λ c, (0 ≤ agg_frequency c)%Z ∧
          (agg_frequency c = 0%Z ↔ agg_recency c = None) ∧
          (agg_first_visit c = None ↔ agg_recency c = None) ∧
          (agg_days_since_visit c = None ↔ agg_recency c = None)) rows.

(** Every transaction has a date. *)
Definition all_dated (df : list transaction) : Prop :=
  Forall (λ tx, is_Some (tx_start tx)) df.

(** Every transaction has a price. *)
Definition all_priced (df : list transaction) : Prop :=
  Forall (λ tx, is_Some (tx_estimated_price tx)) df.

(** No transaction is later than [today]. *)
Definition none_later (today : Z) (df : list transaction) : Prop :=
  Forall (λ tx, ∀ s, tx_start tx = Some s → (s ≤ today)%Z) df.

(** The rows of an aggregate of dated and priced transactions: at least one
    visit; the first visit is not after the last, both are in the window
    and not after today; days_since_visit is the number of whole days from
    the last visit to today; avg_spend is not missing. *)
Definition rows_complete (start_date end_date : option Z) (today : Z)
    (rows : list aggregated) : Prop :=
  Forall
    (λ c,
       (1 ≤ agg_frequency c)%Z ∧
       ∃ first last d a,
         agg_first_visit c = Some first ∧ agg_recency c = Some last ∧
         agg_days_since_visit c = Some d ∧ agg_avg_spend c = Some a ∧
         (first ≤ last ≤ today)%Z ∧
         (∀ ts, start_date = Some ts → ts ≤ first)%Z ∧
         (∀ ts, end_date = Some ts → last ≤ ts)%Z ∧
         (0 ≤ d)%Z ∧ (d * day ≤ today - last < (d + 1) * day)%Z) rows.

(** The health score of a table is between 0 and 100; the objects of the
    store are as they were. *)
Definition health_score_in_range (h : heap) (score : Z) (h' : heap) : Prop :=
  h ⊆ h' ∧ (0 ≤ score ≤ 100)%Z.

(** The health score with no customer: 12 when there is no transaction
    either, 0 otherwise. *)
Definition health_score_of_nobody (raw_df : list transaction) (score : Z)
    (h' : heap) : Prop :=
  score = match raw_df with [] => 12%Z | _ => 0%Z end.

End ExtraSpec.

Module Bookings.

Import DataLoader.

(** A booking of the client [name] on the day [day_no], at the given
    price. *)
Definition booking (name : string) (day_no : Z) (price : Q) : transaction :=
  {| tx_client_name := Some name;
     tx_start := Some (day_no * day)%Z;
     tx_estimated_price := Some price;
     tx_email := None;
     tx_phone := None |}.

Definition bookings : list transaction :=
  [ booking "Ana" 1 90; booking "Ben" 2 55; booking "Ana" 5 25 ].

End Bookings.

(* ===================================================================== *)
(** ** Reasoning about programs *)
(* ===================================================================== *)

Section Rules.

Context {A B : Type}.
Implicit Types (h : heap) (l : loc) (t : DataFrame).

Lemma returns_ret (a : A) h (Φ : A → heap → Prop) :
  Φ a h → returns (ret a) h Φ.
Proof. intros HΦ. exists a, h. done. Qed.

Lemma returns_bind (m : py A) (k : A → py B) h (Φ : B → heap → Prop) :
  returns m h (λ a h', returns (k a) h' Φ) → returns (bind m k) h Φ.
Proof.
  intros (a & h' & Hm & b & h'' & Hk & HΦ).
  exists b, h''. unfold bind. rewrite Hm. done.
Qed.

Lemma returns_mono (m : py A) h (Φ Ψ : A → heap → Prop) :
  returns m h Φ → (∀ a h', Φ a h' → Ψ a h') → returns m h Ψ.
Proof. intros (a & h' & Hm & HΦ) HΨ. exists a, h'. auto. Qed.

Lemma returns_inv (m : py A) h (Φ : A → heap → Prop) a h' :
  returns m h Φ → m h = Returns a h' → Φ a h'.
Proof. intros (a' & h'' & Hm & HΦ) Heq. congruence. Qed.

Lemma raise_not_returns e h (Φ : A → heap → Prop) : ¬ returns (raise e) h Φ.
Proof. intros (a & h' & Hm & _). discriminate. Qed.

End Rules.

Section HeapRules.

Context {A : Type}.
Implicit Types (h : heap) (l : loc) (t : DataFrame).

Lemma returns_load l h t (Φ : DataFrame → heap → Prop) :
  h !! l = Some t → Φ t h → returns (load l) h Φ.
Proof. intros Hl HΦ. exists t, h. unfold load. rewrite Hl. done. Qed.

Lemma returns_alloc t h (Φ : loc → heap → Prop) :
  (∀ l, h !! l = None → Φ l (<[l := t]> h)) → returns (alloc t) h Φ.
Proof.
  intros HΦ. eexists _, _. split; [reflexivity |].
  apply HΦ, not_elem_of_dom, is_fresh.
Qed.

Lemma returns_store l h t t' (Φ : unit → heap → Prop) :
  h !! l = Some t → Φ tt (<[l := t']> h) → returns (store l t') h Φ.
Proof. intros Hl HΦ. exists tt, (<[l := t']> h). unfold store. rewrite Hl. done. Qed.

Lemma returns_copy l h t (Φ : loc → heap → Prop) :
  h !! l = Some t →
  (∀ l', h !! l' = None → Φ l' (<[l' := t]> h)) →
  returns (copy l) h Φ.
Proof.
  intros Hl HΦ. apply returns_bind, (returns_load _ _ t); [done |].
  by apply returns_alloc.
Qed.

Lemma returns_len l h t (Φ : Z → heap → Prop) :
  h !! l = Some t → Φ (Z.of_nat (length t)) h → returns (len l) h Φ.
Proof.
  intros Hl HΦ. apply returns_bind, (returns_load _ _ t); [done |].
  by apply returns_ret.
Qed.

Lemma returns_getitem l (col : customer → A) h t (Φ : list A → heap → Prop) :
  h !! l = Some t → Φ ((λ r, col (base r)) <$> t) h →
  returns (getitem l col) h Φ.
Proof.
  intros Hl HΦ. apply returns_bind, (returns_load _ _ t); [done |].
  by apply returns_ret.
Qed.

Lemma returns_getitem_added l name (col : row → option A) h t c
    (Φ : list A → heap → Prop) :
  h !! l = Some t → mapM col t = Some c → Φ c h →
  returns (getitem_added l name col) h Φ.
Proof.
  intros Hl Hc HΦ. apply returns_bind, (returns_load _ _ t); [done |].
  rewrite Hc. by apply returns_ret.
Qed.

Lemma returns_setitem l (set : A → row → row) series h t
    (Φ : unit → heap → Prop) :
  h !! l = Some t → Φ tt (<[l := zip_with set series t]> h) →
  returns (setitem l set series) h Φ.
Proof.
  intros Hl HΦ. apply returns_bind, (returns_load _ _ t); [done |].
  by apply (returns_store _ _ t).
Qed.

Lemma returns_select l mask h t (Φ : loc → heap → Prop) :
  h !! l = Some t →
  (∀ l', h !! l' = None → Φ l' (<[l' := mask_rows mask t]> h)) →
  returns (select l mask) h Φ.
Proof.
  intros Hl HΦ. apply returns_bind, (returns_load _ _ t); [done |].
  by apply returns_alloc.
Qed.

End HeapRules.

(** Facts about Series and rows used by every component. *)
Section Columns.

Context {A : Type}.

Lemma mapM_fmap_col (col : row → option A) (g : row → row) (f : row → A)
    (t : DataFrame) :
  (∀ r, col (g r) = Some (f r)) → mapM col (g <$> t) = Some (f <$> t).
Proof.
  intros Hcol. induction t as [| r t IH]; [done |].
  cbn. rewrite Hcol. cbn. rewrite IH. done.
Qed.

Lemma zip_with_rows (set : A → row → row) (f : row → A) (t : DataFrame) :
  zip_with set (f <$> t) t = (λ r, set (f r) r) <$> t.
Proof. induction t as [| r t IH]; [done |]. cbn. by rewrite IH. Qed.

Lemma broadcast_fmap {C} (v : A) (l : list C) :
  broadcast (length l) v = (λ _, v) <$> l.
Proof. induction l as [| c l IH]; [done |]. cbn. by rewrite <- IH. Qed.

Lemma mask_rows_fmap (p : row → bool) (t : DataFrame) :
  mask_rows (p <$> t) t = List.filter p t.
Proof.
  induction t as [| r t IH]; [done |]. cbn. rewrite IH. done.
Qed.

End Columns.

(** Stepping through a program: one rule per statement, the references
    resolved in the store built so far. *)
Ltac py_lookup :=
  repeat match goal with
         | H : <[_ := _]> _ !! _ = None |- _ =>
             apply lookup_insert_None in H as [? ?]
         end;
  repeat first
    [ eassumption
    | rewrite lookup_insert_eq; reflexivity
    | rewrite lookup_insert_ne by congruence ].

Ltac py_step :=
  lazymatch goal with
  | |- returns (bind _ _) _ _ => apply returns_bind
  | |- returns (ret _) _ _ => apply returns_ret
  | |- returns (copy _) _ _ =>
      eapply returns_copy; [py_lookup | intros ? ?]
  | |- returns (len _) _ _ => eapply returns_len; [py_lookup |]
  | |- returns (getitem _ _) _ _ => eapply returns_getitem; [py_lookup |]
  | |- returns (setitem _ _ _) _ _ =>
      eapply returns_setitem; [py_lookup | rewrite ?insert_insert_eq]
  | |- returns (select _ _) _ _ =>
      eapply returns_select; [py_lookup | intros ? ?]
  end.

Module SegmentationFacts.

Import Segmentation SegmentationSpec.

Lemma assign_segment_in_range f :
  (1 ≤ f ≤ 999)%Z → assign_segment f = tier f.
Proof.
  intros Hf. unfold assign_segment, tier. cbn.
  repeat case_bool_decide; first [done | lia].
Qed.

Lemma assign_segment_fallback f :
  (f < 1 ∨ 999 < f)%Z → assign_segment f = "Explorer"%string.
Proof.
  intros Hf. unfold assign_segment. cbn.
  repeat case_bool_decide; first [done | lia].
Qed.

Lemma assign_segments_spec h l t :
  h !! l = Some t →
  returns (assign_segments l) h
    (λ df h', h !! df = None ∧ h' = <[df := segmented t]> h).
Proof.
  intros Hl. unfold assign_segments. repeat py_step.
  split; [done |]. f_equal.
  rewrite <- list_fmap_compose. apply zip_with_rows.
Qed.

(** C2, at the input where the code departs from it: a customer with 1000
    visits is in the Superuser range [13,∞) of the specification (and of the
    dict's own description, 13+ visits), but no range of
    [SEGMENT_DEFINITIONS] holds it, Superuser being capped at 999, so
    [assign_segment] falls through to the Explorer fallback. *)
Theorem assign_segment_1000 :
  assign_segment 1000 = "Explorer"%string ∧ tier 1000 = "Superuser"%string.
Proof. split; reflexivity. Qed.

End SegmentationFacts.

Module ChurnFacts.

Import Churn ChurnSpec.

Lemma recency_scores_fmap days max_days :
  recency_scores days max_days = recency_score_at max_days <$> days.
Proof.
  unfold recency_scores, recency_score_at.
  destruct max_days as [m |]; [| apply broadcast_fmap].
  destruct (gt_zero (Some m)); [done | apply broadcast_fmap].
Qed.

Lemma frequency_scores_fmap freq max_freq :
  frequency_scores freq max_freq = frequency_score_at max_freq <$> freq.
Proof.
  unfold frequency_scores, frequency_score_at.
  destruct max_freq as [m |]; [| apply broadcast_fmap].
  destruct (gt_zero (Some m)); [done | apply broadcast_fmap].
Qed.

(** The table a program has built so far, as one pass over the input. *)
Ltac as_fmap :=
  rewrite ?recency_scores_fmap, ?frequency_scores_fmap;
  rewrite <- ?list_fmap_compose;
  rewrite ?zip_with_fmap_l, ?zip_with_fmap_r, ?zip_with_diag;
  rewrite <- ?list_fmap_compose.

Ltac py_read :=
  eapply returns_getitem_added;
  [py_lookup | apply mapM_fmap_col; intros ?; reflexivity |].

Lemma calculate_churn_probability_spec h l t :
  h !! l = Some t →
  returns (calculate_churn_probability l) h
    (λ df h', h !! df = None ∧ h' = <[df := scored t]> h).
Proof.
  intros Hl. unfold calculate_churn_probability.
  do 10 py_step. as_fmap.
  do 4 py_step. as_fmap.
  py_step. py_read. py_step. py_read. as_fmap.
  do 2 py_step. as_fmap.
  py_step. py_read. as_fmap.
  do 2 py_step. as_fmap.
  py_step. py_read. as_fmap.
  do 3 py_step. as_fmap.
  split; [done |]. f_equal.
Qed.

(** *** The population maximum *)

Lemma series_max_cons x s :
  series_max (x :: s)
  = Some (match series_max s with Some m => Z.max x m | None => x end).
Proof. reflexivity. Qed.

Lemma series_max_is_max s m : series_max s = Some m → is_max m s.
Proof.
  revert m. induction s as [| x s IH]; intros m; [done |].
  rewrite series_max_cons.
  destruct (series_max s) as [m' |] eqn:Hs; intros [= <-].
  - destruct (IH m' eq_refl) as [Hin Hle]. split.
    + destruct (Z.max_spec x m') as [[_ ->] | [_ ->]];
        [by apply list_elem_of_further | by apply list_elem_of_here].
    + constructor; [lia |].
      eapply Forall_impl; [exact Hle |]. cbn. intros; lia.
  - destruct s; [| discriminate]. split; [apply list_elem_of_here |].
    constructor; [lia | constructor].
Qed.

Lemma series_max_nonempty x s : is_Some (series_max (x :: s)).
Proof. rewrite series_max_cons. eauto. Qed.

Lemma is_max_unique s m m' : is_max m s → is_max m' s → m = m'.
Proof.
  intros [Hin Hle] [Hin' Hle']. rewrite Forall_forall in Hle, Hle'.
  apply Hle' in Hin. apply Hle in Hin'. lia.
Qed.

Lemma series_max_of_is_max s m : is_max m s → series_max s = Some m.
Proof.
  intros Hm. destruct s as [| x s].
  - destruct Hm as [Hin _]. by apply elem_of_nil in Hin.
  - destruct (series_max_nonempty x s) as [m' Hm'].
    rewrite Hm'. f_equal.
    eapply is_max_unique; [| exact Hm]. by apply series_max_is_max.
Qed.

(** *** Each formula of the scorer against the specification's *)

Local Open Scope Q_scope.

Lemma clip_spec x y : x == y → clip 0 1 x == spec_clip y 0 1.
Proof.
  intros Hxy. unfold clip, spec_clip.
  destruct (Q.max_spec x 0) as [[? Hmax] | [? Hmax]],
           (Q.min_spec (Qmax x 0) 1) as [[? Hmin] | [? Hmin]];
    rewrite Hmin; rewrite Hmax in *;
    destruct (Qlt_le_dec y 0); try destruct (Qlt_le_dec 1 y); lra.
Qed.

(** *** The summary *)

Lemma mask_rows_added {A} (col : row → option A) (p : A → bool)
    (q : row → bool) (t : DataFrame) (c : list A) :
  mapM col t = Some c →
  (∀ r v, col r = Some v → p v = q r) →
  mask_rows (p <$> c) t = List.filter q t.
Proof.
  intros Hc Hpq. revert c Hc. induction t as [| r t IH]; intros c Hc.
  { cbn in Hc. by injection Hc as <-. }
  cbn in Hc. destruct (col r) as [v |] eqn:Hv; [| done].
  cbn in Hc. destruct (mapM col t) as [c' |]; [| done].
  cbn in Hc. injection Hc as <-. cbn.
  rewrite (Hpq r v Hv), (IH c' eq_refl). done.
Qed.

Lemma mapM_is_Some {A} (col : row → option A) (t : DataFrame) :
  Forall (λ r, is_Some (col r)) t → is_Some (mapM col t).
Proof.
  induction 1 as [| r t [v Hv] _ [c Hc]]; [by eexists |].
  cbn. rewrite Hv. cbn. rewrite Hc. by eexists.
Qed.

Lemma returns_select_risk df level h t (Φ : loc → heap → Prop) :
  h !! df = Some t →
  Forall (λ r, is_Some (col_risk_level r)) t →
  (∀ l', h !! l' = None → Φ l' (<[l' := at_risk level t]> h)) →
  returns (select_risk df level) h Φ.
Proof.
  intros Hdf Hcol HΦ. unfold select_risk.
  destruct (mapM_is_Some _ _ Hcol) as [c Hc].
  py_step. eapply returns_getitem_added; [done | exact Hc |].
  eapply returns_select; [done |].
  rewrite (mask_rows_added _ _ (λ r, bool_decide (col_risk_level r = Some level))
             _ _ Hc); [exact HΦ |].
  intros r v Hv. rewrite Hv. apply bool_decide_ext. naive_solver.
Qed.

Lemma returns_truediv a b h (Φ : Q → heap → Prop) :
  b ≠ 0%Z → Φ (inject_Z a / inject_Z b) h → returns (truediv a b) h Φ.
Proof.
  intros Hb HΦ. unfold truediv. rewrite bool_decide_false by done.
  by apply returns_ret.
Qed.

Lemma scored_risk_level t :
  Forall (λ r, is_Some (col_risk_level r)) (scored t).
Proof. unfold scored. apply Forall_fmap, Forall_true. intros r. by eexists. Qed.

Lemma get_churn_summary_spec h l t :
  h !! l = Some t →
  returns (get_churn_summary l) h
    (λ s h',
       h ⊆ h' ∧
       h !! customer_df s = None ∧
       h' !! customer_df s = Some (scored t) ∧
       h !! high_risk_customers s = None ∧
       h' !! high_risk_customers s = Some (at_risk "high" (scored t)) ∧
       high_risk_count s = Z.of_nat (length (at_risk "high" (scored t))) ∧
       medium_risk_count s = Z.of_nat (length (at_risk "medium" (scored t))) ∧
       low_risk_count s = Z.of_nat (length (at_risk "low" (scored t))) ∧
       revenue_at_risk s
       = series_sum
           ((λ r, total_spend (base r)) <$> at_risk "high" (scored t)) * 0.8 ∧
       still_active_pct s
       = if bool_decide (0 < Z.of_nat (length (scored t)))%Z
         then inject_Z (low_risk_count s)
              / inject_Z (Z.of_nat (length (scored t)))
         else 0).
Proof.
  intros Hl. unfold get_churn_summary. py_step.
  eapply returns_mono; [by apply calculate_churn_probability_spec |].
  intros df h1 [Hdf ->].
  py_step. eapply returns_select_risk;
    [py_lookup | apply scored_risk_level | intros high Hhigh].
  py_step. eapply returns_select_risk;
    [py_lookup | apply scored_risk_level | intros medium Hmedium].
  py_step. eapply returns_select_risk;
    [py_lookup | apply scored_risk_level | intros low Hlow].
  do 7 py_step.
  assert (returns_pct : ∀ Φ : Q → heap → Prop, ∀ h0,
    Φ (if bool_decide (0 < Z.of_nat (length (scored t)))%Z
       then inject_Z (Z.of_nat (length (at_risk "low" (scored t))))
            / inject_Z (Z.of_nat (length (scored t)))
       else 0) h0 →
    returns (if bool_decide (0 < Z.of_nat (length (scored t)))%Z
             then truediv (Z.of_nat (length (at_risk "low" (scored t))))
                          (Z.of_nat (length (scored t)))
             else ret 0) h0 Φ).
  { intros Φ h0 HΦ. case_bool_decide; [| by apply returns_ret].
    apply returns_truediv; [lia | done]. }
  apply returns_pct. repeat py_step. cbn.
  split_and!; try reflexivity; try done; try py_lookup.
  repeat (apply insert_subseteq_r; [done |]). done.
Qed.

Lemma risk_level_cases p :
  risk_level p ∈ ["high"; "medium"; "low"]%string.
Proof.
  unfold risk_level.
  destruct (Qle_bool 0.7 p); [| destruct (Qle_bool 0.4 p)]; set_solver.
Qed.

Lemma scored_levels t :
  Forall (λ r, ∃ level, col_risk_level r = Some level
                        ∧ level ∈ ["high"; "medium"; "low"]%string)
         (scored t).
Proof.
  unfold scored. apply Forall_fmap, Forall_true. intros r. cbn.
  eexists. split; [reflexivity | apply risk_level_cases].
Qed.

Lemma at_risk_partition (t : DataFrame) :
  Forall (λ r, ∃ level, col_risk_level r = Some level
                        ∧ level ∈ ["high"; "medium"; "low"]%string) t →
  (length (at_risk "high" t) + length (at_risk "medium" t)
   + length (at_risk "low" t))%nat = length t.
Proof.
  induction 1 as [| r t (level & Hr & Hlevel) _ IH]; [done |].
  unfold at_risk in *. cbn. rewrite Hr.
  repeat (apply elem_of_cons in Hlevel as [-> | Hlevel]);
    [| | | by apply elem_of_nil in Hlevel];
    repeat (case_bool_decide; try discriminate; try congruence);
    cbn; lia.
Qed.

Lemma fraction_bounds (a b : Z) :
  (0 ≤ a ≤ b)%Z → (0 < b)%Z → 0 <= inject_Z a / inject_Z b <= 1.
Proof.
  intros [Ha Hab] Hb.
  assert (inject_Z 0 <= inject_Z a) by (rewrite <- Zle_Qle; lia).
  assert (inject_Z a <= inject_Z b) by (rewrite <- Zle_Qle; lia).
  assert (inject_Z 0 < inject_Z b) by (rewrite <- Zlt_Qlt; lia).
  change (inject_Z 0) with 0 in *.
  split; [apply Qle_shift_div_l | apply Qle_shift_div_r]; lra.
Qed.

(** C10. The summary's risk counts partition the population: every row of
    the scored table has exactly one of the three risk levels, the three
    counts are the numbers of rows at each level and add up to the number
    of customers, and still_active_pct lies in [0, 1]. *)
Theorem churn_summary_partition h l t :
  h !! l = Some t →
  returns (get_churn_summary l) h (summary_partitions t).
Proof.
  intros Hl.
  eapply returns_mono; [by apply get_churn_summary_spec |].
  intros s h' (_ & _ & Hout & _ & _ & Hhigh & Hmedium & Hlow & _ & Hpct).
  assert (Hlen : length (scored t) = length t).
  { unfold scored. apply length_fmap. }
  pose proof (at_risk_partition _ (scored_levels t)) as Hsum.
  exists (scored t).
  split_and!; try done; [apply scored_levels | lia | |].
  - rewrite Hpct. case_bool_decide; [| done].
    apply fraction_bounds; [| done]. rewrite Hlow.
    pose proof (filter_length_le
      (λ r, bool_decide (col_risk_level r = Some "low"%string)) (scored t)).
    unfold at_risk. lia.
  - rewrite Hpct. case_bool_decide; [| done].
    apply fraction_bounds; [| done]. rewrite Hlow.
    pose proof (filter_length_le
      (λ r, bool_decide (col_risk_level r = Some "low"%string)) (scored t)).
    unfold at_risk. lia.
Qed.

(** *** Rescaling days_since_visit *)

Section Rescaling.

Variable c : Q.
Hypothesis c_pos : 0 < c.

Local Abbreviation times_c := (times c).

Lemma times_c_le d1 d2 m1 m2 :
  times_c d1 d2 → times_c m1 m2 → (d1 ≤ m1)%Z ↔ (d2 ≤ m2)%Z.
Proof.
  unfold times. intros Hd Hm. rewrite !Zle_Qle, Hd, Hm.
  split; intros Hle; [by apply Qmult_le_l | by apply Qmult_le_l in Hle].
Qed.

Lemma times_c_pos m1 m2 : times_c m1 m2 → (0 < m1)%Z ↔ (0 < m2)%Z.
Proof.
  unfold times. intros Hm. rewrite !Zlt_Qlt, Hm.
  change (inject_Z 0) with 0.
  split; intros Hlt; [by apply Qmult_lt_0_compat |].
  destruct (Qlt_le_dec 0 (inject_Z m1)); [done | exfalso; nra].
Qed.

Lemma times_c_max d1 d2 m1 m2 :
  times_c d1 d2 → times_c m1 m2 → times_c (Z.max d1 m1) (Z.max d2 m2).
Proof.
  intros Hd Hm. pose proof (times_c_le _ _ _ _ Hd Hm) as Hle.
  destruct (Z.max_spec d1 m1) as [[? ->] | [? ->]],
           (Z.max_spec d2 m2) as [[? ->] | [? ->]];
    try done.
  - by replace d2 with m2 by lia.
  - by replace d1 with m1 by lia.
Qed.

Lemma series_max_rescaled s1 s2 :
  Forall2 times_c s1 s2 →
  option_Forall2 times_c (series_max s1) (series_max s2).
Proof.
  induction 1 as [| d1 d2 s1 s2 Hd _ IH]; [constructor |].
  rewrite !series_max_cons. constructor.
  destruct IH as [m1 m2 Hm |]; [by apply times_c_max | done].
Qed.

End Rescaling.

(** *** The theorems at a salon of four customers *)

Import Examples.

Lemma salon_well_formed : well_formed salon.
Proof.
  unfold well_formed, salon.
  repeat (constructor; [split; cbn; lia |]). constructor.
Qed.

Lemma salon_rescaled_by_fifth : rescaled (1 # 5) salon salon_rescaled.
Proof.
  unfold rescaled, salon, salon_rescaled.
  repeat (constructor; [split; [vm_compute |]; reflexivity |]). constructor.
Qed.

Lemma churn_summary_partition_witness :
  returns (get_churn_summary 1) (store_of salon) (summary_partitions salon).
Proof. apply churn_summary_partition. reflexivity. Defined.

End ChurnFacts.

Module Float64Facts.

Local Open Scope Q_scope.

(** Rounding depends on the value only. *)
Lemma round_proper x y : x == y → Float64.round x = Float64.round y.
Proof.
  intros Hxy. unfold Float64.round. by rewrite (Qred_complete x y Hxy).
Qed.

Lemma Qred_inject_Z z : Qred (inject_Z z) = inject_Z z.
Proof.
  unfold Qred, inject_Z.
  pose proof (Z.ggcd_gcd z 1) as Hg.
  pose proof (Z.ggcd_correct_divisors z 1) as Hd.
  destruct (Z.ggcd z 1) as [g [r1 r2]]. cbn in *.
  rewrite Z.gcd_1_r in Hg. subst g. destruct Hd as [-> Hr2].
  f_equal; [lia |]. assert (r2 = 1%Z) as -> by lia. done.
Qed.

Lemma round_half_even_whole n : Float64.round_half_even n 1 = n.
Proof.
  unfold Float64.round_half_even. by rewrite Z.mod_1_r, Z.div_1_r.
Qed.

(** The whole numbers from 0 to 2^53 are doubles. *)
Lemma round_int z :
  (0 ≤ z ≤ 2 ^ 53)%Z → Float64.round (inject_Z z) = inject_Z z.
Proof.
  intros Hz. unfold Float64.round. rewrite Qred_inject_Z.
  cbn [Qnum Qden inject_Z].
  destruct (Z.eqb_spec z 0) as [-> | Hne]; [done |].
  assert (0 < z)%Z as Hpos by lia.
  rewrite Z.abs_eq, Z.sgn_pos by lia.
  pose proof (Z.log2_nonneg z) as Hlog0.
  pose proof (Z.log2_spec z Hpos) as [Hlo _].
  assert (Float64.floor_log2 z 1 = Z.log2 z) as ->.
  { unfold Float64.floor_log2. change (Z.log2 1) with 0%Z.
    rewrite Z.sub_0_r, (proj2 (Z.leb_le 0 _)) by done.
    rewrite (proj2 (Z.leb_le _ _)); [done | lia]. }
  assert (Z.log2 z ≤ 53)%Z as Hlog.
  { destruct (Z.le_gt_cases (Z.log2 z) 53) as [| Hgt]; [done |].
    assert (2 ^ 54 ≤ 2 ^ Z.log2 z)%Z by (apply Z.pow_le_mono_r; lia).
    lia. }
  rewrite Z.max_l by lia.
  etrans; [| apply Qred_inject_Z]. apply Qred_complete.
  destruct (Z.leb_spec 0 (Z.log2 z - 52)) as [He | He].
  - assert (Z.log2 z - 52 = 0 ∨ Z.log2 z - 52 = 1)%Z as [E | E] by lia;
      rewrite E.
    + rewrite Z.pow_0_r, Z.mul_1_r, round_half_even_whole.
      unfold Float64.two_power, Qeq. cbn. lia.
    + assert (z = 2 ^ 53)%Z as ->.
      { replace (Z.log2 z) with 53%Z in Hlo by lia.
        apply Z.le_antisymm; [apply Hz | exact Hlo]. }
      by vm_compute.
  - rewrite round_half_even_whole. unfold Float64.two_power.
    rewrite (proj2 (Z.leb_gt 0 _)) by lia.
    unfold Qeq. cbn [Qnum Qden inject_Z Qmult].
    assert (0 < 2 ^ (- (Z.log2 z - 52)))%Z by (apply Z.pow_pos_nonneg; lia).
    rewrite Pos.mul_1_l, Z2Pos.id by done. lia.
Qed.

Lemma of_int_exact z : (0 ≤ z ≤ 2 ^ 53)%Z → Float64.of_int z = inject_Z z.
Proof. apply round_int. Qed.

Lemma mul_comm a b : Float64.mul a b = Float64.mul b a.
Proof. apply round_proper, Qmult_comm. Qed.

(** The doubles that the literals of the scorer denote: 0.7 is below 7/10,
    0.4 and 0.3 are above 4/10 and below 3/10. *)
Lemma literals :
  Float64.literal 0.7 = 3152519739159347 # 4503599627370496 ∧
  Float64.literal 0.4 = 3602879701896397 # 9007199254740992 ∧
  Float64.literal 0.3 = 5404319552844595 # 18014398509481984.
Proof. by vm_compute. Qed.

End Float64Facts.

Module ChurnFloat64Facts.

Import Churn ChurnFloat64 ChurnSpec ChurnFloat64Spec ChurnFacts Float64Facts.
Import Examples ThresholdExamples.
Local Open Scope Q_scope.

Lemma recency_scores_float64_fmap days max_days :
  recency_scores_float64 days max_days
  = recency_score_float64_at max_days <$> days.
Proof.
  unfold recency_scores_float64, recency_score_float64_at.
  destruct max_days as [m |]; [| apply broadcast_fmap].
  destruct (gt_zero (Some m)); [done | apply broadcast_fmap].
Qed.

Lemma frequency_scores_float64_fmap freq max_freq :
  frequency_scores_float64 freq max_freq
  = frequency_score_float64_at max_freq <$> freq.
Proof.
  unfold frequency_scores_float64, frequency_score_float64_at.
  destruct max_freq as [m |]; [| apply broadcast_fmap].
  destruct (gt_zero (Some m)); [done | apply broadcast_fmap].
Qed.

Ltac as_fmap_float64 :=
  rewrite ?recency_scores_float64_fmap, ?frequency_scores_float64_fmap;
  rewrite <- ?list_fmap_compose;
  rewrite ?zip_with_fmap_l, ?zip_with_fmap_r, ?zip_with_diag;
  rewrite <- ?list_fmap_compose.

Lemma calculate_churn_probability_float64_spec h l t :
  h !! l = Some t →
  returns (calculate_churn_probability_float64 l) h
    (λ df h', h !! df = None ∧ h' = <[df := scored_float64 t]> h).
Proof.
  intros Hl. unfold calculate_churn_probability_float64.
  do 10 py_step. as_fmap_float64.
  do 4 py_step. as_fmap_float64.
  py_step. py_read. py_step. py_read. as_fmap_float64.
  do 2 py_step. as_fmap_float64.
  py_step. py_read. as_fmap_float64.
  do 2 py_step. as_fmap_float64.
  py_step. py_read. as_fmap_float64.
  do 3 py_step. as_fmap_float64.
  split; [done |]. f_equal.
Qed.

(** *** Each formula of the scorer against the specification's *)

Lemma recency_score_float64_spec m d :
  (0 ≤ m)%Z →
  recency_score_float64_at (Some m) d == spec_recency_score_float64 d m.
Proof.
  intros Hm.
  unfold recency_score_float64_at, spec_recency_score_float64, gt_zero.
  repeat case_bool_decide; first [reflexivity | lia].
Qed.

Lemma frequency_score_float64_spec m f :
  (0 ≤ m)%Z →
  frequency_score_float64_at (Some m) f == spec_frequency_score_float64 f m.
Proof.
  intros Hm.
  unfold frequency_score_float64_at, spec_frequency_score_float64, gt_zero.
  repeat case_bool_decide; first [reflexivity | lia].
Qed.

Lemma risk_level_float64_spec p :
  spec_risk_float64 p (risk_level_float64 p).
Proof.
  unfold risk_level_float64.
  destruct (Qle_bool (Float64.literal 0.7) p) eqn:Hhigh.
  { apply spec_high_float64. by apply Qle_bool_iff. }
  assert (p < Float64.literal 0.7).
  { apply Qnot_le_lt. rewrite <- Qle_bool_iff. congruence. }
  destruct (Qle_bool (Float64.literal 0.4) p) eqn:Hmedium.
  { apply spec_medium_float64; [by apply Qle_bool_iff | done]. }
  apply spec_low_float64, Qnot_le_lt. rewrite <- Qle_bool_iff. congruence.
Qed.

Lemma churn_row_float64_spec max_days max_freq r :
  (0 ≤ max_days)%Z → (0 ≤ max_freq)%Z →
  spec_row_float64 max_days max_freq (base r)
    (churn_row_float64 (Some max_days) (Some max_freq) r).
Proof.
  intros Hd Hf. unfold spec_row_float64. eexists _, _, _, _.
  split_and!; try reflexivity.
  - by apply recency_score_float64_spec.
  - by apply frequency_score_float64_spec.
  - apply clip_spec.
    by rewrite (mul_comm _ (Float64.literal 0.7)),
               (mul_comm _ (Float64.literal 0.3)).
  - apply risk_level_float64_spec.
Qed.

(** C3, amended. On every customer aggregate the churn scorer returns, for
    every customer, the scores of the specification evaluated in float64,
    every operation rounded to the nearest double: recency_score =
    days_since_visit / max(days_since_visit) (0 when the maximum is 0),
    frequency_score = 1 − frequency / max(frequency) (0 when the maximum
    is 0), p_churn = clip(0.7·recency_score + 0.3·frequency_score, 0, 1),
    and the risk level high when p_churn ≥ 0.70, medium when 0.40 ≤
    p_churn < 0.70, low when p_churn < 0.40, where 0.70 and 0.40 are the
    doubles and p_churn is the rounded value. *)
Theorem churn_scores_as_specified h l t :
  h !! l = Some t →
  well_formed t →
  returns (calculate_churn_probability_float64 l) h
    (scores_as_specified_float64 t).
Proof.
  intros Hl Hwf.
  eapply returns_mono; [by apply calculate_churn_probability_float64_spec |].
  intros df h' [_ ->]. exists (scored_float64 t).
  split; [apply lookup_insert_eq |].
  unfold scored_float64.
  apply Forall2_fmap_r, Forall_Forall2_diag, Forall_forall.
  intros r _ max_days max_freq Hd Hf. cbn beta.
  rewrite (series_max_of_is_max _ _ Hd), (series_max_of_is_max _ _ Hf).
  unfold well_formed in Hwf. rewrite Forall_forall in Hwf.
  destruct Hd as [Hd _], Hf as [Hf _].
  apply list_elem_of_fmap in Hd as (rd & -> & Hrd).
  apply list_elem_of_fmap in Hf as (rf & -> & Hrf).
  apply churn_row_float64_spec;
    [by apply Hwf in Hrd as [? ?] | by apply Hwf in Hrf as [? ?]].
Qed.

Lemma threshold_pair_well_formed : well_formed threshold_pair.
Proof.
  unfold well_formed, threshold_pair.
  repeat (constructor; [split; cbn; lia |]). constructor.
Qed.

Lemma churn_scores_as_specified_witness :
  returns (calculate_churn_probability_float64 1) (store_of threshold_pair)
    (scores_as_specified_float64 threshold_pair).
Proof.
  apply churn_scores_as_specified;
    [reflexivity | apply threshold_pair_well_formed].
Defined.

Lemma spec_clip_inside x : 0 <= x → x <= 1 → spec_clip x 0 1 == x.
Proof.
  intros H0 H1. unfold spec_clip.
  destruct (Qlt_le_dec x 0); [lra |]. destruct (Qlt_le_dec 1 x); lra.
Qed.

(** C3 as stated, in exact arithmetic, fails on two customers, A with 5
    visits and 1 day since the last, B with 6 visits and 2 days: the
    formulas give A the p_churn 0.7·(1/2) + 0.3·(1 − 5/6) = 2/5, for which
    the claim says medium; the scorer returns the double
    0.39999999999999997 = 7205759403792793 / 2^54 and low. *)
Theorem churn_scores_rounded_at_threshold :
  well_formed threshold_pair ∧
  spec_p_churn (spec_recency_score 1 2) (spec_frequency_score 5 6) == 2 # 5 ∧
  spec_risk (2 # 5) "medium" ∧
  returns (calculate_churn_probability_float64 1) (store_of threshold_pair)
    (first_customer_scored (7205759403792793 # 18014398509481984) "low") ∧
  ¬ returns (calculate_churn_probability_float64 1) (store_of threshold_pair)
      (scores_as_specified threshold_pair).
Proof.
  pose proof (calculate_churn_probability_float64_spec
                (store_of threshold_pair) 1%positive threshold_pair eq_refl)
    as Hspec.
  split_and!.
  - apply threshold_pair_well_formed.
  - by vm_compute.
  - apply spec_medium; by vm_compute.
  - eapply returns_mono; [exact Hspec |].
    intros df h' [_ ->]. eexists _, _.
    split_and!; [apply lookup_insert_eq | by vm_compute | by vm_compute].
  - intros (df & h' & Hrun & out & Hout & Hrows).
    eapply returns_inv in Hspec as [_ Hh']; [| exact Hrun]. subst h'.
    rewrite lookup_insert_eq in Hout. injection Hout as <-.
    apply Forall2_cons_1 in Hrows as [Hrow _].
    destruct (Hrow 2%Z 6%Z) as (rs & fs & p & level & Hrs & Hfs & Hp & Hlevel
                                 & Ers & Efs & Ep & Hrisk).
    { split; [by vm_compute; right; left |].
      repeat (constructor; [by vm_compute |]). constructor. }
    { split; [by vm_compute; right; left |].
      repeat (constructor; [by vm_compute |]). constructor. }
    assert (p == 2 # 5) as Hexact.
    { assert (rs == 1 # 2) as Hhalf by (rewrite Ers; by vm_compute).
      assert (fs == 1 # 6) as Hsixth by (rewrite Efs; by vm_compute).
      rewrite Ep. unfold spec_p_churn.
      rewrite spec_clip_inside; lra. }
    vm_compute in Hp. injection Hp as <-. by vm_compute in Hexact.
Qed.

(** *** Rescaling days_since_visit *)

Section RescalingFloat64.

Variable c : Q.
Hypothesis c_pos : 0 < c.

Lemma recency_score_float64_rescaled m1 m2 d1 d2 :
  option_Forall2 (times c) m1 m2 → times c d1 d2 →
  (∀ m, m1 = Some m → 0 ≤ m ≤ 2 ^ 53)%Z →
  (∀ m, m2 = Some m → 0 ≤ m ≤ 2 ^ 53)%Z →
  (0 ≤ d1 ≤ 2 ^ 53)%Z → (0 ≤ d2 ≤ 2 ^ 53)%Z →
  recency_score_float64_at m2 d2 = recency_score_float64_at m1 d1.
Proof.
  intros [m1' m2' Hm |] Hd Hm1 Hm2 Hd1 Hd2; [| reflexivity].
  unfold recency_score_float64_at, gt_zero.
  pose proof (times_c_pos c c_pos _ _ Hm) as Hpos.
  repeat case_bool_decide; try tauto.
  rewrite !of_int_exact by auto.
  apply round_proper. unfold times in *. rewrite Hd, Hm.
  assert (0 < inject_Z m1').
  { change 0 with (inject_Z 0). by rewrite <- Zlt_Qlt. }
  field. split; lra.
Qed.

Lemma series_max_representable (t : DataFrame) m :
  representable t →
  series_max ((λ r, days_since_visit (base r)) <$> t) = Some m →
  (0 ≤ m ≤ 2 ^ 53)%Z.
Proof.
  intros Ht Hm. apply series_max_is_max in Hm as [Hin _].
  apply list_elem_of_fmap in Hin as (r & -> & Hr).
  unfold representable in Ht. rewrite Forall_forall in Ht. by apply Ht.
Qed.

Lemma scored_float64_rescaled t1 t2 :
  rescaled c t1 t2 → representable t1 → representable t2 →
  Forall2 same_churn (scored_float64 t1) (scored_float64 t2).
Proof.
  intros Ht Hrep1 Hrep2.
  assert (Hfreq : (λ r, frequency (base r)) <$> t1
                  = (λ r, frequency (base r)) <$> t2).
  { clear Hrep1 Hrep2. induction Ht as [| r1 r2 t1 t2 [_ Hf] _ IH]; [done |].
    cbn. by rewrite Hf, IH. }
  assert (Hdays : Forall2 (times c)
            ((λ r, days_since_visit (base r)) <$> t1)
            ((λ r, days_since_visit (base r)) <$> t2)).
  { apply Forall2_fmap. eapply Forall2_impl; [exact Ht |].
    by intros r1 r2 [? _]. }
  apply (series_max_rescaled c c_pos) in Hdays.
  pose proof (series_max_representable t1) as Hmax1.
  pose proof (series_max_representable t2) as Hmax2.
  unfold scored_float64. rewrite Hfreq. apply Forall2_fmap.
  pose proof Hrep1 as Hall1. pose proof Hrep2 as Hall2.
  unfold representable in Hall1, Hall2.
  rewrite Forall_forall in Hall1, Hall2.
  apply Forall2_same_length_lookup. split; [by eapply Forall2_length |].
  intros i r1 r2 Hr1 Hr2.
  pose proof (Forall2_lookup_lr _ _ _ _ _ _ Ht Hr1 Hr2) as [Hd Hf].
  apply list_elem_of_lookup_2 in Hr1, Hr2.
  unfold same_churn. cbn [col_p_churn col_risk_level churn_row_float64].
  assert (Hp : p_churn_float64_at
            (series_max ((λ r, days_since_visit (base r)) <$> t2))
            (series_max ((λ r, frequency (base r)) <$> t2)) (base r2)
          = p_churn_float64_at
            (series_max ((λ r, days_since_visit (base r)) <$> t1))
            (series_max ((λ r, frequency (base r)) <$> t2)) (base r1)).
  { unfold p_churn_float64_at.
    rewrite (recency_score_float64_rescaled _ _ _ _ Hdays Hd), Hf; auto. }
  eexists _, _, _. split_and!; try reflexivity; by rewrite Hp.
Qed.

End RescalingFloat64.

(** C8, amended. Multiplying every customer's days_since_visit by a
    positive constant [c] leaves every customer's p_churn, and so the risk
    level, as it was, provided the days are whole numbers that float64
    holds exactly (from 0 to 2^53) before and after: the scorer run on a
    table and on the rescaled table returns rows that agree on both. *)
Theorem churn_rescaling_invariant (c : Q) h1 l1 t1 h2 l2 t2 :
  0 < c →
  h1 !! l1 = Some t1 →
  h2 !! l2 = Some t2 →
  rescaled c t1 t2 →
  representable t1 →
  representable t2 →
  same_scores h1 l1 h2 l2.
Proof.
  intros Hc Hl1 Hl2 Ht Hrep1 Hrep2. unfold same_scores.
  eapply returns_mono; [by apply calculate_churn_probability_float64_spec |].
  intros df1 h1' [_ ->].
  eapply returns_mono; [by apply calculate_churn_probability_float64_spec |].
  intros df2 h2' [_ ->].
  exists (scored_float64 t1), (scored_float64 t2).
  split_and!; [apply lookup_insert_eq | apply lookup_insert_eq |].
  by apply (scored_float64_rescaled c).
Qed.

Lemma churn_rescaling_invariant_witness :
  same_scores (store_of salon) 1 (store_of salon_rescaled) 1.
Proof.
  apply (churn_rescaling_invariant (1 # 5) _ _ salon _ _ salon_rescaled);
    [reflexivity | reflexivity | reflexivity | apply salon_rescaled_by_fifth
    | |];
    unfold representable, salon, salon_rescaled;
    repeat (constructor; [by vm_compute |]); constructor.
Defined.

(** C8 as stated, for every positive constant, fails for the factor
    2^53 + 1 on two customers, A with 5 visits and 3 days since the last,
    B with 12 visits and 4 days: the rescaled days are above 2^53 and are
    rounded when numpy converts them, the recency_score of A moves from
    0.75 to 0.7500000000000001, its p_churn from 0.6999999999999998 to the
    double 0.7, and its risk level from medium to high. *)
Theorem churn_rescaling_changes_risk :
  0 < large_factor ∧
  rescaled large_factor overdue_pair overdue_pair_rescaled ∧
  returns (calculate_churn_probability_float64 1) (store_of overdue_pair)
    (first_customer_scored (6305039478318693 # 9007199254740992) "medium") ∧
  returns (calculate_churn_probability_float64 1)
    (store_of overdue_pair_rescaled)
    (first_customer_scored (3152519739159347 # 4503599627370496) "high") ∧
  ¬ same_scores (store_of overdue_pair) 1 (store_of overdue_pair_rescaled) 1.
Proof.
  pose proof (calculate_churn_probability_float64_spec
                (store_of overdue_pair) 1%positive overdue_pair eq_refl)
    as Hspec1.
  pose proof (calculate_churn_probability_float64_spec
                (store_of overdue_pair_rescaled) 1%positive
                overdue_pair_rescaled eq_refl)
    as Hspec2.
  split_and!.
  - by vm_compute.
  - unfold rescaled, overdue_pair, overdue_pair_rescaled.
    repeat (constructor; [split; [vm_compute |]; reflexivity |]). constructor.
  - eapply returns_mono; [exact Hspec1 |].
    intros df h' [_ ->]. eexists _, _.
    split_and!; [apply lookup_insert_eq | by vm_compute | by vm_compute].
  - eapply returns_mono; [exact Hspec2 |].
    intros df h' [_ ->]. eexists _, _.
    split_and!; [apply lookup_insert_eq | by vm_compute | by vm_compute].
  - intros (df1 & h1' & Hrun1 & df2 & h2' & Hrun2 & out1 & out2 & Hout1
            & Hout2 & Hrows).
    eapply returns_inv in Hspec1 as [_ Hh1]; [| exact Hrun1]. subst h1'.
    eapply returns_inv in Hspec2 as [_ Hh2]; [| exact Hrun2]. subst h2'.
    rewrite lookup_insert_eq in Hout1, Hout2.
    injection Hout1 as <-. injection Hout2 as <-.
    apply Forall2_cons_1 in Hrows as [(p1 & p2 & level & _ & _ & _ & Hl1 & Hl2)
                                        _].
    vm_compute in Hl1, Hl2. congruence.
Qed.

End ChurnFloat64Facts.

Module ValueFacts.

Import ValueModel ValueSpec.
Local Open Scope Q_scope.

Lemma mapM_col_total {A} (col : row → option A) (f : row → A) (t : DataFrame) :
  Forall (λ r, col r = Some (f r)) t → mapM col t = Some (f <$> t).
Proof.
  induction 1 as [| r t Hr _ IH]; [done |].
  cbn. rewrite Hr. cbn. rewrite IH. done.
Qed.

Lemma returns_nlargest df n name (col : row → option Q) h t keys
    (Φ : loc → heap → Prop) :
  h !! df = Some t →
  mapM col t = Some keys →
  (∀ l', h !! l' = None → Φ l' (<[l' := nlargest_rows n keys t]> h)) →
  returns (nlargest df n name col) h Φ.
Proof.
  intros Hdf Hkeys HΦ. unfold nlargest.
  apply returns_bind, (returns_load _ _ t); [done |].
  rewrite Hkeys. by apply returns_alloc.
Qed.

(** *** Sorting in descending order of a key *)

Section Sorting.

Context {A : Type} (key : A → Q).

Local Abbreviation before := (larger_first key).
Local Abbreviation desc := (descending key).

Lemma Qlt_bool_iff a b : Qlt_bool a b = true ↔ a < b.
Proof.
  unfold Qlt_bool. rewrite negb_true_iff, <- not_true_iff_false, Qle_bool_iff.
  split; [apply Qnot_le_lt | apply Qlt_not_le].
Qed.

Lemma insert_by_perm x l : insert_by before x l ≡ₚ x :: l.
Proof.
  induction l as [| y l IH]; [done |]. cbn.
  destruct (before y x); [| done]. rewrite IH. apply Permutation_swap.
Qed.

Lemma sort_by_perm l : sort_by before l ≡ₚ l.
Proof.
  induction l as [| x l IH]; [done |]. cbn.
  fold (sort_by before l). by rewrite insert_by_perm, IH.
Qed.

Lemma insert_by_sorted x l :
  StronglySorted desc l → StronglySorted desc (insert_by before x l).
Proof.
  induction 1 as [| y l Hl IH Hy]; cbn.
  { repeat constructor. }
  destruct (before y x) eqn:Hyx.
  - constructor; [done |]. rewrite insert_by_perm.
    constructor; [| done]. apply Qlt_bool_iff in Hyx.
    unfold descending. lra.
  - assert (key y <= key x) as Hle.
    { apply Qnot_lt_le. rewrite <- Qlt_bool_iff. unfold larger_first in Hyx.
      congruence. }
    constructor; [by constructor |].
    constructor; [done |].
    eapply Forall_impl; [exact Hy |]. unfold descending. cbn. intros z Hz. lra.
Qed.

Lemma sort_by_sorted l : StronglySorted desc (sort_by before l).
Proof.
  induction l as [| x l IH]; [constructor |]. cbn.
  fold (sort_by before l). by apply insert_by_sorted.
Qed.

Lemma sorted_take_drop k l a b :
  StronglySorted desc l → a ∈ take k l → b ∈ drop k l → key b <= key a.
Proof.
  intros Hl. revert k. induction Hl as [| y l Hl IH Hy]; intros k Ha Hb.
  { rewrite take_nil in Ha. by apply elem_of_nil in Ha. }
  destruct k as [| k]; cbn in Ha, Hb.
  { by apply elem_of_nil in Ha. }
  apply elem_of_cons in Ha as [-> | Ha]; [| by apply (IH k)].
  rewrite Forall_forall in Hy. apply Hy.
  by apply (subseteq_drop k l).
Qed.

End Sorting.

Lemma nlargest_rows_subset n keys (t : DataFrame) r :
  r ∈ nlargest_rows n keys t → r ∈ t.
Proof.
  unfold nlargest_rows. intros Hr.
  apply list_elem_of_fmap in Hr as ([k r'] & -> & Hr).
  apply (subseteq_take (Z.to_nat n)) in Hr.
  rewrite (sort_by_perm fst) in Hr. by apply elem_of_zip_r in Hr.
Qed.

Lemma with_clv_col t :
  Forall (λ r, col_clv r = Some (clv_of (base r))) (with_clv t).
Proof. unfold with_clv. by apply Forall_fmap, Forall_true. Qed.

Lemma top_rows_col t :
  Forall (λ r, col_clv r = Some (clv_of (base r))) (top_rows t).
Proof.
  apply Forall_forall. intros r Hr. apply nlargest_rows_subset in Hr.
  pose proof (with_clv_col t) as Hcol. rewrite Forall_forall in Hcol. auto.
Qed.

Lemma fit_gamma_gamma_spec h l t :
  h !! l = Some t →
  returns (fit_gamma_gamma l) h
    (λ res h',
       h ⊆ h' ∧
       if bool_decide (Z.of_nat (length (repeat_rows t)) < 10)%Z
       then res = Failure "Need at least 10 repeat customers for CLV analysis"
            ∧ ∃ selected copied,
                h' = <[copied := repeat_rows t]>
                       (<[selected := repeat_rows t]> h)
       else ∃ s,
           res = Success s ∧
           h !! repeat_customers s = None ∧
           h' !! repeat_customers s = Some (with_clv t) ∧
           h !! hidden_gems s = None ∧
           h' !! hidden_gems s = Some (hidden_gem_rows t) ∧
           avg_clv s = series_mean (clvs t) ∧
           total_clv s = series_sum (clvs t) ∧
           top_10_pct_clv s
           = series_mean ((λ r, clv_of (base r)) <$> top_rows t) ∧
           n_repeat s = Z.of_nat (length (repeat_rows t))).
Proof.
  intros Hl. unfold fit_gamma_gamma.
  do 4 py_step. rewrite <- list_fmap_compose, mask_rows_fmap.
  change (List.filter _ t) with (repeat_rows t).
  do 4 py_step.
  case_bool_decide as Hn.
  { py_step. py_lookup. split_and!; [| done | by eexists _, _].
    repeat (apply insert_subseteq_r; [done |]). done. }
  do 6 py_step.
  rewrite !zip_with_fmap_l, !zip_with_fmap_r, !zip_with_diag,
          zip_with_fmap_l, zip_with_diag.
  change (_ <$> repeat_rows t) with (with_clv t).
  pose proof (mapM_col_total _ _ _ (with_clv_col t)) as Hclv.
  assert ((λ r, clv_of (base r)) <$> with_clv t = clvs t) as Hclvs.
  { unfold with_clv, clvs. by rewrite <- list_fmap_compose. }
  rewrite Hclvs in Hclv.
  py_step. eapply returns_getitem_added; [py_lookup | exact Hclv |].
  py_step. eapply returns_getitem_added; [py_lookup | exact Hclv |].
  do 3 py_step.
  eapply returns_nlargest; [py_lookup | exact Hclv | intros top Htop].
  change (nlargest_rows _ _ _) with (top_rows t).
  py_step. eapply returns_getitem_added;
    [py_lookup | exact (mapM_col_total _ _ _ (top_rows_col t)) |].
  do 6 py_step.
  rewrite <- list_fmap_compose, zip_with_rows.
  change (_ <$> t) with (projected t).
  do 6 py_step.
  rewrite <- !list_fmap_compose, zip_with_fmap_l, zip_with_fmap_r,
          zip_with_diag, mask_rows_fmap.
  py_step. eapply returns_nlargest;
    [py_lookup | apply mapM_col_total, Forall_true; reflexivity
    | intros gems Hgems].
  do 3 py_step.
  change (nlargest_rows 10 _ _) with (hidden_gem_rows t).
  py_lookup. split.
  { repeat (apply insert_subseteq_r; [done |]). done. }
  eexists. split_and!; try reflexivity; try done; cbn; try py_lookup.
  unfold with_clv. by rewrite length_fmap.
Qed.

(** C4. The value model returns the structured failure (success false and
    a message, nothing computed beyond the selection of the repeat customers
    and its copy, no exception) exactly when fewer than 10 customers have
    frequency ≥ 2, and success true when 10 or more have. *)
Theorem value_model_threshold h l t :
  h !! l = Some t →
  returns (fit_gamma_gamma l) h (threshold_respected h t).
Proof.
  intros Hl.
  eapply returns_mono; [by apply fit_gamma_gamma_spec |].
  intros res h' [_ Hres]. unfold threshold_respected. cbn zeta.
  case_bool_decide as Hn.
  - destruct Hres as [-> Hh']. cbn. split_and!; [done | | by eauto].
    split; [done | lia].
  - destruct Hres as (s & -> & _). cbn. split_and!; [| | done].
    + split; [done | lia].
    + split; [lia | done].
Qed.

(** *** The summary statistics *)

Lemma sum_clv_col (t : DataFrame) :
  Forall (λ r, col_clv r = Some (clv_of (base r))) t →
  series_sum ((λ r, clv_of (base r)) <$> t) = sum_clv t.
Proof.
  induction 1 as [| r t Hr _ IH]; [done |].
  change (clv_of (base r) + series_sum ((λ r, clv_of (base r)) <$> t)
          = clv_value r + sum_clv t).
  unfold clv_value. rewrite Hr, IH. done.
Qed.

Lemma series_mean_nonempty (s : list Q) :
  s ≠ [] →
  series_mean s = Some (series_sum s / inject_Z (Z.of_nat (length s))).
Proof. by destruct s. Qed.

Lemma top_size_spec n : (0 ≤ n)%Z → top_size n = spec_top_size n.
Proof.
  intros Hn. unfold top_size, spec_top_size, int, Qfloor, or_else. cbn.
  rewrite Z.mul_1_r, Z.quot_div_nonneg by lia.
  change (Z.pos (1 * 10)) with 10%Z.
  pose proof (Z.div_pos n 10). case_bool_decide; lia.
Qed.

Lemma top_size_bounds n : (10 ≤ n)%Z → (1 ≤ top_size n ≤ n)%Z.
Proof.
  intros Hn. rewrite top_size_spec by lia.
  unfold spec_top_size, Qfloor. cbn. rewrite Z.mul_1_r.
  change (Z.pos (1 * 10)) with 10%Z.
  pose proof (Z.div_pos n 10). pose proof (Z.div_le_upper_bound n 10 n).
  lia.
Qed.

Lemma top_rows_group t :
  (10 ≤ Z.of_nat (length (repeat_rows t)))%Z →
  is_top_group (spec_top_size (Z.of_nat (length (repeat_rows t))))
               (top_rows t) (with_clv t).
Proof.
  intros Hn.
  assert (Hlen : length (with_clv t) = length (repeat_rows t)).
  { unfold with_clv. by rewrite length_fmap. }
  unfold top_rows, nlargest_rows. rewrite Hlen.
  set (k := Z.to_nat (top_size (Z.of_nat (length (repeat_rows t))))).
  set (sorted := sort_by _ (zip (clvs t) (with_clv t))).
  assert (Hperm : sorted ≡ₚ zip (clvs t) (with_clv t)).
  { apply (sort_by_perm fst). }
  pose proof (top_size_bounds _ Hn) as Hk.
  exists ((drop k sorted).*2). split_and!.
  - rewrite <- fmap_app, take_drop, Hperm. rewrite snd_zip; [done |].
    unfold clvs. rewrite Hlen, length_fmap. done.
  - rewrite length_fmap, length_take_le.
    + rewrite <- top_size_spec by lia. unfold k. lia.
    + rewrite Hperm, length_zip_with. unfold clvs.
      rewrite Hlen, length_fmap. unfold k. lia.
  - intros a b Ha Hb.
    apply list_elem_of_fmap in Ha as ([ka a'] & -> & Ha).
    apply list_elem_of_fmap in Hb as ([kb b'] & -> & Hb).
    pose proof (sorted_take_drop fst k sorted _ _
                  (sort_by_sorted fst _) Ha Hb) as Hle.
    assert (Hkey : ∀ p, p ∈ sorted → p.1 = clv_value p.2).
    { intros p Hp. rewrite Hperm in Hp. unfold clvs, with_clv in Hp.
      rewrite zip_with_fmap_l, zip_with_fmap_r, zip_with_diag in Hp.
      apply list_elem_of_fmap in Hp as (r & -> & _). done. }
    apply (subseteq_take k) in Ha. apply (subseteq_drop k) in Hb.
    rewrite <- (Hkey _ Ha), <- (Hkey _ Hb). exact Hle.
Qed.

(** C6. With at least 10 repeat customers the value model gives every
    repeat customer the CLV avg_spend × frequency × 1.2 and reports the
    total and the mean of these, and the mean CLV of a group of
    max(floor(n_repeat × 0.1), 1) repeat customers with the largest CLV. *)
Theorem value_model_statistics h l t :
  h !! l = Some t →
  (10 ≤ Z.of_nat (length (repeat_rows t)))%Z →
  returns (fit_gamma_gamma l) h (statistics_as_specified t).
Proof.
  intros Hl Hn.
  eapply returns_mono; [by apply fit_gamma_gamma_spec |].
  intros res h' [_ Hres].
  rewrite bool_decide_false in Hres by lia.
  destruct Hres as (s & -> & _ & Hrep & _ & _ & Havg & Htotal & Htop & _).
  assert (Hlen : length (with_clv t) = length (repeat_rows t)).
  { unfold with_clv. by rewrite length_fmap. }
  assert (Hclvs : clvs t = (λ r, clv_of (base r)) <$> with_clv t).
  { unfold with_clv, clvs. by rewrite <- list_fmap_compose. }
  pose proof (top_rows_group t Hn) as Hgroup.
  exists s, (with_clv t), (top_rows t). split_and!; try done.
  - unfold with_clv. apply Forall2_fmap_r, Forall_Forall2_diag, Forall_true.
    done.
  - rewrite Htotal, Hclvs. apply sum_clv_col, with_clv_col.
  - rewrite Havg, series_mean_nonempty.
    + unfold mean_clv. rewrite Hclvs at 1.
      rewrite (sum_clv_col _ (with_clv_col t)).
      unfold clvs. by rewrite length_fmap, Hlen.
    + intros Hnil. apply (f_equal length) in Hnil. unfold clvs in Hnil.
      rewrite length_fmap in Hnil. cbn in Hnil. lia.
  - rewrite Htop, series_mean_nonempty.
    + unfold mean_clv. rewrite (sum_clv_col _ (top_rows_col t)).
      by rewrite length_fmap.
    + intros Hnil. apply (f_equal length) in Hnil.
      rewrite length_fmap in Hnil. cbn in Hnil.
      destruct Hgroup as (_ & _ & Hsize & _).
      pose proof (top_size_bounds _ Hn).
      rewrite <- top_size_spec in Hsize by lia. lia.
Qed.

(** *** The theorems at two tables, with one and with twelve repeat
    customers *)

Import Examples.

Lemma value_model_threshold_witness :
  returns (fit_gamma_gamma 1) (store_of salon)
    (threshold_respected (store_of salon) salon).
Proof. apply value_model_threshold. reflexivity. Defined.

Lemma value_model_statistics_witness :
  returns (fit_gamma_gamma 1) (store_of regulars)
    (statistics_as_specified regulars).
Proof.
  apply value_model_statistics; [reflexivity | by vm_compute].
Defined.

End ValueFacts.

Module FrequencyFacts.

Import FrequencyModel FrequencySpec.
Local Open Scope R_scope.

Lemma dom_value_counts (s : list Z) :
  dom (value_counts s) = (list_to_set s : gset Z).
Proof.
  induction s as [| v s IH]; [apply dom_empty_L |].
  change (value_counts (v :: s))
    with (<[v := (default 0 (value_counts s !! v) + 1)%Z]> (value_counts s)).
  by rewrite dom_insert_L, IH.
Qed.

Lemma length_histogram (s : list Z) :
  Z.of_nat (length (histogram s)) = distinct s.
Proof.
  unfold histogram, sort_index, distinct.
  rewrite merge_sort_Permutation, length_map_to_list.
  by rewrite <- dom_value_counts, size_dom.
Qed.

Lemma Rltb_true a b : Rltb a b = true ↔ a < b.
Proof. unfold Rltb. destruct (Rlt_dec a b); naive_solver. Qed.

Lemma Rltb_false a b : Rltb a b = false ↔ b <= a.
Proof.
  unfold Rltb. destruct (Rlt_dec a b); split; try done; lra.
Qed.

Lemma fit_quality_of_spec chi_sq df :
  spec_fit_quality (chi_sq / IZR (Z.max df 1)) (fit_quality_of chi_sq df).1.
Proof.
  unfold fit_quality_of.
  destruct (Rltb _ 2) eqn:Hgood.
  { apply spec_good. by apply Rltb_true. }
  apply Rltb_false in Hgood.
  destruct (Rltb _ 4) eqn:Hmoderate.
  { apply spec_moderate; [done | by apply Rltb_true]. }
  apply spec_poor. by apply Rltb_false.
Qed.

(** Where the guard [max(df, 1)] matters: with negative degrees of freedom
    (a single distinct frequency value) and a chi-square statistic of 2 or
    more, the code does not answer good, although the ratio of the statistic
    to the degrees of freedom is in the band good. *)
Lemma fit_quality_guard chi_sq df :
  (df < 0)%Z → 2 <= chi_sq →
  (fit_quality_of chi_sq df).1 ≠ "good"%string ∧
  spec_fit_quality (chi_sq / IZR df) "good".
Proof.
  intros Hdf Hchi. split.
  - unfold fit_quality_of. replace (Z.max df 1) with 1%Z by lia.
    rewrite (proj2 (Rltb_false _ 2)) by lra.
    by destruct (Rltb _ 4).
  - apply spec_good.
    assert (IZR df < 0) as Hneg by (by apply IZR_lt).
    assert (/ IZR df < 0) by (by apply Rinv_lt_0_compat).
    unfold Rdiv. nra.
Qed.

Lemma p_zero_bounds r alpha :
  in_bounds r → in_bounds alpha → 0 < Rpower (alpha / (alpha + 1)) r < 1.
Proof.
  unfold in_bounds. intros Hr Ha. unfold Rpower. split; [apply exp_pos |].
  apply Rlt_le_trans with (exp 0); [| rewrite exp_0; lra].
  apply exp_increasing.
  assert (0 < alpha / (alpha + 1) < 1) as [Hpos Hlt].
  { assert (0 < / (alpha + 1)) by (apply Rinv_0_lt_compat; lra).
    assert ((alpha + 1) * / (alpha + 1) = 1) by (apply Rinv_r; lra).
    unfold Rdiv. split; nra. }
  pose proof (ln_increasing _ _ Hpos Hlt) as Hln. rewrite ln_1 in Hln.
  nra.
Qed.

Lemma ratio_nonneg a b : 0 <= a → 0 < b → 0 <= a / b.
Proof.
  intros Ha Hb. assert (0 < / b) by (by apply Rinv_0_lt_compat).
  unfold Rdiv. nra.
Qed.

Lemma share_bounds a b : 0 < a → 0 <= b → 0 < a / (a + b) <= 1.
Proof.
  intros Ha Hb. assert (0 < / (a + b)) by (apply Rinv_0_lt_compat; lra).
  assert ((a + b) * / (a + b) = 1) by (apply Rinv_r; lra).
  unfold Rdiv. split; nra.
Qed.

Section FitFacts.

Variable minimize :
  (R * R → R) → R * R → (R * R) * (R * R) → OptimizeResult.
Variable gammaln : R → R.

Lemma fit_zt_nbd_spec h l t :
  h !! l = Some t →
  let freq := (λ r, frequency (base r)) <$> t in
  let n := Z.of_nat (length t) in
  let res := optimum minimize gammaln freq in
  returns (fit_zt_nbd minimize gammaln l) h
    (λ fit h',
       h' = h ∧
       r fit = (x res).1 ∧
       alpha fit = (x res).2 ∧
       n_observed fit = n ∧
       f0 fit = IZR n * p_zero_at res / (1 - p_zero_at res) ∧
       total_market fit = IZR n + f0 fit ∧
       market_reached fit = np_div (IZR n) (total_market fit) ∧
       chi_square fit = chi_square_of minimize gammaln freq ∧
       df fit = (Z.of_nat (length (histogram freq)) - 2)%Z ∧
       (heterogeneity fit, hetero_desc fit) = heterogeneity_of (r fit) ∧
       (fit_quality fit, fit_desc fit)
       = fit_quality_of (chi_square fit) (df fit) ∧
       log_likelihood fit = - fun_ res ∧
       freq_actual fit = histogram freq ∧
       avg_visits fit = int_mean freq).
Proof.
  intros Hl freq n res. unfold fit_zt_nbd.
  do 8 py_step. fold freq.
  subst res.
  unfold chi_square_of, predicted, p_zero_at, optimum, start_point,
    histogram.
  destruct (initial_guess _ _) as [r_init alpha_init].
  destruct (minimize _ _ _) as [[r0 alpha0] fun0]. cbn [x fun_ fst snd].
  destruct (heterogeneity_of r0) as [het het_desc] eqn:Hhet.
  destruct (fit_quality_of _ _) as [q q_desc] eqn:Hq.
  do 3 py_step. cbn [r alpha f0 n_observed total_market market_reached
    chi_square df log_likelihood heterogeneity hetero_desc fit_quality
    fit_desc freq_actual freq_predicted avg_visits].
  assert (Hlen : length freq = length t) by apply length_fmap.
  rewrite Hlen. subst n.
  split_and!; try reflexivity; by symmetry.
Qed.

(** C5. On a non-empty aggregate, if the r and alpha that the optimizer
    returns lie within its bounds [0.01, 100], then the model reports them
    and the number of customers as n_observed, f0 = N·P(0)/(1 − P(0)) ≥ 0,
    and market_reached = n_observed / (n_observed + f0) lies in (0, 1]. *)
Theorem frequency_model_bounds h l t :
  h !! l = Some t →
  t ≠ [] →
  in_bounds (x (optimum minimize gammaln
                  ((λ r, frequency (base r)) <$> t))).1 →
  in_bounds (x (optimum minimize gammaln
                  ((λ r, frequency (base r)) <$> t))).2 →
  returns (fit_zt_nbd minimize gammaln l) h (bounds_hold minimize gammaln t).
Proof.
  intros Hl Ht Hrb Hab.
  eapply returns_mono; [by apply fit_zt_nbd_spec |].
  intros fit h' (_ & Hr & Ha & Hn & Hf0 & Htotal & Hreached & _).
  pose proof (p_zero_bounds _ _ Hrb Hab) as [Hp0 Hp1].
  fold (p_zero_at (optimum minimize gammaln
                     ((λ r, frequency (base r)) <$> t))) in Hp0, Hp1.
  assert (0 < IZR (Z.of_nat (length t))) as Hpos.
  { apply IZR_lt. destruct t; [done | cbn; lia]. }
  assert (0 <= f0 fit) as Hf0'.
  { rewrite Hf0. apply ratio_nonneg; nra. }
  unfold bounds_hold. cbv zeta.
  split_and!; [done | done | done | done | done |].
  rewrite Hreached, Htotal. unfold np_div.
  destruct (Req_dec_T _ 0) as [Hzero | _]; [lra |].
  eexists. split_and!; [reflexivity | reflexivity | |];
    by apply share_bounds.
Qed.

(** C7, amended. The frequency model reports degrees_of_freedom =
    (number of distinct observed frequency values) − 2 and classifies fit
    quality by the ratio of the chi-square statistic to
    max(degrees_of_freedom, 1): good when the ratio is < 2, moderate when
    < 4, poor otherwise.  With at least three distinct frequency values
    that ratio is the ratio to the degrees of freedom. *)
Theorem fit_quality_bands h l t :
  h !! l = Some t →
  returns (fit_zt_nbd minimize gammaln l) h (diagnostics_as_amended t).
Proof.
  intros Hl.
  eapply returns_mono; [by apply fit_zt_nbd_spec |].
  intros fit h' (_ & _ & _ & _ & _ & _ & _ & _ & Hdf & _ & Hq & _).
  rewrite length_histogram in Hdf.
  assert (Hband : spec_fit_quality
            (chi_square fit / IZR (Z.max (df fit) 1)) (fit_quality fit)).
  { pose proof (fit_quality_of_spec (chi_square fit) (df fit)) as Hspec.
    by rewrite <- Hq in Hspec. }
  split_and!; [done | done |].
  intros Hdistinct. unfold quality_by_df_ratio.
  by replace (df fit) with (Z.max (df fit) 1) at 1 by lia.
Qed.

End FitFacts.

(** *** One customer with five visits *)

Import Examples.

Lemma histogram_one_customer :
  histogram ((λ r, frequency (base r)) <$> one_customer) = [(5, 1)%Z].
Proof. vm_compute. reflexivity. Qed.

Lemma start_point_one_customer :
  start_point ((λ r, frequency (base r)) <$> one_customer) = (1, 1).
Proof.
  unfold start_point, one_customer.
  change (_ <$> [client "Eve" 5 2 40]) with [5%Z].
  unfold int_var, int_mean, initial_guess.
  change (length [5%Z] <=? 1)%nat with true. cbv iota beta.
  f_equal; unfold Rmax; destruct (Rle_dec _ _); lra.
Qed.

Lemma chi_square_one_customer :
  chi_square_of no_iteration flat_gammaln
    ((λ r, frequency (base r)) <$> one_customer) = 961 / 32.
Proof.
  unfold chi_square_of, predicted, optimum, p_zero_at.
  rewrite histogram_one_customer, start_point_one_customer.
  cbn [no_iteration x fst snd fmap list_fmap zip_with float_sum foldr length].
  change (IZR (Z.of_nat (length (_ <$> one_customer)))) with 1.
  rewrite Rpower_1 by lra.
  assert (exp (log_p_x flat_gammaln 1 1 5) = 1 / 64) as ->.
  { replace (log_p_x flat_gammaln 1 1 5) with (ln ((1 / 2) ^ 6)).
    - rewrite exp_ln; lra.
    - rewrite ln_pow by lra. unfold log_p_x, flat_gammaln.
      replace (1 / (1 + 1)) with (1 / 2) by lra.
      change (INR 6) with (1 + 1 + 1 + 1 + 1 + 1). lra. }
  lra.
Qed.

Lemma one_customer_within_bounds :
  in_bounds
    (x (optimum no_iteration flat_gammaln
          ((λ r, frequency (base r)) <$> one_customer))).1 ∧
  in_bounds
    (x (optimum no_iteration flat_gammaln
          ((λ r, frequency (base r)) <$> one_customer))).2.
Proof.
  unfold optimum. rewrite start_point_one_customer.
  unfold in_bounds. cbn. lra.
Qed.

Lemma frequency_model_bounds_witness :
  returns (fit_zt_nbd no_iteration flat_gammaln 1) (store_of one_customer)
    (bounds_hold no_iteration flat_gammaln one_customer).
Proof.
  apply (frequency_model_bounds _ _ _ _ one_customer);
    [reflexivity | discriminate | apply one_customer_within_bounds
    | apply one_customer_within_bounds].
Defined.

Lemma fit_quality_bands_witness :
  returns (fit_zt_nbd no_iteration flat_gammaln 1) (store_of one_customer)
    (diagnostics_as_amended one_customer).
Proof. apply fit_quality_bands. reflexivity. Defined.

(** C7 as stated fails on a single customer with five visits when the fit
    stops at r = 1, alpha = 1: the table has one distinct frequency, so the
    degrees of freedom are −1; the chi-square statistic is 961/32; the code
    compares 961/32 / max(−1, 1) with the bands and answers poor, where the
    ratio to the degrees of freedom, −961/32, is in the band good. *)
Lemma fit_quality_not_by_df_ratio :
  ¬ returns (fit_zt_nbd no_iteration flat_gammaln 1) (store_of one_customer)
      (diagnostics_as_claimed one_customer).
Proof.
  intros (fit & h' & Hrun & Hdf & Hclaim).
  pose proof (fit_zt_nbd_spec no_iteration flat_gammaln
                (store_of one_customer) 1%positive one_customer eq_refl)
    as Hspec.
  cbv zeta in Hspec. eapply returns_inv in Hspec; [| exact Hrun].
  destruct Hspec as (_ & _ & _ & _ & _ & _ & _ & Hchi & Hdf' & _ & Hq & _).
  rewrite chi_square_one_customer in Hchi.
  rewrite histogram_one_customer in Hdf'.
  change (Z.of_nat _ - 2)%Z with (-1)%Z in Hdf'.
  unfold quality_by_df_ratio in Hclaim.
  rewrite Hchi, Hdf' in Hq, Hclaim.
  assert (fit_quality fit = "poor"%string) as Hpoor.
  { change (fit_quality fit) with (fit_quality fit, fit_desc fit).1.
    rewrite Hq. unfold fit_quality_of.
    change (Z.max (-1) 1) with 1%Z.
    rewrite (proj2 (Rltb_false _ 2)) by lra.
    rewrite (proj2 (Rltb_false _ 4)) by lra. done. }
  rewrite Hpoor in Hclaim. inversion Hclaim as [| | Hratio]. lra.
Qed.

End FrequencyFacts.

Module CoreFacts.

Import Segmentation Churn ValueModel FrequencyModel.
Import SegmentationSpec ChurnSpec ValueSpec FrequencySpec CoreSpec.
Import SegmentationFacts ChurnFacts ValueFacts FrequencyFacts.

Lemma histogram_empty : histogram [] = [].
Proof. reflexivity. Qed.

(** C1. On an empty customer aggregate every core component returns a
    result and raises nothing: [assign_segments] and
    [calculate_churn_probability] an empty table, [fit_zt_nbd] a fit with
    n_observed = 0 (its market_reached, 0/0, is nan), [fit_gamma_gamma] the
    structured failure, [get_churn_summary] zero counts and
    still_active_pct = 0. *)
Theorem empty_aggregate_handled minimize gammaln h l :
  h !! l = Some [] → handles_empty minimize gammaln h l.
Proof.
  intros Hl. unfold handles_empty. split_and!.
  - eapply returns_mono; [by apply assign_segments_spec |].
    intros df h' [_ ->]. apply lookup_insert_eq.
  - eapply returns_mono; [by apply fit_zt_nbd_spec |].
    intros fit h' (_ & _ & _ & Hn & Hf0 & Htotal & Hreached & Hchi & Hdf & _
                   & Hq & _).
    change ((λ r, frequency (base r)) <$> []) with (@nil Z) in *.
    change (Z.of_nat (length (@nil row))) with 0%Z in *.
    rewrite histogram_empty in Hdf.
    change (Z.of_nat (length (@nil (Z * Z))) - 2)%Z with (-2)%Z in Hdf.
    assert (f0 fit = 0%R) as Hzero.
    { rewrite Hf0. unfold Rdiv. ring. }
    assert (fit_quality fit = (fit_quality fit, fit_desc fit).1) as Hfst by done.
    rewrite Hq, Hchi, Hdf in Hfst.
    split_and!; try done.
    + rewrite Hreached, Htotal, Hzero. unfold np_div.
      destruct (Req_dec_T _ 0) as [_ | Hne]; [done | exfalso; lra].
    + rewrite Hfst. unfold fit_quality_of, chi_square_of, predicted.
      rewrite histogram_empty. cbn [fmap list_fmap zip_with float_sum foldr].
      change (Z.max (-2) 1) with 1%Z.
      rewrite (proj2 (Rltb_true _ 2)); [done |]. unfold Rdiv. lra.
  - eapply returns_mono; [by apply fit_gamma_gamma_spec |].
    intros res h' [_ Hres]. cbn in Hres. by destruct Hres as [-> _].
  - eapply returns_mono; [by apply calculate_churn_probability_spec |].
    intros df h' [_ ->]. apply lookup_insert_eq.
  - eapply returns_mono; [by apply get_churn_summary_spec |].
    intros s h' (_ & _ & _ & _ & _ & Hhigh & Hmedium & Hlow & _ & Hpct).
    cbn in Hhigh, Hmedium, Hlow, Hpct. done.
Qed.

(** C9. No core component mutates the customer aggregate it is given:
    after [assign_segments], [fit_gamma_gamma] or
    [calculate_churn_probability] has run, the input object holds the table
    it held before, as does every other object of the store, and the
    results are new objects. *)
Theorem components_do_not_mutate h l t :
  h !! l = Some t → not_mutated h l t.
Proof.
  intros Hl. unfold not_mutated. split_and!.
  - eapply returns_mono; [by apply assign_segments_spec |].
    intros df h' [Hdf ->].
    assert (h ⊆ <[df := segmented t]> h) as Hsub by (by apply insert_subseteq).
    split_and!; [| done | done]. by eapply lookup_weaken.
  - eapply returns_mono; [by apply fit_gamma_gamma_spec |].
    intros res h' [Hsub Hres].
    split_and!; [by eapply lookup_weaken | done |].
    intros s ->. case_bool_decide; [by destruct Hres |].
    destruct Hres as (s' & [= <-] & ? & _ & ? & _). done.
  - eapply returns_mono; [by apply calculate_churn_probability_spec |].
    intros df h' [Hdf ->].
    assert (h ⊆ <[df := scored t]> h) as Hsub by (by apply insert_subseteq).
    split_and!; [| done | done]. by eapply lookup_weaken.
Qed.

Import Examples.

Lemma empty_aggregate_handled_witness :
  handles_empty no_iteration flat_gammaln (store_of []) 1.
Proof. apply empty_aggregate_handled. reflexivity. Defined.

Lemma components_do_not_mutate_witness :
  not_mutated (store_of salon) 1 salon.
Proof. apply components_do_not_mutate. reflexivity. Defined.

End CoreFacts.

(* ===================================================================== *)
(** ** Further properties of the components *)
(* ===================================================================== *)

Module SegmentationExtras.

Import Segmentation SegmentationSpec SegmentSummary ExtraSpec.
Import SegmentationFacts Examples.

(** X1. [assign_segment] on every integer: the tier of the frequency when
    it lies in 1..999, and the fallback Explorer everywhere else (zero,
    negative, 1000 and above). *)
Theorem assign_segment_everywhere f :
  assign_segment f
  = if bool_decide (1 ≤ f ≤ 999)%Z then tier f else "Explorer"%string.
Proof.
  case_bool_decide; [by apply assign_segment_in_range |].
  apply assign_segment_fallback. lia.
Qed.

Lemma assign_segment_label f : assign_segment f ∈ SEGMENT_DEFINITIONS.*1.
Proof.
  destruct (decide (1 ≤ f ≤ 999)%Z) as [Hf | Hf].
  - rewrite assign_segment_in_range by done. unfold tier.
    repeat case_bool_decide; cbn;
      repeat first [apply list_elem_of_here | apply list_elem_of_further].
  - rewrite assign_segment_fallback by lia. apply list_elem_of_here.
Qed.

(** X2. Between 1 and 999 visits the label never goes down as the frequency
    goes up: the rank in [segment_order] of the label of the smaller
    frequency is at most that of the larger. *)
Theorem assign_segment_monotone f1 f2 :
  (1 ≤ f1)%Z → (f1 ≤ f2)%Z → (f2 ≤ 999)%Z →
  (segment_rank (assign_segment f1) ≤ segment_rank (assign_segment f2))%Z.
Proof.
  intros H1 H12 H2.
  rewrite !assign_segment_in_range by lia. unfold tier.
  repeat case_bool_decide; try lia; by vm_compute.
Qed.

Lemma assign_segment_monotone_witness :
  (segment_rank (assign_segment 2) ≤ segment_rank (assign_segment 9))%Z.
Proof. apply assign_segment_monotone; lia. Defined.

(** X3. [assign_segments] returns a new table with one row per input row,
    in the same order: the aggregate's columns and every added column but
    segment are as in the input, and segment holds the label of the row's
    frequency, always one of the four keys of [SEGMENT_DEFINITIONS]. *)
Theorem assign_segments_rows h l t :
  h !! l = Some t →
  returns (assign_segments l) h (segments_assigned t).
Proof.
  intros Hl.
  eapply returns_mono; [by apply assign_segments_spec |].
  intros df h' [_ ->]. exists (segmented t).
  split; [apply lookup_insert_eq |].
  unfold segmented. apply Forall2_fmap_r, Forall_Forall2_diag, Forall_true.
  intros r. cbn. split_and!; try done. apply assign_segment_label.
Qed.

Lemma assign_segments_rows_witness :
  returns (assign_segments 1) (store_of salon) (segments_assigned salon).
Proof. apply assign_segments_rows. reflexivity. Defined.

End SegmentationExtras.

Module ChurnExtras.

Import Segmentation Churn SegmentationSpec ChurnSpec ExtraSpec.
Import SegmentationFacts ChurnFacts Examples.
Local Open Scope Q_scope.

Lemma series_max_bounds (s : list Z) (d : Z) :
  d ∈ s → ∃ m, series_max s = Some m ∧ (d ≤ m)%Z.
Proof.
  intros Hd. destruct s as [| x s]; [by apply elem_of_nil in Hd |].
  destruct (series_max_nonempty x s) as [m Hm]. exists m. split; [done |].
  apply series_max_is_max in Hm as [_ Hle].
  rewrite Forall_forall in Hle. by apply Hle.
Qed.

Lemma inject_Z_nonneg z : (0 ≤ z)%Z → 0 <= inject_Z z.
Proof. intros Hz. change 0 with (inject_Z 0). by rewrite <- Zle_Qle. Qed.

Lemma recency_score_range m d :
  (0 ≤ d ≤ m)%Z → 0 <= recency_score_at (Some m) d <= 1.
Proof.
  intros Hd. unfold recency_score_at, gt_zero.
  case_bool_decide; [by apply fraction_bounds | lra].
Qed.

Lemma frequency_score_range m f :
  (0 ≤ f ≤ m)%Z → 0 <= frequency_score_at (Some m) f <= 1.
Proof.
  intros Hf. unfold frequency_score_at, gt_zero.
  case_bool_decide; [| lra].
  pose proof (fraction_bounds f m Hf ltac:(done)). lra.
Qed.

Lemma clip_id x : 0 <= x <= 1 → clip 0 1 x == x.
Proof.
  intros Hx. unfold clip.
  destruct (Q.max_spec x 0) as [[? Hmax] | [? Hmax]],
           (Q.min_spec (Qmax x 0) 1) as [[? Hmin] | [? Hmin]];
    rewrite Hmin; rewrite Hmax in *; lra.
Qed.

Lemma clip_range x : 0 <= clip 0 1 x <= 1.
Proof.
  unfold clip.
  destruct (Q.max_spec x 0) as [[? Hmax] | [? Hmax]],
           (Q.min_spec (Qmax x 0) 1) as [[? Hmin] | [? Hmin]];
    rewrite Hmin; rewrite Hmax in *; lra.
Qed.

Lemma clip_mono x y : x <= y → clip 0 1 x <= clip 0 1 y.
Proof.
  intros Hxy. unfold clip.
  destruct (Q.max_spec x 0) as [[? Hx] | [? Hx]],
           (Q.min_spec (Qmax x 0) 1) as [[? Hx'] | [? Hx']],
           (Q.max_spec y 0) as [[? Hy] | [? Hy]],
           (Q.min_spec (Qmax y 0) 1) as [[? Hy'] | [? Hy']];
    rewrite Hx', Hy'; rewrite Hx, Hy in *; lra.
Qed.

(** X4. On an aggregate whose days and frequencies are not negative, every
    recency_score, frequency_score and p_churn lies in [0, 1], and p_churn
    is 0.7·recency_score + 0.3·frequency_score unchanged by the clip. *)
Theorem churn_scores_in_range h l t :
  h !! l = Some t →
  well_formed t →
  returns (calculate_churn_probability l) h scores_in_range.
Proof.
  intros Hl Hwf.
  eapply returns_mono; [by apply calculate_churn_probability_spec |].
  intros df h' [_ ->]. exists (scored t).
  split; [apply lookup_insert_eq |].
  unfold scored. apply Forall_fmap, Forall_forall. intros r Hr.
  unfold well_formed in Hwf. rewrite Forall_forall in Hwf.
  destruct (Hwf r Hr) as [Hd Hf].
  destruct (series_max_bounds ((λ r, days_since_visit (base r)) <$> t)
              (days_since_visit (base r))) as (md & -> & Hmd).
  { apply list_elem_of_fmap. eauto. }
  destruct (series_max_bounds ((λ r, frequency (base r)) <$> t)
              (frequency (base r))) as (mf & -> & Hmf).
  { apply list_elem_of_fmap. eauto. }
  pose proof (recency_score_range md _ (conj Hd Hmd)) as Hrs.
  pose proof (frequency_score_range mf _ (conj Hf Hmf)) as Hfs.
  eexists _, _, _, _. split; [by split_and! |].
  split_and!; try apply Hrs; try apply Hfs; try apply clip_range.
  unfold p_churn_at. apply clip_id. lra.
Qed.

Lemma churn_scores_in_range_witness :
  returns (calculate_churn_probability 1) (store_of salon) scores_in_range.
Proof.
  apply (churn_scores_in_range _ _ salon);
    [reflexivity | apply salon_well_formed].
Defined.

Lemma recency_score_mono max_days d1 d2 :
  (d1 ≤ d2)%Z → recency_score_at max_days d1 <= recency_score_at max_days d2.
Proof.
  intros Hd. unfold recency_score_at, gt_zero.
  destruct max_days as [m |]; [| apply Qle_refl].
  case_bool_decide; [| apply Qle_refl].
  unfold Qdiv. apply Qmult_le_compat_r; [by rewrite <- Zle_Qle |].
  apply Qinv_le_0_compat, inject_Z_nonneg. lia.
Qed.

Lemma frequency_score_mono max_freq f1 f2 :
  (f2 ≤ f1)%Z →
  frequency_score_at max_freq f1 <= frequency_score_at max_freq f2.
Proof.
  intros Hf. unfold frequency_score_at, gt_zero.
  destruct max_freq as [m |]; [| apply Qle_refl].
  case_bool_decide; [| apply Qle_refl].
  assert (inject_Z f2 / inject_Z m <= inject_Z f1 / inject_Z m).
  { unfold Qdiv. apply Qmult_le_compat_r; [by rewrite <- Zle_Qle |].
    apply Qinv_le_0_compat, inject_Z_nonneg. lia. }
  lra.
Qed.

Lemma risk_level_high p : 0.7 <= p → risk_level p = "high"%string.
Proof.
  intros Hp. unfold risk_level. by rewrite (proj2 (Qle_bool_iff 0.7 p) Hp).
Qed.

Lemma Qle_bool_false a b : b < a → Qle_bool a b = false.
Proof.
  intros Hlt. apply not_true_iff_false. rewrite Qle_bool_iff.
  by apply Qlt_not_le.
Qed.

Lemma risk_level_low p : p < 0.4 → risk_level p = "low"%string.
Proof.
  intros Hp. unfold risk_level.
  rewrite (Qle_bool_false 0.7 p) by lra. by rewrite (Qle_bool_false 0.4 p).
Qed.

Lemma risk_rank_mono p1 p2 :
  p1 <= p2 → risk_rank (risk_level p1) ≤ risk_rank (risk_level p2).
Proof.
  intros Hp. unfold risk_level.
  destruct (Qle_bool 0.7 p1) eqn:H1.
  { apply Qle_bool_iff in H1.
    rewrite (proj2 (Qle_bool_iff 0.7 p2)) by lra. done. }
  destruct (Qle_bool 0.4 p1) eqn:H2.
  { apply Qle_bool_iff in H2.
    destruct (Qle_bool 0.7 p2); [by vm_compute; lia |].
    rewrite (proj2 (Qle_bool_iff 0.4 p2)) by lra. done. }
  vm_compute. lia.
Qed.

(** X5. The score is monotone within a table: a customer with at least the
    days_since_visit of another and at most the other's frequency has at
    least the other's p_churn, and a risk level at least as high. *)
Theorem churn_risk_monotone h l t :
  h !! l = Some t →
  returns (calculate_churn_probability l) h risk_is_monotone.
Proof.
  intros Hl.
  eapply returns_mono; [by apply calculate_churn_probability_spec |].
  intros df h' [_ ->]. exists (scored t).
  split; [apply lookup_insert_eq |].
  unfold scored. intros r1 r2 Hr1 Hr2 Hd Hf.
  apply list_elem_of_fmap in Hr1 as (a & -> & _).
  apply list_elem_of_fmap in Hr2 as (b & -> & _).
  cbn in Hd, Hf. eexists _, _, _, _.
  split_and!; try reflexivity.
  - unfold p_churn_at. apply clip_mono.
    pose proof (recency_score_mono
      (series_max ((λ r, days_since_visit (base r)) <$> t)) _ _ Hd).
    pose proof (frequency_score_mono
      (series_max ((λ r, frequency (base r)) <$> t)) _ _ Hf).
    lra.
  - apply risk_rank_mono. unfold p_churn_at. apply clip_mono.
    pose proof (recency_score_mono
      (series_max ((λ r, days_since_visit (base r)) <$> t)) _ _ Hd).
    pose proof (frequency_score_mono
      (series_max ((λ r, frequency (base r)) <$> t)) _ _ Hf).
    lra.
Qed.

Lemma churn_risk_monotone_witness :
  returns (calculate_churn_probability 1) (store_of salon) risk_is_monotone.
Proof. apply (churn_risk_monotone _ _ salon). reflexivity. Defined.

(** X6. On an aggregate whose days and frequencies are not negative, the
    customers who have stayed away longest (days_since_visit equal to the
    maximum, when it is positive) are at high risk whatever their
    frequency. *)
Theorem churn_most_overdue_high h l t :
  h !! l = Some t →
  well_formed t →
  returns (calculate_churn_probability l) h (most_overdue_is_high t).
Proof.
  intros Hl Hwf.
  eapply returns_mono; [by apply calculate_churn_probability_spec |].
  intros df h' [_ ->]. exists (scored t).
  split; [apply lookup_insert_eq |].
  unfold scored. intros r' Hr' Hpos Hmax.
  apply list_elem_of_fmap in Hr' as (r & -> & Hr). cbn in Hpos, Hmax. cbn.
  rewrite (series_max_of_is_max _ _ Hmax). f_equal.
  unfold well_formed in Hwf. rewrite Forall_forall in Hwf.
  destruct (Hwf r Hr) as [_ Hf].
  destruct (series_max_bounds ((λ r, frequency (base r)) <$> t)
              (frequency (base r))) as (mf & -> & Hmf).
  { apply list_elem_of_fmap. eauto. }
  pose proof (frequency_score_range mf _ (conj Hf Hmf)) as Hfs.
  apply risk_level_high. unfold p_churn_at.
  assert (recency_score_at (Some (days_since_visit (base r)))
            (days_since_visit (base r)) == 1) as Hrs.
  { unfold recency_score_at, gt_zero. rewrite bool_decide_true by done.
    unfold Qdiv. apply Qmult_inv_r. intros Hz.
    change 0 with (inject_Z 0) in Hz.
    apply (proj1 (inject_Z_injective _ _)) in Hz. lia. }
  apply Qle_trans with (clip 0 1 0.7); [by vm_compute |].
  apply clip_mono. rewrite Hrs. lra.
Qed.

Lemma churn_most_overdue_high_witness :
  returns (calculate_churn_probability 1) (store_of salon)
    (most_overdue_is_high salon).
Proof.
  apply churn_most_overdue_high; [reflexivity | apply salon_well_formed].
Defined.

(** X7. When no customer has stayed away (every days_since_visit is 0) and
    the frequencies are not negative, every customer is at low risk. *)
Theorem churn_all_recent_low h l t :
  h !! l = Some t →
  Forall (λ r, days_since_visit (base r) = 0%Z
               ∧ (0 ≤ frequency (base r))%Z) t →
  returns (calculate_churn_probability l) h all_low.
Proof.
  intros Hl Ht.
  eapply returns_mono; [by apply calculate_churn_probability_spec |].
  intros df h' [_ ->]. exists (scored t).
  split; [apply lookup_insert_eq |].
  unfold scored. apply Forall_fmap, Forall_forall. intros r Hr. cbn. f_equal.
  rewrite Forall_forall in Ht. destruct (Ht r Hr) as [Hd Hf].
  destruct (series_max_bounds ((λ r, days_since_visit (base r)) <$> t)
              (days_since_visit (base r))) as (md & Hmd & _).
  { apply list_elem_of_fmap. eauto. }
  assert (md = 0%Z) as ->.
  { apply series_max_is_max in Hmd as [Hin _].
    apply list_elem_of_fmap in Hin as (r0 & -> & Hr0).
    by destruct (Ht r0 Hr0). }
  destruct (series_max_bounds ((λ r, frequency (base r)) <$> t)
              (frequency (base r))) as (mf & Hmf & Hle).
  { apply list_elem_of_fmap. eauto. }
  pose proof (frequency_score_range mf _ (conj Hf Hle)) as Hfs.
  apply risk_level_low. unfold p_churn_at. rewrite Hmd, Hmf.
  rewrite clip_id; unfold recency_score_at, gt_zero;
    rewrite bool_decide_false by lia; lra.
Qed.

Lemma churn_all_recent_low_witness :
  returns (calculate_churn_probability 1)
    (store_of [client "Ana" 1 0 90; client "Ben" 3 0 55]) all_low.
Proof.
  apply (churn_all_recent_low _ _ [client "Ana" 1 0 90; client "Ben" 3 0 55]);
    [reflexivity |].
  repeat (constructor; [split; [reflexivity | cbn; lia] |]). constructor.
Defined.

(** *** The scorer and the segmentation together *)

Lemma scored_segmented t : scored (segmented t) = segmented (scored t).
Proof.
  unfold scored, segmented. rewrite <- !list_fmap_compose. reflexivity.
Qed.

Lemma scored_scored t : scored (scored t) = scored t.
Proof.
  unfold scored. rewrite <- !list_fmap_compose. reflexivity.
Qed.

(** X8. Segmentation and churn scoring can be done in either order:
    segmenting a table and scoring the result, or scoring it and segmenting
    the result, gives the same rows in the same order, with the same value
    in every column looked up by name (the order of the columns aside), a
    segment and a risk level in every row. *)
Theorem segment_score_either_order h l t :
  h !! l = Some t → same_columns_either_order h l.
Proof.
  intros Hl. unfold same_columns_either_order.
  apply returns_bind.
  eapply returns_mono; [by apply assign_segments_spec |].
  intros s1 h1 [_ ->].
  eapply returns_mono;
    [apply (calculate_churn_probability_spec _ _ (segmented t));
     apply lookup_insert_eq |].
  intros o1 h1' [_ ->].
  apply returns_bind.
  eapply returns_mono; [by apply calculate_churn_probability_spec |].
  intros s2 h2 [_ ->].
  eapply returns_mono;
    [apply (assign_segments_spec _ _ (scored t)); apply lookup_insert_eq |].
  intros o2 h2' [_ ->].
  exists (scored (segmented t)), (segmented (scored t)).
  split_and!; [apply lookup_insert_eq | apply lookup_insert_eq | |].
  - rewrite scored_segmented.
    apply Forall_Forall2_diag, Forall_true. intros r.
    by repeat split.
  - unfold segmented, scored.
    rewrite <- list_fmap_compose. apply Forall_fmap, Forall_true.
    intros r. cbn. split; by eexists.
Qed.

Lemma segment_score_either_order_witness :
  same_columns_either_order (store_of salon) 1.
Proof. apply (segment_score_either_order _ _ salon). reflexivity. Defined.

(** X9. Scoring is idempotent: run on the table it returned, the scorer
    returns that table again (the scores depend on the aggregate's columns
    only), and leaves its input as it was. *)
Theorem churn_rescoring_idempotent h l t :
  h !! l = Some t → rescoring_changes_nothing h l.
Proof.
  intros Hl. unfold rescoring_changes_nothing.
  eapply returns_mono; [by apply calculate_churn_probability_spec |].
  intros o1 h1 [Ho1 ->]. exists (scored t).
  split; [apply lookup_insert_eq |].
  eapply returns_mono;
    [apply (calculate_churn_probability_spec _ _ (scored t));
     apply lookup_insert_eq |].
  intros o2 h2 [Ho2 ->]. rewrite scored_scored.
  split; [apply lookup_insert_eq |].
  apply lookup_insert_None in Ho2 as [_ Hne].
  rewrite lookup_insert_ne by done. apply lookup_insert_eq.
Qed.

Lemma churn_rescoring_idempotent_witness :
  rescoring_changes_nothing (store_of salon) 1.
Proof. apply (churn_rescoring_idempotent _ _ salon). reflexivity. Defined.

(** *** The summary *)

(** X10. [get_churn_summary] changes no object of the store it is run
    from; the scored table and the table of high-risk customers it returns
    are new objects, the second holding the rows of the first whose risk
    level is high, in their order, and [high_risk_count] is the number of
    its rows. *)
Theorem churn_summary_objects h l t :
  h !! l = Some t →
  returns (get_churn_summary l) h (summary_objects h).
Proof.
  intros Hl.
  eapply returns_mono; [by apply get_churn_summary_spec |].
  intros s h' (Hsub & Hdf & Hout & Hhigh & Hhigh' & Hcount & _).
  unfold summary_objects. split_and!; try done. by exists (scored t).
Qed.

Lemma churn_summary_objects_witness :
  returns (get_churn_summary 1) (store_of salon)
    (summary_objects (store_of salon)).
Proof. apply (churn_summary_objects _ _ salon). reflexivity. Defined.

Lemma sum_filter_bounds (keep : row → bool) (t : DataFrame) :
  spends_nonneg t →
  0 <= series_sum ((λ r, total_spend (base r)) <$> List.filter keep t)
    <= series_sum ((λ r, total_spend (base r)) <$> t).
Proof.
  induction 1 as [| r t Hr _ IH].
  { cbn. lra. }
  cbn [List.filter]. destruct (keep r).
  - change (0 <= total_spend (base r)
                 + series_sum ((λ r, total_spend (base r))
                                 <$> List.filter keep t)
              <= total_spend (base r)
                 + series_sum ((λ r, total_spend (base r)) <$> t)).
    lra.
  - change (0 <= series_sum ((λ r, total_spend (base r))
                               <$> List.filter keep t)
              <= total_spend (base r)
                 + series_sum ((λ r, total_spend (base r)) <$> t)).
    lra.
Qed.

(** X11. When no total_spend is negative, revenue_at_risk (0.8 times the
    total spend of the high-risk customers) lies between 0 and 0.8 times
    the total spend of all customers. *)
Theorem churn_revenue_at_risk_bounds h l t :
  h !! l = Some t →
  spends_nonneg t →
  returns (get_churn_summary l) h (revenue_at_risk_bounded t).
Proof.
  intros Hl Hspend.
  eapply returns_mono; [by apply get_churn_summary_spec |].
  intros s h' (_ & _ & _ & _ & Hhigh & _ & _ & _ & Hrev & _).
  exists (at_risk "high" (scored t)). split; [done |].
  assert (spends_nonneg (scored t)) as Hscored.
  { unfold spends_nonneg, scored. by apply Forall_fmap. }
  pose proof (sum_filter_bounds
    (λ r, bool_decide (col_risk_level r = Some "high"%string))
    (scored t) Hscored) as Hsum.
  assert (series_sum ((λ r, total_spend (base r)) <$> scored t)
          = series_sum ((λ r, total_spend (base r)) <$> t)) as Heq.
  { unfold scored. by rewrite <- list_fmap_compose. }
  rewrite Heq in Hsum. unfold at_risk in *. rewrite Hrev.
  split_and!; [reflexivity | lra | lra].
Qed.

Lemma churn_revenue_at_risk_bounds_witness :
  returns (get_churn_summary 1) (store_of salon) (revenue_at_risk_bounded salon).
Proof.
  apply churn_revenue_at_risk_bounds; [reflexivity |].
  unfold spends_nonneg, salon.
  repeat (constructor; [by vm_compute |]). constructor.
Defined.

End ChurnExtras.

Module ValueExtras.

Import ValueModel ValueSpec ExtraSpec ValueFacts Examples.
Local Open Scope Q_scope.

(** *** Hidden gems *)

Lemma avg_spend_projected t :
  (λ r, avg_spend (base r)) <$> projected t
  = (λ r, avg_spend (base r)) <$> t.
Proof. unfold projected. by rewrite <- list_fmap_compose. Qed.

Lemma gt_nan_true a median :
  gt_nan a median = true ↔ ∃ m, median = Some m ∧ m < a.
Proof.
  unfold gt_nan. destruct median as [m |].
  - rewrite Qlt_bool_iff. split.
    + intros Hm. by exists m.
    + by intros (m' & [= <-] & Hm).
  - split; [done | by intros (m & [=] & _)].
Qed.

Lemma StronglySorted_with {A} (R : relation A) (P : A → Prop) (l : list A) :
  StronglySorted R l → Forall P l →
  StronglySorted (λ x y, R x y ∧ P x ∧ P y) l.
Proof.
  induction 1 as [| x l Hl IH Hx]; intros HP; [constructor |].
  apply Forall_cons in HP as [Hpx HP].
  constructor; [by apply IH |].
  rewrite Forall_forall in Hx, HP. apply Forall_forall. intros y Hy.
  split_and!; auto.
Qed.

Section Gems.

Variable t : DataFrame.

Local Abbreviation avg := (λ r : row, avg_spend (base r)).
Local Abbreviation median := (series_median (avg <$> projected t)).
Local Abbreviation keep :=
  (λ r : row, bool_decide (frequency (base r) ≤ 4)%Z
              && gt_nan (avg_spend (base r)) median).
Local Abbreviation selected := (List.filter keep (projected t)).
Local Abbreviation ranked :=
  (sort_by (larger_first fst) (zip (avg <$> selected) selected)).

Lemma hidden_gem_rows_eq :
  hidden_gem_rows t = (take 10%nat ranked).*2.
Proof. reflexivity. Qed.

Lemma ranked_keys : Forall (λ p : Q * row, p.1 = avg p.2) ranked.
Proof.
  apply Forall_forall. intros p Hp.
  rewrite (sort_by_perm fst) in Hp.
  rewrite zip_with_fmap_l, zip_with_diag in Hp.
  by apply list_elem_of_fmap in Hp as (r & -> & _).
Qed.

Lemma selected_candidate g :
  g ∈ selected →
  gem_candidate t (base g) ∧ (∃ r, r ∈ t ∧ base g = base r) ∧
  col_projected_clv_if_regular g = Some (avg_spend (base g) * 12).
Proof.
  intros Hg. apply list_elem_of_In, filter_In in Hg as [Hg Hkeep].
  apply list_elem_of_In in Hg. unfold projected in Hg.
  apply list_elem_of_fmap in Hg as (r & -> & Hr).
  apply andb_true_iff in Hkeep as [Hfreq Hmedian].
  apply bool_decide_eq_true in Hfreq.
  apply gt_nan_true in Hmedian. rewrite avg_spend_projected in Hmedian.
  split; [by split |]. split; [by exists r | done].
Qed.

Lemma candidate_selected r :
  r ∈ t → gem_candidate t (base r) →
  set_projected_clv_if_regular (avg_spend (base r) * 12) r ∈ selected.
Proof.
  intros Hr [Hfreq Hmedian].
  apply list_elem_of_In, filter_In. split.
  - apply list_elem_of_In. unfold projected. apply list_elem_of_fmap. eauto.
  - apply andb_true_iff. split; [by apply bool_decide_eq_true |].
    apply gt_nan_true. by rewrite avg_spend_projected.
Qed.

Lemma hidden_gems_properties :
  (length (hidden_gem_rows t) ≤ 10)%nat ∧
  Forall (λ g, gem_candidate t (base g) ∧
               (∃ r, r ∈ t ∧ base g = base r) ∧
               col_projected_clv_if_regular g
               = Some (avg_spend (base g) * 12)) (hidden_gem_rows t) ∧
  StronglySorted (descending avg) (hidden_gem_rows t) ∧
  ∀ r, r ∈ t → gem_candidate t (base r) →
    (∃ g, g ∈ hidden_gem_rows t ∧ base g = base r) ∨
    (length (hidden_gem_rows t) = 10%nat ∧
     Forall (λ g, avg_spend (base r) <= avg_spend (base g))
            (hidden_gem_rows t)).
Proof.
  split_and!.
  - rewrite hidden_gem_rows_eq, length_fmap, length_take. lia.
  - apply Forall_forall. intros g Hg.
    apply nlargest_rows_subset in Hg. by apply selected_candidate.
  - rewrite hidden_gem_rows_eq.
    apply (StronglySorted_fmap snd
             (λ x y, descending fst x y ∧ x.1 = avg x.2 ∧ y.1 = avg y.2)).
    { intros x y (Hxy & Hx & Hy). unfold descending in *.
      by rewrite <- Hx, <- Hy. }
    apply StronglySorted_with.
    + pose proof (sort_by_sorted fst (zip (avg <$> selected) selected)) as Hs.
      rewrite <- (take_drop 10%nat ranked) in Hs.
      by apply StronglySorted_app_1_l in Hs.
    + apply Forall_take, ranked_keys.
  - intros r Hr Hcand.
    pose proof (candidate_selected r Hr Hcand) as Hsel.
    set (g := set_projected_clv_if_regular (avg_spend (base r) * 12) r) in *.
    assert ((avg g, g) ∈ ranked) as Hin.
    { rewrite (sort_by_perm fst), zip_with_fmap_l, zip_with_diag.
      apply list_elem_of_fmap. by exists g. }
    rewrite <- (take_drop 10%nat ranked) in Hin.
    apply elem_of_app in Hin as [Hin | Hin].
    + left. exists g. split; [| done].
      rewrite hidden_gem_rows_eq. apply list_elem_of_fmap. by exists (avg g, g).
    + right. split.
      * rewrite hidden_gem_rows_eq, length_fmap, length_take.
        assert (10 < length ranked)%nat; [| lia].
        destruct (decide (10 < length ranked)%nat) as [| Hshort]; [done |].
        rewrite drop_ge in Hin by lia. by apply elem_of_nil in Hin.
      * rewrite hidden_gem_rows_eq. apply Forall_fmap, Forall_forall.
        intros p Hp. cbn.
        pose proof (sorted_take_drop fst 10%nat ranked _ _
                      (sort_by_sorted fst _) Hp Hin) as Hle.
        pose proof ranked_keys as Hkeys. rewrite Forall_forall in Hkeys.
        apply (subseteq_take 10%nat) in Hp. rewrite (Hkeys p Hp) in Hle.
        exact Hle.
Qed.

End Gems.

(** X13. With at least 10 repeat customers, the hidden gems are at most 10
    customers of the input, each with at most 4 visits and an avg_spend
    above the median avg_spend of all customers, each with the projection
    avg_spend × 12, listed in descending order of avg_spend; a candidate
    left out has at most the avg_spend of every hidden gem, and is left out
    only when there are 10 of them. *)
Theorem value_model_hidden_gems h l t :
  h !! l = Some t →
  (10 ≤ Z.of_nat (length (repeat_rows t)))%Z →
  returns (fit_gamma_gamma l) h (hidden_gems_selected t).
Proof.
  intros Hl Hn.
  eapply returns_mono; [by apply fit_gamma_gamma_spec |].
  intros res h' [_ Hres].
  rewrite bool_decide_false in Hres by lia.
  destruct Hres as (s & -> & _ & _ & _ & Hgems & _).
  destruct (hidden_gems_properties t) as (Hlen & Hall & Hsorted & Hrest).
  exists s, (hidden_gem_rows t). split_and!; done.
Qed.

Lemma value_model_hidden_gems_witness :
  returns (fit_gamma_gamma 1) (store_of regulars)
    (hidden_gems_selected regulars).
Proof.
  apply value_model_hidden_gems; [reflexivity | by vm_compute].
Defined.

End ValueExtras.

Module FrequencyExtras.

Import FrequencyModel FrequencySpec FrequencyFacts ExtraSpec Examples.

(** *** The histogram *)

Lemma strictly_sorted {A} (key : A → Z) (l : list A) :
  StronglySorted (λ a b, key a ≤ key b)%Z l → NoDup (key <$> l) →
  StronglySorted (λ a b, key a < key b)%Z l.
Proof.
  induction 1 as [| x l Hl IH Hx]; intros Hnodup; [constructor |].
  rewrite fmap_cons in Hnodup. apply NoDup_cons in Hnodup as [Hnew Hnodup].
  constructor; [by apply IH |].
  rewrite Forall_forall in Hx. apply Forall_forall. intros y Hy.
  specialize (Hx y Hy). cbn in Hx.
  assert (key x ≠ key y); [| lia].
  intros Heq. apply Hnew. rewrite Heq. apply list_elem_of_fmap. eauto.
Qed.

Lemma index_le_trans : Transitive index_le.
Proof. intros a b c. unfold index_le. lia. Qed.

Lemma index_le_total : Total index_le.
Proof. intros a b. unfold index_le. lia. Qed.

Lemma sort_index_sorted (m : gmap Z Z) :
  StronglySorted (λ a b : Z * Z, a.1 < b.1)%Z (sort_index m).
Proof.
  unfold sort_index. apply (strictly_sorted fst).
  - apply (@StronglySorted_merge_sort _ index_le _ index_le_trans
             index_le_total).
  - rewrite merge_sort_Permutation. apply NoDup_fst_map_to_list.
Qed.

Lemma elem_of_sort_index (m : gmap Z Z) v c :
  (v, c) ∈ sort_index m ↔ m !! v = Some c.
Proof.
  unfold sort_index. rewrite merge_sort_Permutation.
  apply elem_of_map_to_list.
Qed.

Lemma occurrences_cons v x s :
  occurrences v (x :: s)
  = ((if bool_decide (x = v) then 1 else 0) + occurrences v s)%Z.
Proof.
  unfold occurrences. cbn. case_bool_decide; cbn [length]; lia.
Qed.

Lemma occurrences_pos v s : v ∈ s ↔ (1 ≤ occurrences v s)%Z.
Proof.
  induction s as [| x s IH].
  { split; [by intros ?%elem_of_nil | unfold occurrences; cbn; lia]. }
  rewrite occurrences_cons, elem_of_cons.
  assert (0 ≤ occurrences v s)%Z by (unfold occurrences; lia).
  case_bool_decide as Hx; split.
  - lia.
  - intros _. by left.
  - intros [-> | Hv]; [done | apply IH in Hv; lia].
  - intros Hv. right. apply IH. lia.
Qed.

Lemma value_counts_cons x s :
  value_counts (x :: s)
  = <[x := (default 0 (value_counts s !! x) + 1)%Z]> (value_counts s).
Proof. reflexivity. Qed.

Lemma lookup_value_counts v s :
  default 0%Z (value_counts s !! v) = occurrences v s.
Proof.
  induction s as [| x s IH]; [done |].
  rewrite value_counts_cons, occurrences_cons.
  case_bool_decide as Hx.
  - subst x. rewrite lookup_insert_eq. cbn. lia.
  - rewrite lookup_insert_ne by done. lia.
Qed.

Lemma value_counts_Some v c s :
  value_counts s !! v = Some c ↔ c = occurrences v s ∧ (1 ≤ c)%Z.
Proof.
  pose proof (lookup_value_counts v s) as Hcount.
  pose proof (dom_value_counts s) as Hdom.
  assert (is_Some (value_counts s !! v) ↔ v ∈ s) as Hin.
  { rewrite <- elem_of_dom, Hdom. apply elem_of_list_to_set. }
  split.
  - intros Hc. rewrite Hc in Hcount. cbn in Hcount. split; [done |].
    subst c. apply occurrences_pos, Hin. by rewrite Hc.
  - intros [-> Hpos]. apply occurrences_pos, Hin in Hpos as [c Hc].
    rewrite Hc in Hcount. cbn in Hcount. by subst c.
Qed.

Lemma sum_counts_perm (l l' : list (Z * Z)) :
  l ≡ₚ l' → sum_counts l = sum_counts l'.
Proof.
  unfold sum_counts.
  induction 1 as [| a l l' _ IH | a b l | l l' l'' _ IH _ IH']; cbn; lia.
Qed.

Lemma sum_counts_value_counts s :
  sum_counts (map_to_list (value_counts s)) = Z.of_nat (length s).
Proof.
  induction s as [| x s IH].
  { unfold value_counts. cbn. by rewrite map_to_list_empty. }
  rewrite value_counts_cons.
  destruct (value_counts s !! x) as [c |] eqn:Hx; cbn [default].
  - rewrite <- insert_delete_eq.
    rewrite (sum_counts_perm _ _
               (map_to_list_insert _ _ _ (lookup_delete_eq _ _))).
    rewrite <- (sum_counts_perm _ _ (map_to_list_delete _ _ _ Hx)) in IH.
    unfold sum_counts in *. cbn in *. lia.
  - rewrite (sum_counts_perm _ _ (map_to_list_insert _ _ _ Hx)).
    unfold sum_counts in *. cbn in *. lia.
Qed.

Lemma occurrences_column v (t : DataFrame) :
  occurrences v ((λ r, frequency (base r)) <$> t) = customers_with v t.
Proof.
  unfold occurrences, customers_with. f_equal.
  induction t as [| r t IH]; [done |]. cbn.
  case_bool_decide; cbn; by rewrite IH.
Qed.

Lemma histogram_facts (t : DataFrame) :
  let hist := histogram ((λ r, frequency (base r)) <$> t) in
  StronglySorted (λ a b : Z * Z, a.1 < b.1)%Z hist ∧
  (∀ v c, (v, c) ∈ hist ↔ c = customers_with v t ∧ (1 ≤ c)%Z) ∧
  sum_counts hist = Z.of_nat (length t).
Proof.
  cbn. unfold histogram. split_and!.
  - apply sort_index_sorted.
  - intros v c.
    by rewrite elem_of_sort_index, value_counts_Some, occurrences_column.
  - unfold sort_index.
    rewrite (sum_counts_perm _ _ (merge_sort_Permutation _ _)).
    by rewrite sum_counts_value_counts, length_fmap.
Qed.

(** *** The log-likelihood *)

Section Likelihood.

Variable gammaln : R → R.

(** The contribution of one entry of the histogram. *)
Local Abbreviation term r alpha :=
  (λ (ll : R) '(x, count),
     if (x <? 1)%Z || (count =? 0)%Z then ll
     else (ll + IZR count
                * (log_p_x gammaln r alpha x
                   - ln (1 - Rpower (alpha / (alpha + 1)) r)))%R).

Lemma fold_term_filter r alpha hist (ll : R) :
  fold_left (term r alpha) hist ll
  = fold_left (term r alpha) (List.filter counted hist) ll.
Proof.
  revert ll. induction hist as [| [x count] hist IH]; intros ll; [done |].
  cbn [fold_left List.filter]. unfold counted at 1. cbn [fst snd].
  destruct ((x <? 1)%Z || (count =? 0)%Z) eqn:Hskip; cbn [negb].
  - apply IH.
  - cbn [fold_left]. rewrite Hskip. apply IH.
Qed.

(** X16. The log-likelihood depends only on the entries of the histogram
    with a value of at least 1 and a count other than 0: the others can be
    dropped from the histogram. *)
Theorem log_likelihood_counted_entries params hist :
  zt_nbd_log_likelihood gammaln params hist
  = zt_nbd_log_likelihood gammaln params (List.filter counted hist).
Proof.
  unfold zt_nbd_log_likelihood. destruct params as [r alpha].
  destruct (Rleb r 0 || Rleb alpha 0); [done |].
  f_equal. apply fold_term_filter.
Qed.

Variable minimize :
  (R * R → R) → R * R → (R * R) * (R * R) → OptimizeResult.

Lemma fit_zt_nbd_histogram h l t :
  h !! l = Some t →
  let freq := (λ r, frequency (base r)) <$> t in
  returns (fit_zt_nbd minimize gammaln l) h
    (λ fit h',
       n_observed fit = Z.of_nat (length t) ∧
       freq_actual fit = histogram freq ∧
       (freq_predicted fit).*1 = (histogram freq).*1).
Proof.
  intros Hl freq. unfold fit_zt_nbd.
  do 8 py_step. fold freq. fold (histogram freq).
  destruct (initial_guess _ _) as [r_init alpha_init].
  destruct (minimize _ _ _) as [[r0 alpha0] fun0]. cbn [x fun_ fst snd].
  destruct (heterogeneity_of r0) as [het het_desc].
  destruct (fit_quality_of _ _) as [q q_desc].
  do 3 py_step. cbn [n_observed freq_actual freq_predicted].
  split_and!; [done | done |].
  apply fst_zip. by rewrite !length_fmap.
Qed.

(** X14. The histogram that the frequency model reports lists the visit
    counts that occur, in strictly ascending order, each with the number of
    customers that have it (at least one); the counts add up to the number
    of customers, n_observed; and the predicted histogram has the same
    visit counts in the same order. *)
Theorem frequency_model_histogram h l t :
  h !! l = Some t →
  returns (fit_zt_nbd minimize gammaln l) h (histogram_reported t).
Proof.
  intros Hl.
  eapply returns_mono; [by apply fit_zt_nbd_histogram |].
  intros fit h' (Hn & Hactual & Hpredicted). cbn beta in *.
  destruct (histogram_facts t) as (Hsorted & Hentries & Hsum).
  unfold histogram_reported. rewrite Hactual, Hn, Hpredicted.
  split_and!; done.
Qed.

End Likelihood.

Lemma frequency_model_histogram_witness :
  returns (fit_zt_nbd no_iteration flat_gammaln 1) (store_of salon)
    (histogram_reported salon).
Proof. by apply frequency_model_histogram. Defined.

End FrequencyExtras.

Module GroupingFacts.

Import ValueModel.

(** *** Sums *)

Lemma sum_Z_perm (l l' : list Z) :
  l ≡ₚ l' → foldr Z.add 0%Z l = foldr Z.add 0%Z l'.
Proof.
  induction 1 as [| a l l' _ IH | a b l | l l' l'' _ IH _ IH']; cbn; lia.
Qed.

Lemma sum_Z_add {K} (f g : K → Z) (keys : list K) :
  foldr Z.add 0%Z ((λ k, f k + g k)%Z <$> keys)
  = (foldr Z.add 0%Z (f <$> keys) + foldr Z.add 0%Z (g <$> keys))%Z.
Proof. induction keys as [| k keys IH]; cbn; lia. Qed.

Lemma filter_all {A} (p : A → bool) (l : list A) :
  Forall (λ x, p x = true) l → List.filter p l = l.
Proof.
  induction 1 as [| x l Hx _ IH]; [done |]. cbn. by rewrite Hx, IH.
Qed.

Lemma filter_none {A} (p : A → bool) (l : list A) :
  Forall (λ x, p x = false) l → List.filter p l = [].
Proof.
  induction 1 as [| x l Hx _ IH]; [done |]. cbn. by rewrite Hx, IH.
Qed.

(** *** Sums over the groups of a [groupby]

    [key] is the value of the grouping column, [None] when it is missing;
    [sel k] is the test that puts a row in the group of [k]. *)

Section Grouping.

Context {A : Type} (key : A → option string) (sel : string → A → bool).
Hypothesis sel_key : ∀ k x, sel k x = true ↔ key x = Some k.

Local Abbreviation grouped :=
  (λ x : A, bool_decide (is_Some (key x))).

Lemma sel_false k x : key x ≠ Some k → sel k x = false.
Proof.
  intros Hne. apply not_true_is_false. by rewrite sel_key.
Qed.

Lemma selected_once_Z (keys : list string) x (v : Z) :
  NoDup keys →
  foldr Z.add 0%Z ((λ k, if sel k x then v else 0%Z) <$> keys)
  = match key x with
    | Some k => if bool_decide (k ∈ keys) then v else 0%Z
    | None => 0%Z
    end.
Proof.
  induction 1 as [| k keys Hk _ IH].
  { destruct (key x); [| done].
    rewrite bool_decide_eq_false_2; [done | apply not_elem_of_nil]. }
  rewrite fmap_cons. cbn [foldr]. rewrite IH.
  destruct (key x) as [k' |] eqn:Hx.
  - destruct (decide (k' = k)) as [-> | Hne].
    + rewrite (proj2 (sel_key k x) Hx).
      rewrite (bool_decide_eq_false_2 (k ∈ keys)) by done.
      rewrite bool_decide_eq_true_2 by apply list_elem_of_here. lia.
    + rewrite sel_false by congruence.
      rewrite (bool_decide_ext (k' ∈ k :: keys) (k' ∈ keys)); [lia |].
      rewrite elem_of_cons. split; [intros [? | ?]; done | by right].
  - rewrite sel_false by congruence. lia.
Qed.

(** An aggregation that adds up a weight per row, summed over the groups,
    is that aggregation of the rows that have a key. *)
Lemma sum_over_groups_Z (agg : list A → Z) (w : A → Z) (keys : list string) :
  agg [] = 0%Z → (∀ x l, agg (x :: l) = (w x + agg l)%Z) →
  NoDup keys →
  ∀ l, Forall (λ x, ∀ k, key x = Some k → k ∈ keys) l →
  foldr Z.add 0%Z ((λ k, agg (List.filter (sel k) l)) <$> keys)
  = agg (List.filter grouped l).
Proof.
  intros Hnil Hcons Hkeys. induction 1 as [| x l Hx _ IH].
  { cbn [List.filter]. rewrite Hnil. clear. induction keys; cbn; lia. }
  cbn [List.filter].
  rewrite (list_fmap_ext _
             (λ k, (if sel k x then w x else 0)
                   + agg (List.filter (sel k) l))%Z); cycle 1.
  { intros _ k _. destruct (sel k x); [apply Hcons | lia]. }
  rewrite sum_Z_add, IH, selected_once_Z by done.
  destruct (key x) as [k |] eqn:Hkey.
  - rewrite (bool_decide_eq_true_2 (k ∈ keys)) by auto.
    rewrite (bool_decide_eq_true_2 (is_Some (Some k))) by eauto.
    by rewrite Hcons.
  - rewrite (bool_decide_eq_false_2 (is_Some None)); [lia |].
    by intros [? ?].
Qed.

End Grouping.

End GroupingFacts.

Module SummaryExtras.

Import Segmentation SegmentationSpec SegmentSummary ValueModel ExtraSpec.
Import SegmentationFacts SegmentationExtras GroupingFacts Examples.
Local Open Scope py_scope.

(** *** Sorting by an integer key *)

Section Ascending.

Context {A : Type} (key : A → Z).

Local Abbreviation before := (λ y x : A, bool_decide (key y < key x)%Z).

Lemma insert_by_ascending_perm x l : insert_by before x l ≡ₚ x :: l.
Proof.
  induction l as [| y l IH]; [done |]. cbn.
  case_bool_decide; [| done]. rewrite IH. apply Permutation_swap.
Qed.

Lemma sort_by_ascending_perm l : sort_by before l ≡ₚ l.
Proof.
  induction l as [| x l IH]; [done |]. cbn.
  fold (sort_by before l). by rewrite insert_by_ascending_perm, IH.
Qed.

Lemma insert_by_ascending x l :
  StronglySorted (λ a b, key a ≤ key b)%Z l →
  StronglySorted (λ a b, key a ≤ key b)%Z (insert_by before x l).
Proof.
  induction 1 as [| y l Hl IH Hy]; cbn.
  { repeat constructor. }
  case_bool_decide as Hyx.
  - constructor; [done |]. rewrite insert_by_ascending_perm.
    constructor; [lia | done].
  - constructor; [by constructor |].
    constructor; [lia |].
    eapply Forall_impl; [exact Hy |]. cbn. intros z Hz. lia.
Qed.

Lemma sort_by_ascending l :
  StronglySorted (λ a b, key a ≤ key b)%Z (sort_by before l).
Proof.
  induction l as [| x l IH]; [constructor |]. cbn.
  fold (sort_by before l). by apply insert_by_ascending.
Qed.

End Ascending.

Lemma StronglySorted_on {A} (R R' : relation A) (P : A → Prop) (l : list A) :
  (∀ x y, P x → P y → R x y → R' x y) → Forall P l →
  StronglySorted R l → StronglySorted R' l.
Proof.
  intros HR HP Hl. induction Hl as [| x l Hl IH Hx]; [constructor |].
  apply Forall_cons in HP as [Hpx HP].
  constructor; [by apply IH |].
  rewrite Forall_forall in Hx, HP. apply Forall_forall. intros y Hy.
  apply HR; auto.
Qed.

(** *** The order of the segments *)

Lemma order_of_label label :
  label ∈ SEGMENT_DEFINITIONS.*1 →
  order_of label = Some (segment_rank label).
Proof.
  intros Hlabel. cbn in Hlabel.
  repeat (apply elem_of_cons in Hlabel as [-> | Hlabel]; [done |]).
  by apply elem_of_nil in Hlabel.
Qed.

Lemma segment_rank_inj a b :
  a ∈ SEGMENT_DEFINITIONS.*1 → b ∈ SEGMENT_DEFINITIONS.*1 →
  segment_rank a = segment_rank b → a = b.
Proof.
  intros Ha Hb. cbn in Ha, Hb.
  repeat (apply elem_of_cons in Ha as [-> | Ha]);
    [.. | by apply elem_of_nil in Ha];
    (repeat (apply elem_of_cons in Hb as [-> | Hb]);
     [.. | by apply elem_of_nil in Hb]); done.
Qed.

Lemma sort_by_order_labelled rows :
  Forall (λ s, stats_segment s ∈ SEGMENT_DEFINITIONS.*1) rows →
  NoDup (stats_segment <$> rows) →
  sort_by_order rows ≡ₚ rows ∧
  StronglySorted
    (λ a b, segment_rank (stats_segment a) < segment_rank (stats_segment b))%Z
    (sort_by_order rows).
Proof.
  intros Hlabels Hnodup. unfold sort_by_order.
  rewrite filter_all, filter_none, app_nil_r; cycle 1.
  { eapply Forall_impl; [exact Hlabels |]. cbn beta. intros s Hs.
    rewrite order_of_label by done. apply bool_decide_eq_false.
    intros Hn. apply Hn. by eexists. }
  { eapply Forall_impl; [exact Hlabels |]. cbn beta. intros s Hs.
    rewrite order_of_label by done. apply bool_decide_eq_true. by eexists. }
  pose (key := λ s, default 0%Z (order_of (stats_segment s))).
  pose proof (sort_by_ascending_perm key rows) as Hperm.
  pose proof (sort_by_ascending key rows) as Hsorted.
  change (sort_by _ rows)
    with (sort_by (λ y x, bool_decide (key y < key x)%Z) rows).
  split; [done |].
  apply (StronglySorted_on
           (λ a b, key a < key b)%Z _
           (λ s, stats_segment s ∈ SEGMENT_DEFINITIONS.*1)).
  - intros a b Ha Hb. unfold key.
    by rewrite !order_of_label.
  - by rewrite Hperm.
  - apply (FrequencyExtras.strictly_sorted key); [done |].
    rewrite Hperm.
    change (key <$> rows)
      with ((λ label, default 0%Z (order_of label)) ∘ stats_segment <$> rows).
    rewrite list_fmap_compose.
    apply NoDup_fmap_2_strong; [| done].
    intros a b Ha Hb Hkey.
    apply list_elem_of_fmap in Ha as (sa & -> & Ha).
    apply list_elem_of_fmap in Hb as (sb & -> & Hb).
    rewrite Forall_forall in Hlabels.
    rewrite !order_of_label in Hkey by auto. cbn [default] in Hkey.
    apply segment_rank_inj; auto.
Qed.

(** *** The groups *)

Section Groups.

Variable t : DataFrame.

Local Abbreviation label_of := (λ r : row, assign_segment (frequency (base r))).
Local Abbreviation labels := (label_of <$> t).
Local Abbreviation spend := (λ r : row, total_spend (base r)).

Lemma mask_rows_fmap_both (p : row → bool) (g : row → row) (t0 : DataFrame) :
  mask_rows (p <$> t0) (g <$> t0) = g <$> List.filter p t0.
Proof.
  induction t0 as [| r t0 IH]; [done |]. cbn.
  destruct (p r); cbn; by rewrite IH.
Qed.

Lemma groupby_segmented :
  groupby_segment labels (segmented t)
  = (λ k, (k, (λ r, set_segment (label_of r) r) <$> members k t))
      <$> group_keys labels.
Proof.
  unfold groupby_segment, segmented. apply list_fmap_ext. intros _ k _.
  f_equal. rewrite <- list_fmap_compose. apply mask_rows_fmap_both.
Qed.

Lemma group_keys_perm : group_keys labels ≡ₚ remove_dups labels.
Proof. apply merge_sort_Permutation. Qed.

Lemma elem_of_group_keys k :
  k ∈ group_keys labels ↔ ∃ r, r ∈ t ∧ label_of r = k.
Proof.
  rewrite group_keys_perm, elem_of_remove_dups, list_elem_of_fmap.
  split; intros (r & Hr & Hk); by exists r.
Qed.

Lemma NoDup_group_keys : NoDup (group_keys labels).
Proof. rewrite group_keys_perm. apply NoDup_remove_dups. Qed.

Lemma members_nonempty k : k ∈ group_keys labels → members k t ≠ [].
Proof.
  intros (r & Hr & Hk)%elem_of_group_keys Hnil.
  assert (r ∈ members k t) as Hin; [| rewrite Hnil in Hin; by inversion Hin].
  apply list_elem_of_In, filter_In. split; [by apply list_elem_of_In |].
  by apply bool_decide_eq_true.
Qed.

Lemma members_cons k r t0 :
  members k (r :: t0)
  = if bool_decide (label_of r = k) then r :: members k t0
    else members k t0.
Proof. reflexivity. Qed.

Lemma label_selected k (r : row) :
  bool_decide (label_of r = k) = true ↔ Some (label_of r) = Some k.
Proof. rewrite bool_decide_eq_true. split; congruence. Qed.

Lemma all_grouped (t0 : DataFrame) :
  List.filter (λ r, bool_decide (is_Some (Some (label_of r)))) t0 = t0.
Proof.
  apply filter_all, Forall_true. intros r.
  apply bool_decide_eq_true. by eexists.
Qed.

Lemma count_members (keys : list string) t0 :
  NoDup keys → Forall (λ r, label_of r ∈ keys) t0 →
  foldr Z.add 0%Z ((λ k, Z.of_nat (length (members k t0))) <$> keys)
  = Z.of_nat (length t0).
Proof.
  intros Hkeys Hcover.
  transitivity
    (Z.of_nat
       (length
          (List.filter (λ r, bool_decide (is_Some (Some (label_of r)))) t0)));
    [| by rewrite all_grouped].
  apply (sum_over_groups_Z (λ r, Some (label_of r)) _ label_selected
           (λ l, Z.of_nat (length l)) (λ _, 1%Z)); [done | | done |].
  - intros x l. cbn [length]. lia.
  - eapply Forall_impl; [exact Hcover |]. by intros r Hr k [= <-].
Qed.

(** The rows of the summary before they are sorted: one per group key. *)
Local Abbreviation unsorted :=
  (aggregate_group
     <$> ((λ k, (k, (λ r, set_segment (label_of r) r) <$> members k t))
            <$> group_keys labels)).

Lemma unsorted_labels : stats_segment <$> unsorted = group_keys labels.
Proof.
  rewrite <- !list_fmap_compose.
  etrans; [| apply list_fmap_id]. by apply list_fmap_ext.
Qed.

Lemma unsorted_counts :
  customer_count <$> unsorted
  = (λ k, Z.of_nat (length (members k t))) <$> group_keys labels.
Proof.
  rewrite <- !list_fmap_compose. apply list_fmap_ext. intros _ k _. cbn.
  by rewrite !length_fmap.
Qed.

Lemma unsorted_row s :
  s ∈ unsorted →
  stats_segment s ∈ group_keys labels ∧
  customer_count s = Z.of_nat (length (members (stats_segment s) t)).
Proof.
  intros Hs. rewrite <- list_fmap_compose in Hs.
  apply list_elem_of_fmap in Hs as (k & -> & Hk). cbn.
  by rewrite !length_fmap.
Qed.

Lemma segment_column (t0 : DataFrame) :
  mapM col_segment (segmented t0) = Some (label_of <$> t0).
Proof.
  induction t0 as [| r t0 IH]; [done |].
  unfold segmented in *. rewrite !fmap_cons.
  change (mapM col_segment (?x :: ?l))
    with (y ← col_segment x; k ← mapM col_segment l; mret (y :: k)).
  by rewrite IH.
Qed.

Lemma segment_summary_spec h l :
  h !! l = Some t →
  returns (df ⇐ assign_segments l ;; get_segment_summary df) h
    (λ rows h', rows = sort_by_order unsorted).
Proof.
  intros Hl. apply returns_bind.
  eapply returns_mono; [by apply assign_segments_spec |].
  intros df h' [Hfresh ->]. unfold get_segment_summary.
  apply returns_bind.
  apply (returns_getitem_added _ _ _ _ (segmented t) labels).
  { apply lookup_insert_eq. }
  { apply segment_column. }
  apply returns_bind, (returns_load _ _ (segmented t)).
  { apply lookup_insert_eq. }
  apply returns_ret. by rewrite groupby_segmented.
Qed.

Lemma all_labelled :
  Forall (λ s, stats_segment s ∈ SEGMENT_DEFINITIONS.*1) unsorted.
Proof.
  apply Forall_forall. intros s Hs.
  apply unsorted_row in Hs as [Hk _].
  apply elem_of_group_keys in Hk as (r & _ & <-).
  apply assign_segment_label.
Qed.

Lemma sorted_summary :
  sort_by_order unsorted ≡ₚ unsorted ∧
  StronglySorted
    (λ a b, segment_rank (stats_segment a) < segment_rank (stats_segment b))%Z
    (sort_by_order unsorted).
Proof.
  apply sort_by_order_labelled; [apply all_labelled |].
  rewrite unsorted_labels. apply NoDup_group_keys.
Qed.

Lemma tier_order_holds h' :
  summary_in_tier_order t (sort_by_order unsorted) h'.
Proof.
  destruct sorted_summary as [Hperm Hsorted].
  split_and!; [done | |].
  - rewrite Hperm. apply Forall_forall. intros s Hs.
    pose proof all_labelled as Hlabels.
    rewrite Forall_forall in Hlabels. split; [by apply Hlabels |].
    apply unsorted_row in Hs as (Hk & ->).
    apply members_nonempty in Hk.
    destruct (members _ t); [done | cbn; lia].
  - intros r Hr.
    assert (label_of r ∈ stats_segment <$> sort_by_order unsorted) as Hin.
    { rewrite Hperm, unsorted_labels. apply elem_of_group_keys. eauto. }
    apply list_elem_of_fmap in Hin as (s & Heq & Hs). eauto.
Qed.

Lemma counts_hold h' : summary_counts t (sort_by_order unsorted) h'.
Proof.
  destruct sorted_summary as [Hperm _].
  assert (Forall (λ r, label_of r ∈ group_keys labels) t) as Hcover.
  { apply Forall_forall. intros r Hr. apply elem_of_group_keys. eauto. }
  split.
  - rewrite Hperm. apply Forall_forall. intros s Hs.
    by apply unsorted_row in Hs as [_ Hcount].
  - rewrite (sum_Z_perm _ _ (fmap_Permutation _ _ _ Hperm)).
    rewrite unsorted_counts.
    apply count_members; [apply NoDup_group_keys | done].
Qed.

End Groups.

(** X20. On a table with a row that has no segment column, as the
    aggregate before [assign_segments], [get_segment_summary] raises
    KeyError for the column segment. *)
Theorem segment_summary_needs_segments h l (t : DataFrame) r :
  h !! l = Some t → r ∈ t → col_segment r = None →
  get_segment_summary l h = Raises (KeyError "segment").
Proof.
  intros Hl Hr Hnone.
  assert (mapM col_segment t = None) as Hcolumn.
  { apply mapM_None_2, Exists_exists. eauto. }
  unfold get_segment_summary, getitem_added, bind, load.
  by rewrite Hl, Hcolumn.
Qed.

Lemma segment_summary_needs_segments_witness :
  get_segment_summary 1 (store_of salon) = Raises (KeyError "segment").
Proof.
  apply (segment_summary_needs_segments _ _ salon (client "Ana" 1 30 90));
    [reflexivity | apply list_elem_of_here | reflexivity].
Defined.

(** X18. The segment summary of a segmented aggregate has one row for each
    label that a customer has and none for the others, the labels being
    keys of [SEGMENT_DEFINITIONS], in the order Explorer, Casual, Regular,
    Superuser. *)
Theorem segment_summary_tier_order h l t :
  h !! l = Some t →
  returns (df ⇐ assign_segments l ;; get_segment_summary df) h
    (summary_in_tier_order t).
Proof.
  intros Hl.
  eapply returns_mono; [by apply segment_summary_spec |].
  intros rows h' ->. apply tier_order_holds.
Qed.

Lemma segment_summary_tier_order_witness :
  returns (df ⇐ assign_segments 1 ;; get_segment_summary df)
    (store_of salon) (summary_in_tier_order salon).
Proof. by apply segment_summary_tier_order. Defined.

(** X19. In the segment summary of a segmented aggregate the
    customer_count of each row is the number of customers with its label,
    and over the rows the counts add up to the number of customers of the
    aggregate. *)
Theorem segment_summary_counts h l t :
  h !! l = Some t →
  returns (df ⇐ assign_segments l ;; get_segment_summary df) h
    (summary_counts t).
Proof.
  intros Hl.
  eapply returns_mono; [by apply segment_summary_spec |].
  intros rows h' ->. apply counts_hold.
Qed.

Lemma segment_summary_counts_witness :
  returns (df ⇐ assign_segments 1 ;; get_segment_summary df)
    (store_of salon) (summary_counts salon).
Proof. by apply segment_summary_counts. Defined.

End SummaryExtras.

Module AggregationExtras.

Import Churn ValueModel SegmentSummary DataLoader ExtraSpec.
Import ChurnFacts GroupingFacts.

(** *** The window *)

Lemma filter_both {A} (p q : A → bool) (l : list A) :
  List.filter q (List.filter p l) = List.filter (λ x, p x && q x) l.
Proof.
  induction l as [| x l IH]; [done |]. cbn.
  destruct (p x); cbn; [destruct (q x) |]; by rewrite IH.
Qed.

Lemma aggregate_to_customers_window df start_date end_date today :
  aggregate_to_customers df start_date end_date today
  = aggregate_client today
      <$> groupby_client_name (List.filter (in_window start_date end_date) df).
Proof.
  unfold aggregate_to_customers. do 2 f_equal.
  destruct start_date as [ts1 |], end_date as [ts2 |];
    unfold from_date, until_date, in_window.
  - apply filter_both.
  - apply filter_ext. intros tx. by rewrite andb_true_r.
  - done.
  - symmetry. by apply filter_all, Forall_true.
Qed.

(** *** The groups *)

Lemma name_selected k tx :
  bool_decide (tx_client_name tx = Some k) = true ↔ tx_client_name tx = Some k.
Proof. apply bool_decide_eq_true. Qed.

Section Clients.

Variable window : list transaction.
Variable today : Z.

Local Abbreviation names := (group_keys (omap tx_client_name window)).
Local Abbreviation visits :=
  (λ k, List.filter (λ tx, bool_decide (tx_client_name tx = Some k)) window).
Local Abbreviation rows :=
  (aggregate_client today <$> groupby_client_name window).

Lemma NoDup_names : NoDup names.
Proof.
  unfold group_keys. rewrite merge_sort_Permutation. apply NoDup_remove_dups.
Qed.

Lemma elem_of_names k :
  k ∈ names ↔ ∃ tx, tx ∈ window ∧ tx_client_name tx = Some k.
Proof.
  unfold group_keys.
  by rewrite merge_sort_Permutation, elem_of_remove_dups, list_elem_of_omap.
Qed.

Lemma rows_names : agg_client_name <$> rows = names.
Proof.
  unfold groupby_client_name. rewrite <- !list_fmap_compose.
  etrans; [| apply list_fmap_id]. by apply list_fmap_ext.
Qed.

Lemma rows_frequencies :
  agg_frequency <$> rows
  = (λ k, Z.of_nat (length (omap tx_start (visits k)))) <$> names.
Proof.
  unfold groupby_client_name. rewrite <- !list_fmap_compose.
  by apply list_fmap_ext.
Qed.

Lemma elem_of_rows c :
  c ∈ rows →
  ∃ k, c = aggregate_client today (k, visits k) ∧ visits k ≠ [] ∧
       Forall (λ tx, tx ∈ window) (visits k).
Proof.
  unfold groupby_client_name. rewrite <- list_fmap_compose.
  intros (k & -> & Hk)%list_elem_of_fmap. exists k. split_and!; [done | |].
  - apply elem_of_names in Hk as (tx & Htx & Hname).
    assert (tx ∈ visits k) as Hin.
    { apply list_elem_of_In, filter_In. split; [by apply list_elem_of_In |].
      by apply bool_decide_eq_true. }
    cbn beta in *. intros Hnil. rewrite Hnil in Hin. by inversion Hin.
  - apply Forall_forall. intros tx Htx.
    by apply list_elem_of_In, filter_In, proj1, list_elem_of_In in Htx.
Qed.

Lemma names_cover :
  Forall (λ tx, ∀ k, tx_client_name tx = Some k → k ∈ names) window.
Proof.
  apply Forall_forall. intros tx Htx k Hk. apply elem_of_names. eauto.
Qed.

Lemma frequencies_total :
  foldr Z.add 0%Z (agg_frequency <$> rows)
  = Z.of_nat
      (length
         (omap tx_start
            (List.filter (λ tx, bool_decide (is_Some (tx_client_name tx)))
                         window))).
Proof.
  rewrite rows_frequencies.
  apply (sum_over_groups_Z tx_client_name _ name_selected
           (λ l, Z.of_nat (length (omap tx_start l)))
           (λ tx, match tx_start tx with Some _ => 1 | None => 0 end)%Z).
  - done.
  - intros tx l. cbn [omap list_omap]. fold (omap tx_start l).
    destruct (tx_start tx); cbn [length]; lia.
  - apply NoDup_names.
  - apply names_cover.
Qed.

End Clients.

(** *** The dates of a client *)

Lemma series_min_cons x s :
  series_min (x :: s)
  = Some (match series_min s with Some m => Z.min x m | None => x end).
Proof. reflexivity. Qed.

Lemma series_min_is_min s m :
  series_min s = Some m → m ∈ s ∧ Forall (λ x, m ≤ x)%Z s.
Proof.
  revert m. induction s as [| x s IH]; intros m; [done |].
  rewrite series_min_cons.
  destruct (series_min s) as [m' |] eqn:Hs; intros [= <-].
  - destruct (IH m' eq_refl) as [Hin Hle]. split.
    + destruct (Z.min_spec x m') as [[_ ->] | [_ ->]];
        [apply list_elem_of_here | by apply list_elem_of_further].
    + constructor; [lia |].
      eapply Forall_impl; [exact Hle |]. cbn. intros; lia.
  - destruct s; [| discriminate]. split; [apply list_elem_of_here |].
    constructor; [lia | constructor].
Qed.

Lemma length_omap_total {A B} (f : A → option B) (l : list A) :
  Forall (λ x, is_Some (f x)) l → length (omap f l) = length l.
Proof.
  induction 1 as [| x l [y Hy] _ IH]; [done |].
  cbn [omap list_omap]. fold (omap f l). rewrite Hy. cbn. by rewrite IH.
Qed.

Lemma in_window_bounds start_date end_date tx s :
  in_window start_date end_date tx = true → tx_start tx = Some s →
  (∀ ts, start_date = Some ts → ts ≤ s)%Z ∧
  (∀ ts, end_date = Some ts → s ≤ ts)%Z.
Proof.
  unfold in_window. intros [H1 H2]%andb_true_iff Hs. rewrite Hs in H1, H2.
  split; intros ts ->; [by apply bool_decide_eq_true in H1 |].
  by apply bool_decide_eq_true in H2.
Qed.

Lemma whole_days today last :
  (last ≤ today)%Z →
  (0 ≤ (today - last) `div` day)%Z ∧
  ((today - last) `div` day * day ≤ today - last
   < ((today - last) `div` day + 1) * day)%Z.
Proof.
  intros Hle. assert (0 < day)%Z as Hday by done.
  pose proof (Z.div_mod (today - last) day) as Hdiv.
  pose proof (Z.mod_pos_bound (today - last) day Hday) as Hmod.
  split; [apply Z.div_pos; lia | lia].
Qed.

(** X21. Whatever the transactions, the window and the day, the aggregate
    has exactly one row per client: no client name occurs twice, and the
    names are those of the transactions in the window (a transaction
    without a date is in no window with a bound). *)
Theorem aggregate_one_row_per_client df start_date end_date today :
  one_row_per_client df start_date end_date
    (aggregate_to_customers df start_date end_date today).
Proof.
  rewrite aggregate_to_customers_window. unfold one_row_per_client.
  rewrite rows_names. split; [apply NoDup_names |].
  intros k. rewrite elem_of_names.
  split; intros (tx & Htx & Hk); exists tx.
  - apply list_elem_of_In, filter_In in Htx as [Htx Hw].
    by apply list_elem_of_In in Htx.
  - destruct Hk as [Hw Hk]. split; [| done].
    apply list_elem_of_In, filter_In. by rewrite <- list_elem_of_In.
Qed.

(** X22. The aggregate neither loses nor repeats a visit: the frequencies
    of its rows add up to the number of dated transactions of the named
    clients in the window. *)
Theorem aggregate_conserves_visits df start_date end_date today :
  visits_conserved df start_date end_date
    (aggregate_to_customers df start_date end_date today).
Proof.
  rewrite aggregate_to_customers_window. apply frequencies_total.
Qed.

(** X23. Whatever the transactions, in every row of the aggregate the
    frequency is not negative and is 0 exactly when the recency is missing
    (the client has no dated transaction), and first_visit and
    days_since_visit are missing exactly when the recency is. *)
Theorem aggregate_dates_missing_together df start_date end_date today :
  dates_missing_together
    (aggregate_to_customers df start_date end_date today).
Proof.
  rewrite aggregate_to_customers_window. unfold dates_missing_together.
  apply Forall_forall. intros c (k & -> & _)%elem_of_rows.
  unfold aggregate_client. cbn [agg_frequency agg_recency agg_first_visit
    agg_days_since_visit snd].
  destruct (omap tx_start _) as [| s starts].
  - cbn. split_and!; done.
  - rewrite series_max_cons, series_min_cons. cbn [length fmap option_fmap
      option_map].
    split_and!; [lia | split; [lia | done] | done | done].
Qed.

(** X24. When every transaction has a date not after today and a price,
    every row of the aggregate has at least one visit; its first visit is
    not after its last, both are in the window and not after today;
    days_since_visit is the number of whole days from the last visit to
    today, so it is not negative; and avg_spend is not missing. *)
Theorem aggregate_rows_complete df start_date end_date today :
  all_dated df → all_priced df → none_later today df →
  rows_complete start_date end_date today
    (aggregate_to_customers df start_date end_date today).
Proof.
  unfold all_dated, all_priced, none_later. rewrite !Forall_forall.
  intros Hdated Hpriced Hlater.
  rewrite aggregate_to_customers_window. unfold rows_complete.
  apply Forall_forall. intros c (k & -> & Hne & Hin)%elem_of_rows.
  rewrite Forall_forall in Hin. cbn beta in Hne, Hin.
  set (g := List.filter _ (List.filter _ df)) in *.
  assert (∀ tx, tx ∈ g → tx ∈ df ∧ in_window start_date end_date tx = true)
    as Hg.
  { intros tx Htx. apply Hin, list_elem_of_In, filter_In in Htx.
    by rewrite <- list_elem_of_In in Htx. }
  assert (length (omap tx_start g) = length g) as Hstarts.
  { apply length_omap_total, Forall_forall. intros tx Htx.
    by apply Hdated, Hg. }
  assert (length (omap tx_estimated_price g) = length g) as Hprices.
  { apply length_omap_total, Forall_forall. intros tx Htx.
    by apply Hpriced, Hg. }
  assert (∀ s, s ∈ omap tx_start g →
               (s ≤ today)%Z ∧
               (∀ ts, start_date = Some ts → ts ≤ s)%Z ∧
               (∀ ts, end_date = Some ts → s ≤ ts)%Z) as Hs.
  { intros s (tx & Htx & Hstart)%list_elem_of_omap.
    destruct (Hg tx Htx) as [Hdf Hw].
    split; [by eapply Hlater | by eapply in_window_bounds]. }
  unfold aggregate_client. cbn [agg_frequency agg_recency agg_first_visit
    agg_days_since_visit agg_avg_spend agg_total_spend snd].
  destruct g as [| tx g]; [done |].
  destruct (omap tx_start (tx :: g)) as [| s starts] eqn:Hl; [done |].
  destruct (omap tx_estimated_price (tx :: g)) as [| p prices] eqn:Hp;
    [done |].
  destruct (series_max_nonempty s starts) as [last Hlast].
  destruct (series_min (s :: starts)) as [first |] eqn:Hfirst;
    [| by rewrite series_min_cons in Hfirst].
  pose proof (series_max_is_max _ _ Hlast) as [Hlast_in Hlast_max].
  pose proof (series_min_is_min _ _ Hfirst) as [Hfirst_in Hfirst_min].
  rewrite Forall_forall in Hlast_max, Hfirst_min.
  destruct (Hs _ Hlast_in) as (Hlast_today & _ & Hlast_end).
  destruct (Hs _ Hfirst_in) as (_ & Hfirst_start & _).
  pose proof (Hfirst_min _ Hlast_in) as Hfl.
  destruct (whole_days today last Hlast_today) as [Hd0 Hd].
  split; [cbn [length]; lia |].
  exists first, last, ((today - last) `div` day)%Z,
    (series_sum (p :: prices) / inject_Z (Z.of_nat (length (p :: prices))))%Q.
  rewrite Hlast. split_and!; try done; lia.
Qed.

Lemma aggregate_rows_complete_witness :
  rows_complete None None (10 * day)
    (aggregate_to_customers Bookings.bookings None None (10 * day)).
Proof.
  apply aggregate_rows_complete.
  - repeat (constructor; [by eexists |]). constructor.
  - repeat (constructor; [by eexists |]). constructor.
  - repeat (constructor; [by intros s [= <-] |]). constructor.
Defined.

End AggregationExtras.

Module PriceExtras.

Import SegmentSummary DataLoader.

Section Prices.

Variable hay : string.

Local Abbreviation step :=
  (λ '(total, matched) '(service, price),
     if negb (String.eqb service "default") && contains service hay
     then ((total + price)%Z, true)
     else (total, matched)).

Local Abbreviation listed :=
  (λ prices : list (string * Z),
     foldr Z.add 0%Z
       (List.filter (λ sp, negb (String.eqb sp.1 "default")) prices).*2).

Lemma listed_nonneg prices :
  Forall (λ sp : string * Z, 15 ≤ sp.2)%Z prices → (0 ≤ listed prices)%Z.
Proof.
  induction 1 as [| [service price] prices Hp _ IH]; [done |].
  cbn [List.filter fst]. destruct (negb _); [| done].
  rewrite fmap_cons. cbn [foldr snd] in *. lia.
Qed.

Lemma fold_prices prices total matched :
  Forall (λ sp : string * Z, 15 ≤ sp.2)%Z prices →
  fold_left step prices (total, matched) = (total, matched) ∨
  (fold_left step prices (total, matched)).2 = true ∧
  (total + 15 ≤ (fold_left step prices (total, matched)).1
   ≤ total + listed prices)%Z.
Proof.
  intros Hprices. revert total matched.
  induction Hprices as [| [service price] prices Hp Hrest IH];
    intros total matched; [by left |].
  pose proof (listed_nonneg _ Hrest) as Hnonneg.
  cbn [fold_left List.filter fst snd] in *.
  destruct (negb (String.eqb service "default")) eqn:Hlisted;
    cbn [andb]; [destruct (contains service hay) |].
  - right. rewrite fmap_cons. cbn [foldr snd].
    destruct (IH (total + price)%Z true) as [-> | [Hm Hr]];
      [cbn [fst snd]; lia | split; [done | lia]].
  - destruct (IH total matched) as [Heq | [Hm Hr]]; [by left | right].
    rewrite fmap_cons. cbn [foldr snd]. split; [done | lia].
  - destruct (IH total matched) as [Heq | [Hm Hr]]; [by left | by right].
Qed.

End Prices.

(** X25. Whatever the service string, missing or not, and whatever
    lower-casing does to it, the estimated price is between 15 and 635: at
    least the cheapest service, at most all thirteen services together. *)
Theorem estimate_price_range lower service_str :
  (15 ≤ estimate_price lower service_str ≤ 635)%Z.
Proof.
  destruct service_str as [service_str |]; [| done].
  unfold estimate_price.
  assert (Forall (λ sp : string * Z, 15 ≤ sp.2)%Z SERVICE_PRICES) as Hprices.
  { unfold SERVICE_PRICES. repeat (constructor; [by cbn |]). constructor. }
  destruct (fold_prices (lower service_str) SERVICE_PRICES 0 false Hprices)
    as [Heq | [Hm Hr]].
  - rewrite Heq. by cbn.
  - destruct (fold_left _ _ _) as [total matched].
    cbn [fst snd] in Hm, Hr. subst matched.
    change (foldr Z.add 0%Z _) with 635%Z in Hr. lia.
Qed.

End PriceExtras.

Module HealthExtras.

Import Segmentation Churn ValueModel DataLoader App.
Import SegmentationSpec ExtraSpec SegmentationFacts.
Local Open Scope py_scope.
Local Open Scope Q_scope.

Lemma int_range (x : Q) (n : Z) :
  0 <= x → x <= inject_Z n → (0 ≤ int x ≤ n)%Z.
Proof.
  destruct x as [p q]. unfold Qle, int. cbn. rewrite !Z.mul_1_r.
  intros Hp Hn. rewrite Z.quot_div_nonneg by lia. split.
  - apply Z.div_pos; lia.
  - apply Z.div_le_upper_bound; lia.
Qed.

Lemma rate_nonneg (c n : Z) :
  (0 ≤ c)%Z → (0 < n)%Z → 0 <= inject_Z c / inject_Z n.
Proof.
  intros Hc Hn. apply Qle_shift_div_l.
  - change 0 with (inject_Z 0). by rewrite <- Zlt_Qlt.
  - rewrite Qmult_0_l. change 0 with (inject_Z 0). by rewrite <- Zle_Qle.
Qed.

Lemma series_sum_nonneg (s : list Q) :
  Forall (λ x, 0 <= x) s → 0 <= series_sum s.
Proof.
  induction 1 as [| x s Hx _ IH]; [done |].
  change (series_sum (x :: s)) with (x + series_sum s). lra.
Qed.

Lemma series_mean_nonneg (s : list Q) :
  Forall (λ x, 0 <= x) s → 0 <= default 0 (series_mean s).
Proof.
  intros Hs. pose proof (series_sum_nonneg s Hs) as Hsum.
  destruct s as [| x s]; [done |].
  change (series_mean (x :: s))
    with (Some (series_sum (x :: s)
                / inject_Z (Z.of_nat (length (x :: s))))).
  cbn [default from_option]. unfold Datatypes.id.
  apply Qle_shift_div_l; [| lra].
  change 0 with (inject_Z 0). rewrite <- Zlt_Qlt. cbn [length]. lia.
Qed.

Lemma score_range (r1 r2 s3 a : Q) :
  0 <= r1 → 0 <= r2 → 0 <= s3 <= 25 → 0 <= a →
  (0 ≤ int (Qmin (fold_left Qplus
                    [Qmin (r1 * 100) 30; Qmin (r2 * 100 * 1.25) 25; s3;
                     Qmin (a / 200 * 10) 20] 0) 100)%Q ≤ 100)%Z.
Proof.
  intros H1 H2 H3 H4. cbn [fold_left].
  assert (0 <= a / 200 * 10) as H5.
  { apply Qmult_le_0_compat; [| done]. apply Qle_shift_div_l; [done | lra]. }
  assert (0 <= Qmin (r1 * 100) 30) as G1 by (apply Q.min_glb; [lra | done]).
  assert (0 <= Qmin (r2 * 100 * 1.25) 25) as G2
    by (apply Q.min_glb; [lra | done]).
  assert (0 <= Qmin (a / 200 * 10) 20) as G4
    by (apply Q.min_glb; [done | done]).
  apply int_range.
  - apply Q.min_glb; [lra | done].
  - apply Q.le_min_r.
Qed.

(** *** The conditional expressions of the score *)

Lemma returns_rate (c : Z) l h (t : DataFrame) (Φ : Q → heap → Prop) :
  h !! l = Some t → (0 ≤ c)%Z →
  (∀ q, 0 <= q → Φ q h) →
  returns (if bool_decide (0 < Z.of_nat (length t))%Z
           then n ⇐ len l ;; ret (inject_Z c / inject_Z n)
           else ret 0) h Φ.
Proof.
  intros Hl Hc HΦ. case_bool_decide as Hn.
  - do 3 py_step. by apply HΦ, rate_nonneg.
  - py_step. by apply HΦ.
Qed.

Lemma returns_avg_value l h (t : DataFrame) (Φ : Q → heap → Prop) :
  h !! l = Some t → spends_nonneg t →
  (∀ a, 0 <= a → Φ a h) →
  returns (if bool_decide (0 < Z.of_nat (length t))%Z
           then spend ⇐ getitem l total_spend ;;
                ret (default 0 (series_mean spend))
           else ret 0) h Φ.
Proof.
  intros Hl Hspend HΦ. case_bool_decide as Hn.
  - do 3 py_step. apply HΦ, series_mean_nonneg. by apply Forall_fmap.
  - py_step. by apply HΦ.
Qed.

Lemma returns_growth l h (t : DataFrame) raw_df (Φ : Q → heap → Prop) :
  h !! l = Some t →
  (∀ s, 0 <= s <= 25 → Φ s h) →
  returns
    (if bool_decide (0 < length raw_df)%nat
     then
       let recent_cutoff :=
         (λ m, m - 90 * day)%Z <$> series_max (omap tx_start raw_df) in
       let first_visits :=
         (λ g : string * list transaction, series_min (omap tx_start g.2))
           <$> groupby_client_name raw_df in
       let new_customers := count_recent first_visits recent_cutoff in
       n ⇐ len l ;;
       growth_rate ⇐
         (if bool_decide (0 < n)%Z
          then n ⇐ len l ;; ret (inject_Z new_customers / inject_Z n)
          else ret 0) ;;
       ret (Qmin (growth_rate * 100 * 2.5) 25)
     else ret 12.5) h Φ.
Proof.
  intros Hl HΦ. case_bool_decide as Hraw.
  - cbn zeta. do 3 py_step.
    eapply returns_rate; [py_lookup | unfold count_recent; lia |].
    intros q Hq. py_step. apply HΦ.
    split; [apply Q.min_glb; [lra | done] | apply Q.le_min_r].
  - py_step. apply HΦ. split; done.
Qed.

(** X26. On a table with a segment column and no negative spend the
    health score is between 0 and 100, whatever the transactions; the
    objects of the store are as they were. *)
Theorem health_score_range h l (t : DataFrame) raw_df :
  h !! l = Some t →
  Forall (λ r, is_Some (col_segment r)) t →
  spends_nonneg t →
  returns (calculate_health_score l raw_df) h (health_score_in_range h).
Proof.
  intros Hl Hsegment Hspend. unfold calculate_health_score.
  apply mapM_is_Some_2 in Hsegment as [labels Hlabels].
  do 9 py_step.
  eapply returns_rate; [py_lookup | lia | intros r1 Hr1].
  py_step. eapply returns_getitem_added; [py_lookup | exact Hlabels |].
  do 7 py_step.
  eapply returns_rate; [py_lookup | lia | intros r2 Hr2].
  py_step. eapply returns_growth; [py_lookup | intros s3 Hs3].
  do 3 py_step.
  eapply returns_avg_value; [py_lookup | done | intros a Ha].
  py_step. split; [| by apply score_range].
  match goal with
  | H : <[_ := _]> _ !! _ = None |- _ =>
      apply lookup_insert_None in H as [? ?]
  end.
  repeat (apply insert_subseteq_r; [done |]). done.
Qed.

(** X27. With no customer the health score is 12 when there is no
    transaction either and 0 when there is one: the score of an empty
    aggregate after [assign_segments]. *)
Theorem health_score_nobody h l raw_df :
  h !! l = Some [] →
  returns (df ⇐ assign_segments l ;; calculate_health_score df raw_df) h
    (health_score_of_nobody raw_df).
Proof.
  intros Hl. apply returns_bind.
  eapply returns_mono; [by apply assign_segments_spec |].
  intros df h' [Hfresh ->]. unfold calculate_health_score.
  change (segmented []) with ([] : DataFrame).
  assert (bool_decide (0 < Z.of_nat (length ([] : DataFrame)))%Z = false)
    as Hnobody by done.
  do 9 py_step. rewrite Hnobody. do 2 py_step.
  eapply returns_getitem_added; [py_lookup | reflexivity |].
  do 7 py_step. rewrite Hnobody. do 2 py_step.
  destruct raw_df as [| tx raw_df].
  - rewrite bool_decide_eq_false_2 by (cbn; lia).
    do 4 py_step. rewrite Hnobody. do 2 py_step. reflexivity.
  - rewrite bool_decide_eq_true_2 by (cbn; lia). cbn zeta.
    do 3 py_step. rewrite Hnobody. do 5 py_step. rewrite Hnobody.
    do 2 py_step. reflexivity.
Qed.

Lemma health_score_range_witness :
  returns (calculate_health_score 1 Bookings.bookings)
    (Examples.store_of (segmented Examples.salon))
    (health_score_in_range (Examples.store_of (segmented Examples.salon))).
Proof.
  apply (health_score_range _ _ (segmented Examples.salon)).
  - reflexivity.
  - repeat (constructor; [by eexists |]). constructor.
  - repeat (constructor; [by vm_compute |]). constructor.
Defined.

Lemma health_score_nobody_witness :
  returns (df ⇐ assign_segments 1 ;; calculate_health_score df [])
    (Examples.store_of []) (health_score_of_nobody []).
Proof. by apply health_score_nobody. Defined.

End HealthExtras.
